(** * InfraNest core: DSL validation, normalisation, security gate and
      code generators, embedded in Rocq.

    The Python sources embedded here are
      - [infranest/core/parsers/dsl_parser.py]        (class [DSLParser])
      - [infranest/core/generators/base_generator.py] (class [BaseGenerator])
      - [infranest/core/generators/django_generator.py]
      - [infranest/core/generators/go_generator.py]
      - [infranest/core/generators/rails_generator.py]

    Modelling conventions.
      - A Python [str] is a Rocq [string]; every character stands for the
        code point with the same number (0..255).
      - A decoded document (what [json.loads] / [yaml.safe_load] return) is
        a [value]: a tree of [None], booleans, integers, strings, lists and
        insertion-ordered dictionaries with string keys.  Floats are left
        out.
      - Python exceptions are explicit: a function that can raise returns a
        [result].
      - Where the source mutates an object that the caller can still reach
        ([DSLParser._normalize_spec]), objects live in a [heap] and are
        passed by reference (module [Heap]); the function on values
        ([DSLParser._normalize_spec]) is what that run returns, read back
        from the store (theorem [normalize_spec_refines]). *)

From Stdlib Require Import String Ascii List ZArith Bool Lia Arith DecimalString.
Import ListNotations.
Open Scope string_scope.

Set Implicit Arguments.

(* ------------------------------------------------------------------ *)
(** * Exceptions *)

Inductive exn : Type :=
| TypeError
| AttributeError
| KeyError (key : string)
| RuntimeError
| ValueError (msg : string).

Inductive result (A : Type) : Type :=
| Ok (a : A)
| Raise (e : exn).

Arguments Ok {A} a.
Arguments Raise {A} e.

Definition bind {A B : Type} (m : result A) (k : A -> result B) : result B :=
  match m with
  | Ok a => k a
  | Raise e => Raise e
  end.

Declare Scope py_scope.
Delimit Scope py_scope with py.
Notation "x <- m ;; k" := (bind m (fun x => k))
  (at level 61, m at next level, right associativity) : py_scope.
Notation "' p <- m ;; k" := (bind m (fun x => match x with p => k end))
  (at level 61, p pattern, m at next level, right associativity) : py_scope.
Open Scope py_scope.

(** A Python [for] loop whose body updates the loop state and may raise. *)
Fixpoint for_each {A S : Type} (l : list A) (body : A -> S -> result S) (s : S)
  : result S :=
  match l with
  | [] => Ok s
  | a :: l' => s' <- body a s ;; for_each l' body s'
  end.

(* ------------------------------------------------------------------ *)
(** * Characters and strings *)

Definition chr (n : N) : ascii := ascii_of_N n.
Definition ord (c : ascii) : N := N_of_ascii c.

(** The double quote, written apart so that the literals below stay
    readable. *)
Definition dq : string := String (chr 34) "".
Definition dq3 : string := dq ++ dq ++ dq.
Definition nl : string := String (chr 10) "".

Definition in_range (lo hi : N) (c : ascii) : bool :=
  N.leb lo (ord c) && N.leb (ord c) hi.

Definition is_upper_az (c : ascii) : bool := in_range 65 90 c.
Definition is_lower_az (c : ascii) : bool := in_range 97 122 c.
Definition is_digit (c : ascii) : bool := in_range 48 57 c.

(** [str.lower()] on code points 0..255: A-Z, and the Latin-1 capitals
    U+00C0..U+00DE without the multiplication sign U+00D7. *)
Definition lower_char (c : ascii) : ascii :=
  if is_upper_az c then chr (ord c + 32)%N
  else if in_range 192 222 c && negb (N.eqb (ord c) 215) then chr (ord c + 32)%N
  else c.

Fixpoint lower (s : string) : string :=
  match s with
  | EmptyString => EmptyString
  | String c s' => String (lower_char c) (lower s')
  end.

Fixpoint string_existsb (p : ascii -> bool) (s : string) : bool :=
  match s with
  | EmptyString => false
  | String c s' => p c || string_existsb p s'
  end.

Fixpoint concat_map {A : Type} (f : A -> string) (l : list A) : string :=
  match l with
  | [] => EmptyString
  | a :: l' => f a ++ concat_map f l'
  end.

Fixpoint string_flat_map (f : ascii -> string) (s : string) : string :=
  match s with
  | EmptyString => EmptyString
  | String c s' => f c ++ string_flat_map f s'
  end.

(** [sep.join(l)] *)
Fixpoint join (sep : string) (l : list string) : string :=
  match l with
  | [] => EmptyString
  | [x] => x
  | x :: l' => x ++ sep ++ join sep l'
  end.

(** [needle in haystack] for two strings. *)
Fixpoint is_substring (needle hay : string) : bool :=
  prefix needle hay ||
  match hay with
  | EmptyString => false
  | String _ hay' => is_substring needle hay'
  end.

Definition hex_digit (n : N) : ascii :=
  if N.ltb n 10 then chr (48 + n)%N else chr (87 + n)%N.

(** Two lowercase hexadecimal digits of a code point below 256. *)
Definition hex2 (n : N) : string :=
  String (hex_digit (n / 16)%N) (String (hex_digit (n mod 16)%N) "").

Definition string_of_Z (z : Z) : string := NilZero.string_of_int (Z.to_int z).

(* ------------------------------------------------------------------ *)
(** * Regular expressions (the fragment of [re] the sources use) *)

Inductive regex : Type :=
| Void
| Eps
| Chr (p : ascii -> bool)
| Cat (r1 r2 : regex)
| Alt (r1 r2 : regex)
| Star (r : regex).

Fixpoint nullable (r : regex) : bool :=
  match r with
  | Void => false
  | Eps => true
  | Chr _ => false
  | Cat r1 r2 => nullable r1 && nullable r2
  | Alt r1 r2 => nullable r1 || nullable r2
  | Star _ => true
  end.

Definition is_void (r : regex) : bool :=
  match r with Void => true | _ => false end.

Definition is_eps (r : regex) : bool :=
  match r with Eps => true | _ => false end.

Definition cat (r1 r2 : regex) : regex :=
  if is_void r1 || is_void r2 then Void
  else if is_eps r1 then r2
  else Cat r1 r2.

Definition alt (r1 r2 : regex) : regex :=
  if is_void r1 then r2
  else if is_void r2 then r1
  else Alt r1 r2.

Fixpoint deriv (c : ascii) (r : regex) : regex :=
  match r with
  | Void => Void
  | Eps => Void
  | Chr p => if p c then Eps else Void
  | Cat r1 r2 =>
      if nullable r1 then alt (cat (deriv c r1) r2) (deriv c r2)
      else cat (deriv c r1) r2
  | Alt r1 r2 => alt (deriv c r1) (deriv c r2)
  | Star r1 => cat (deriv c r1) (Star r1)
  end.

(** The whole of [s] is matched by [r]. *)
Fixpoint fullmatch (r : regex) (s : string) : bool :=
  match s with
  | EmptyString => nullable r
  | String c s' => fullmatch (deriv c r) s'
  end.

(** Some prefix of [s] is matched by [r]. *)
Fixpoint match_prefix (r : regex) (s : string) : bool :=
  nullable r ||
  match s with
  | EmptyString => false
  | String c s' => match_prefix (deriv c r) s'
  end.

(** [re.search(r, s)] finds a match: some substring of [s] is matched. *)
Fixpoint search (r : regex) (s : string) : bool :=
  match_prefix r s ||
  match s with
  | EmptyString => false
  | String _ s' => search r s'
  end.

(** [re.match('^' r '$', s)] without [re.MULTILINE]: [$] matches at the end
    of the string and also just before a newline that ends it. *)
Definition match_dollar (r : regex) (s : string) : bool :=
  fullmatch r s || fullmatch (Cat r (Chr (Ascii.eqb (chr 10)))) s.

(** Pattern builders.  [ci] says whether [re.IGNORECASE] is on; on code
    points 0..255 it identifies exactly the ASCII letters with their other
    case for the pattern letters used here. *)
Definition lit_char (ci : bool) (c : ascii) : regex :=
  if ci then Chr (fun x => Ascii.eqb (lower_char x) (lower_char c))
  else Chr (Ascii.eqb c).

Fixpoint lit (ci : bool) (s : string) : regex :=
  match s with
  | EmptyString => Eps
  | String c s' => Cat (lit_char ci c) (lit ci s')
  end.

Fixpoint alts (l : list regex) : regex :=
  match l with
  | [] => Void
  | [r] => r
  | r :: l' => Alt r (alts l')
  end.

Fixpoint cats (l : list regex) : regex :=
  match l with
  | [] => Eps
  | [r] => r
  | r :: l' => Cat r (cats l')
  end.

Definition plus (r : regex) : regex := Cat r (Star r).

(** [\s] for a [str] pattern, on code points 0..255. *)
Definition is_space (c : ascii) : bool :=
  in_range 9 13 c || in_range 28 32 c || N.eqb (ord c) 133 || N.eqb (ord c) 160.

Definition ws : regex := Star (Chr is_space).

(** [.] (no [re.DOTALL]): any character but a newline. *)
Definition dot : regex := Chr (fun c => negb (N.eqb (ord c) 10)).

(** ** What a pattern matches

    [matches r s]: the pattern [r] matches exactly the string [s];
    [occurs r s]: it matches some substring of [s] (what [re.search]
    looks for). *)
Inductive matches : regex -> string -> Prop :=
| MEps : matches Eps EmptyString
| MChr (p : ascii -> bool) (c : ascii) :
    p c = true -> matches (Chr p) (String c EmptyString)
| MCat (r1 r2 : regex) (s1 s2 : string) :
    matches r1 s1 -> matches r2 s2 -> matches (Cat r1 r2) (s1 ++ s2)
| MAltL (r1 r2 : regex) (s : string) :
    matches r1 s -> matches (Alt r1 r2) s
| MAltR (r1 r2 : regex) (s : string) :
    matches r2 s -> matches (Alt r1 r2) s
| MStarNil (r : regex) : matches (Star r) EmptyString
| MStarApp (r : regex) (s1 s2 : string) :
    matches r s1 -> matches (Star r) s2 -> matches (Star r) (s1 ++ s2).


(* ------------------------------------------------------------------ *)
(** * Decoded documents *)

Unset Elimination Schemes.
Inductive value : Type :=
| VNone
| VBool (b : bool)
| VInt (z : Z)
| VStr (s : string)
| VList (l : list value)
| VDict (d : list (string * value)).
Set Elimination Schemes.

(** Dictionaries keep insertion order; [lookup] returns the first binding
    of a key (a Python [dict] holds at most one). *)
Fixpoint lookup {A : Type} (k : string) (d : list (string * A)) : option A :=
  match d with
  | [] => None
  | (k', v) :: d' => if String.eqb k k' then Some v else lookup k d'
  end.

Definition has_key {A : Type} (k : string) (d : list (string * A)) : bool :=
  match lookup k d with Some _ => true | None => false end.

(** [d[k] = v]: an existing key keeps its position, a new key goes last. *)
Fixpoint setitem {A : Type} (k : string) (v : A) (d : list (string * A))
  : list (string * A) :=
  match d with
  | [] => [(k, v)]
  | (k', v') :: d' =>
      if String.eqb k k' then (k', v) :: d' else (k', v') :: setitem k v d'
  end.

Definition keys {A : Type} (d : list (string * A)) : list string := map fst d.
Definition values {A : Type} (d : list (string * A)) : list A := map snd d.

Definition is_str (s : string) (v : value) : bool :=
  match v with VStr s' => String.eqb s s' | _ => false end.

(** [v in l] for a list [l] of string literals. *)
Definition in_strs (v : value) (l : list string) : bool :=
  existsb (fun s => is_str s v) l.

(** [k in c] for a string [k]: key test on a dict, substring test on a
    string, element test on a list; other operands are not iterable. *)
Definition py_contains (k : string) (c : value) : result bool :=
  match c with
  | VDict d => Ok (has_key k d)
  | VStr s => Ok (is_substring k s)
  | VList l => Ok (existsb (is_str k) l)
  | _ => Raise TypeError
  end.

(** [c[k]] for a string [k]. *)
Definition py_getitem (c : value) (k : string) : result value :=
  match c with
  | VDict d =>
      match lookup k d with
      | Some v => Ok v
      | None => Raise (KeyError k)
      end
  | _ => Raise TypeError
  end.

(** [c.get(k, default)] *)
Definition py_get (c : value) (k : string) (default : value) : result value :=
  match c with
  | VDict d =>
      match lookup k d with
      | Some v => Ok v
      | None => Ok default
      end
  | _ => Raise AttributeError
  end.

(** [c.items()], [c.keys()], [c.values()] *)
Definition py_items (c : value) : result (list (string * value)) :=
  match c with
  | VDict d => Ok d
  | _ => Raise AttributeError
  end.

Definition py_keys (c : value) : result (list string) :=
  match c with
  | VDict d => Ok (keys d)
  | _ => Raise AttributeError
  end.

Definition py_values (c : value) : result (list value) :=
  match c with
  | VDict d => Ok (values d)
  | _ => Raise AttributeError
  end.

(** [c[k] = v] for a string [k]; the updated container is returned. *)
Definition py_setitem (c : value) (k : string) (v : value) : result value :=
  match c with
  | VDict d => Ok (VDict (setitem k v d))
  | _ => Raise TypeError
  end.

Fixpoint chars (s : string) : list value :=
  match s with
  | EmptyString => []
  | String c s' => VStr (String c "") :: chars s'
  end.

(** [for x in c] *)
Definition py_iter (c : value) : result (list value) :=
  match c with
  | VList l => Ok l
  | VDict d => Ok (map VStr (keys d))
  | VStr s => Ok (chars s)
  | _ => Raise TypeError
  end.

(** Truth value of an object. *)
Definition truthy (v : value) : bool :=
  match v with
  | VNone => false
  | VBool b => b
  | VInt z => negb (Z.eqb z 0)
  | VStr s => negb (String.eqb s "")
  | VList l => match l with [] => false | _ => true end
  | VDict d => match d with [] => false | _ => true end
  end.

(** ** [repr] and [str] *)

Definition is_printable (c : ascii) : bool :=
  in_range 32 126 c || (in_range 161 255 c && negb (N.eqb (ord c) 173)).

Definition repr_char (quote : ascii) (c : ascii) : string :=
  if Ascii.eqb c quote || N.eqb (ord c) 92 then String (chr 92) (String c "")
  else if N.eqb (ord c) 9 then "\t"
  else if N.eqb (ord c) 10 then "\n"
  else if N.eqb (ord c) 13 then "\r"
  else if is_printable c then String c ""
  else "\x" ++ hex2 (ord c).

Definition has_char (c : ascii) (s : string) : bool :=
  string_existsb (Ascii.eqb c) s.

(** [repr(s)] of a string: single quotes, unless the string holds a single
    quote and no double quote. *)
Definition repr_str (s : string) : string :=
  let quote := if has_char (chr 39) s && negb (has_char (chr 34) s)
               then chr 34 else chr 39 in
  String quote (string_flat_map (repr_char quote) s ++ String quote "").

Definition py_bool (b : bool) : string := if b then "True" else "False".

Fixpoint py_repr (v : value) : string :=
  match v with
  | VNone => "None"
  | VBool b => py_bool b
  | VInt z => string_of_Z z
  | VStr s => repr_str s
  | VList l => "[" ++ join ", " (map py_repr l) ++ "]"
  | VDict d =>
      "{" ++ join ", "
               (map (fun kv => repr_str (fst kv) ++ ": " ++ py_repr (snd kv)) d)
          ++ "}"
  end.

(** [str(v)], which is what an f-string placeholder [{v}] prints. *)
Definition py_str (v : value) : string :=
  match v with
  | VStr s => s
  | _ => py_repr v
  end.

(** [repr] of a list of strings, e.g. the [{supported_frameworks}] of an
    f-string. *)
Definition repr_strs (l : list string) : string := py_repr (VList (map VStr l)).

(** ** [json.dumps] *)

(** Default [ensure_ascii=True]: the two-character escapes, and [\uXXXX]
    for every other character outside [' '..'~']. *)
Definition json_escape_char (c : ascii) : string :=
  if N.eqb (ord c) 34 then "\" ++ dq
  else if N.eqb (ord c) 92 then "\\"
  else if N.eqb (ord c) 10 then "\n"
  else if N.eqb (ord c) 13 then "\r"
  else if N.eqb (ord c) 9 then "\t"
  else if N.eqb (ord c) 12 then "\f"
  else if N.eqb (ord c) 8 then "\b"
  else if in_range 32 126 c then String c ""
  else "\u00" ++ hex2 (ord c).

Definition json_str (s : string) : string :=
  dq ++ string_flat_map json_escape_char s ++ dq.

Fixpoint spaces (n : nat) : string :=
  match n with
  | O => EmptyString
  | S n' => String (chr 32) (spaces n')
  end.

(** [json.dumps(v, indent=indent)]; [level] is the nesting depth.  Without
    [indent] the separators are [", "] and [": "]; with it every item
    starts a line, indented by [indent] spaces per level. *)
Fixpoint json_dumps_at (indent : option nat) (level : nat) (v : value) : string :=
  let open_ := match indent with
               | None => EmptyString
               | Some n => nl ++ spaces (n * S level)
               end in
  let sep := match indent with
             | None => ", "
             | Some n => "," ++ nl ++ spaces (n * S level)
             end in
  let close_ := match indent with
                | None => EmptyString
                | Some n => nl ++ spaces (n * level)
                end in
  match v with
  | VNone => "null"
  | VBool b => if b then "true" else "false"
  | VInt z => string_of_Z z
  | VStr s => json_str s
  | VList l =>
      match l with
      | [] => "[]"
      | _ => "[" ++ open_ ++ join sep (map (json_dumps_at indent (S level)) l)
                 ++ close_ ++ "]"
      end
  | VDict d =>
      match d with
      | [] => "{}"
      | _ => "{" ++ open_
                 ++ join sep
                      (map (fun kv => json_str (fst kv) ++ ": "
                                      ++ json_dumps_at indent (S level) (snd kv)) d)
                 ++ close_ ++ "}"
      end
  end.

Definition json_dumps (v : value) : string := json_dumps_at None 0 v.
Definition json_dumps_indent (n : nat) (v : value) : string :=
  json_dumps_at (Some n) 0 v.

(* ------------------------------------------------------------------ *)
(** * [DSLParser] (dsl_parser.py) *)

Module DSLParser.

(** [__init__] *)
Definition required_sections : list string := ["meta"; "models"].
Definition optional_sections : list string :=
  ["auth"; "api"; "jobs"; "deployment"].
Definition field_types : list string :=
  ["string"; "text"; "integer"; "float"; "boolean"; "datetime";
   "date"; "uuid"; "url"; "email"; "json"; "foreign_key";
   "many_to_many"; "choice"].

Record validation_result : Type := mk_result {
  valid : bool;
  errors : list string;
  warnings : list string
}.

(** [r'^[a-z0-9-_]+$'] without its anchors *)
Definition name_class (c : ascii) : bool :=
  is_lower_az c || is_digit c || N.eqb (ord c) 45 || N.eqb (ord c) 95.
Definition project_name_re : regex := plus (Chr name_class).

(** [r'^[A-Z][a-zA-Z0-9]*$'] without its anchors *)
Definition alnum_class (c : ascii) : bool :=
  is_lower_az c || is_upper_az c || is_digit c.
Definition model_name_re : regex := Cat (Chr is_upper_az) (Star (Chr alnum_class)).

(** [re.match(pattern, v)]: a [TypeError] unless [v] is a string. *)
Definition re_match (r : regex) (v : value) : result bool :=
  match v with
  | VStr s => Ok (match_dollar r s)
  | _ => Raise TypeError
  end.

Definition supported_frameworks : list string := ["django"; "go-fiber"; "rails"].
Definition supported_providers : list string := ["jwt"; "oauth2"; "custom"].

(** Error and warning texts, as the f-strings of the source build them. *)
Definition missing_section_msg (section : string) : string :=
  "Missing required section: " ++ section.
Definition missing_meta_field_msg (field : string) : string :=
  "Missing required field in meta: " ++ field.
Definition unsupported_framework_msg (fw : value) : string :=
  "Unsupported framework: " ++ py_str fw ++ ". Supported: "
    ++ repr_strs supported_frameworks.
Definition project_name_msg : string :=
  "Project name must contain only lowercase letters, numbers, hyphens, and underscores".
Definition model_name_msg (model_name : string) : string :=
  "Model name '" ++ model_name
    ++ "' must start with uppercase letter and contain only letters and numbers".
Definition missing_fields_msg (model_name : string) : string :=
  "Model '" ++ model_name ++ "' must have a 'fields' section".
Definition missing_type_msg (field_name model_name : string) : string :=
  "Field '" ++ field_name ++ "' in model '" ++ model_name ++ "' must have a 'type'".
Definition invalid_type_msg (ty : value) (field_name model_name : string) : string :=
  "Invalid field type '" ++ py_str ty ++ "' for field '" ++ field_name
    ++ "' in model '" ++ model_name ++ "'".
Definition no_primary_key_msg (model_name : string) : string :=
  "Model '" ++ model_name
    ++ "' has no primary key. An 'id' field will be auto-generated.".
Definition multiple_primary_keys_msg (model_name : string) : string :=
  "Model '" ++ model_name ++ "' has multiple primary keys".
Definition missing_provider_msg : string :=
  "Auth section must specify a 'provider'".
Definition unsupported_provider_msg (p : value) : string :=
  "Unsupported auth provider: " ++ py_str p ++ ". Supported: "
    ++ repr_strs supported_providers.
Definition missing_path_msg : string := "API endpoint must have a 'path'".
Definition missing_method_msg : string := "API endpoint must have a 'method'".

(** [errors.append(msg)] when [cond] holds *)
Definition append_if (cond : bool) (msg : string) (errors : list string)
  : list string :=
  if cond then (errors ++ [msg])%list else errors.

Definition _validate_meta (meta : value) : result (list string) :=
  let errors := [] in
  let required_fields := ["name"; "version"; "framework"] in
  errors <- for_each required_fields
              (fun field errors =>
                 present <- py_contains field meta ;;
                 Ok (append_if (negb present) (missing_meta_field_msg field) errors))
              errors ;;
  (* Validate framework *)
  has_framework <- py_contains "framework" meta ;;
  errors <- (if has_framework then
               fw <- py_getitem meta "framework" ;;
               Ok (append_if (negb (in_strs fw supported_frameworks))
                             (unsupported_framework_msg fw) errors)
             else Ok errors) ;;
  (* Validate name format *)
  has_name <- py_contains "name" meta ;;
  errors <- (if has_name then
               name <- py_getitem meta "name" ;;
               m <- re_match project_name_re name ;;
               Ok (append_if (negb m) project_name_msg errors)
             else Ok errors) ;;
  Ok errors.

(** The body of the inner loop of [_validate_models], for one field; the
    loop state is the error list and [primary_key_count]. *)
Definition validate_field (model_name : string) (fd : string * value)
  (st : list string * nat) : result (list string * nat) :=
  let '(field_name, field_def) := fd in
  let '(errors, primary_key_count) := st in
  has_type <- py_contains "type" field_def ;;
  if negb has_type then
    (* errors.append(...); continue *)
    Ok ((errors ++ [missing_type_msg field_name model_name])%list,
        primary_key_count)
  else
    ty <- py_getitem field_def "type" ;;
    let errors := append_if (negb (in_strs ty field_types))
                            (invalid_type_msg ty field_name model_name) errors in
    (* Count primary keys *)
    pk <- py_get field_def "primary_key" (VBool false) ;;
    Ok (errors, if truthy pk then S primary_key_count else primary_key_count).

(** The body of the outer loop of [_validate_models], for one model; the
    loop state is [(errors, warnings)]. *)
Definition validate_model (md : string * value)
  (st : list string * list string) : result (list string * list string) :=
  let '(model_name, model_def) := md in
  let '(errors, warnings) := st in
  (* Validate model name *)
  let errors := append_if (negb (match_dollar model_name_re model_name))
                          (model_name_msg model_name) errors in
  (* Validate fields *)
  has_fields <- py_contains "fields" model_def ;;
  if negb has_fields then
    (* errors.append(...); continue *)
    Ok ((errors ++ [missing_fields_msg model_name])%list, warnings)
  else
    fields <- py_getitem model_def "fields" ;;
    items <- py_items fields ;;
    '(errors, primary_key_count) <-
       for_each items (validate_field model_name) (errors, 0) ;;
    (* Validate primary key *)
    if Nat.eqb primary_key_count 0 then
      Ok (errors, (warnings ++ [no_primary_key_msg model_name])%list)
    else if Nat.ltb 1 primary_key_count then
      Ok ((errors ++ [multiple_primary_keys_msg model_name])%list, warnings)
    else Ok (errors, warnings).

Definition _validate_models (models : value)
  : result (list string * list string) :=
  items <- py_items models ;;
  for_each items validate_model ([], []).

Definition _validate_auth (auth : value) : result (list string) :=
  let errors := [] in
  has_provider <- py_contains "provider" auth ;;
  let errors := append_if (negb has_provider) missing_provider_msg errors in
  provider <- py_get auth "provider" VNone ;;
  let errors := append_if (negb (in_strs provider supported_providers))
                          (unsupported_provider_msg provider) errors in
  Ok errors.

Definition validate_endpoint (endpoint : value) (errors : list string)
  : result (list string) :=
  has_path <- py_contains "path" endpoint ;;
  let errors := append_if (negb has_path) missing_path_msg errors in
  has_method <- py_contains "method" endpoint ;;
  let errors := append_if (negb has_method) missing_method_msg errors in
  Ok errors.

Definition _validate_api (api : value) : result (list string) :=
  let errors := [] in
  has_endpoints <- py_contains "endpoints" api ;;
  if has_endpoints then
    endpoints <- py_getitem api "endpoints" ;;
    endpoints <- py_iter endpoints ;;
    for_each endpoints validate_endpoint errors
  else Ok errors.

Definition validate (dsl_spec : value) : result validation_result :=
  let errors := [] in
  let warnings := [] in
  (* Check required sections *)
  errors <- for_each required_sections
              (fun section errors =>
                 present <- py_contains section dsl_spec ;;
                 Ok (append_if (negb present) (missing_section_msg section) errors))
              errors ;;
  (* Validate meta section *)
  has_meta <- py_contains "meta" dsl_spec ;;
  errors <- (if has_meta then
               meta <- py_getitem dsl_spec "meta" ;;
               meta_errors <- _validate_meta meta ;;
               Ok (errors ++ meta_errors)%list
             else Ok errors) ;;
  (* Validate models section *)
  has_models <- py_contains "models" dsl_spec ;;
  '(errors, warnings) <-
     (if has_models then
        models <- py_getitem dsl_spec "models" ;;
        '(model_errors, model_warnings) <- _validate_models models ;;
        Ok ((errors ++ model_errors)%list, (warnings ++ model_warnings)%list)
      else Ok (errors, warnings)) ;;
  (* Validate auth section *)
  has_auth <- py_contains "auth" dsl_spec ;;
  errors <- (if has_auth then
               auth <- py_getitem dsl_spec "auth" ;;
               auth_errors <- _validate_auth auth ;;
               Ok (errors ++ auth_errors)%list
             else Ok errors) ;;
  (* Validate API section *)
  has_api <- py_contains "api" dsl_spec ;;
  errors <- (if has_api then
               api <- py_getitem dsl_spec "api" ;;
               api_errors <- _validate_api api ;;
               Ok (errors ++ api_errors)%list
             else Ok errors) ;;
  Ok {| valid := Nat.eqb (List.length errors) 0;
        errors := errors;
        warnings := warnings |}.

(** ** [_normalize_spec], as a function on documents

    This is the document that [_normalize_spec] returns for a decoded
    document (a tree: no object is reachable along two paths).  The
    in-place update [model_def['fields']['id'] = ...] is rendered by
    rebuilding the enclosing dictionaries; what the caller's own object
    looks like afterwards is the subject of [Heap] below. *)

Definition synthetic_id : value :=
  VDict [("type", VStr "uuid");
         ("primary_key", VBool true);
         ("auto_generated", VBool true)].

(** [any(field.get('primary_key', False) for field in fields)]: stops at
    the first field whose flag is true. *)
Fixpoint any_primary_key (fields : list value) : result bool :=
  match fields with
  | [] => Ok false
  | field :: rest =>
      pk <- py_get field "primary_key" (VBool false) ;;
      if truthy pk then Ok true else any_primary_key rest
  end.

(** One iteration of the loop over the models. *)
Definition normalize_model (model_def : value) : result value :=
  has_fields <- py_contains "fields" model_def ;;
  if has_fields then
    fields <- py_getitem model_def "fields" ;;
    vals <- py_values fields ;;
    has_primary_key <- any_primary_key vals ;;
    if negb has_primary_key then
      (* Add auto-generated ID field *)
      has_id <- py_contains "id" fields ;;
      if negb has_id then
        fields <- py_setitem fields "id" synthetic_id ;;
        py_setitem model_def "fields" fields
      else Ok model_def
    else Ok model_def
  else Ok model_def.

Fixpoint normalize_models (items : list (string * value))
  : result (list (string * value)) :=
  match items with
  | [] => Ok []
  | (model_name, model_def) :: rest =>
      model_def <- normalize_model model_def ;;
      rest <- normalize_models rest ;;
      Ok ((model_name, model_def) :: rest)
  end.

(** [dsl_spec.copy()]: dictionaries and lists have it. *)
Definition py_copy (v : value) : result value :=
  match v with
  | VDict _ | VList _ => Ok v
  | _ => Raise AttributeError
  end.

Definition _normalize_spec (dsl_spec : value) : result value :=
  normalized <- py_copy dsl_spec ;;
  (* Add default values *)
  has_meta <- py_contains "meta" normalized ;;
  normalized <- (if negb has_meta then py_setitem normalized "meta" (VDict [])
                 else Ok normalized) ;;
  (* Ensure all models have primary keys *)
  has_models <- py_contains "models" normalized ;;
  models <- py_get normalized "models" (VDict []) ;;
  items <- py_items models ;;
  items <- normalize_models items ;;
  if has_models then py_setitem normalized "models" (VDict items)
  else Ok normalized.

(** [parse] *)
Definition parse (dsl_spec : value) : result value :=
  validation_result <- validate dsl_spec ;;
  if negb (valid validation_result) then
    Raise (ValueError ("Invalid DSL specification: "
                         ++ repr_strs (errors validation_result)))
  else _normalize_spec dsl_spec.

End DSLParser.

(* ------------------------------------------------------------------ *)
(** * Objects in a store: [_normalize_spec] with sharing

    [dsl_spec.copy()] is a shallow copy: the new dictionary holds the same
    references as the caller's, so the model and field dictionaries that
    the loop updates are the caller's own objects. *)

Module Heap.

Definition loc : Type := nat.

(** A reference: immutable objects are kept by value, dictionaries and
    lists by their location in the store. *)
Inductive ref : Type :=
| RNone
| RBool (b : bool)
| RInt (z : Z)
| RStr (s : string)
| RObj (l : loc).

Inductive obj : Type :=
| ODict (d : list (string * ref))
| OList (l : list ref).

Definition heap : Type := list obj.

Definition alloc (o : obj) (h : heap) : loc * heap :=
  (List.length h, (h ++ [o])%list).

Fixpoint store (l : loc) (o : obj) (h : heap) : heap :=
  match h, l with
  | [], _ => []
  | _ :: h', O => o :: h'
  | o' :: h', S l' => o' :: store l' o h'
  end.

Definition deref (h : heap) (l : loc) : option obj := nth_error h l.

(** Building the objects of a decoded document (what the decoder does):
    the objects of the children first, then the object itself. *)
Fixpoint load (v : value) (h : heap) : ref * heap :=
  match v with
  | VNone => (RNone, h)
  | VBool b => (RBool b, h)
  | VInt z => (RInt z, h)
  | VStr s => (RStr s, h)
  | VList l =>
      let '(rs, h1) :=
        (fix load_list (l : list value) (h : heap) : list ref * heap :=
           match l with
           | [] => ([], h)
           | x :: l' =>
               let '(r, h1) := load x h in
               let '(rs, h2) := load_list l' h1 in
               (r :: rs, h2)
           end) l h in
      (RObj (List.length h1), (h1 ++ [OList rs])%list)
  | VDict d =>
      let '(rs, h1) :=
        (fix load_dict (d : list (string * value)) (h : heap)
           : list (string * ref) * heap :=
           match d with
           | [] => ([], h)
           | (k, x) :: d' =>
               let '(r, h1) := load x h in
               let '(rs, h2) := load_dict d' h1 in
               ((k, r) :: rs, h2)
           end) d h in
      (RObj (List.length h1), (h1 ++ [ODict rs])%list)
  end.

(** The two inner loops of [load], by name. *)
Fixpoint load_list (l : list value) (h : heap) : list ref * heap :=
  match l with
  | [] => ([], h)
  | x :: l' =>
      let '(r, h1) := load x h in
      let '(rs, h2) := load_list l' h1 in
      (r :: rs, h2)
  end.

Fixpoint load_dict (d : list (string * value)) (h : heap)
  : list (string * ref) * heap :=
  match d with
  | [] => ([], h)
  | (k, x) :: d' =>
      let '(r, h1) := load x h in
      let '(rs, h2) := load_dict d' h1 in
      ((k, r) :: rs, h2)
  end.

(** ** Documents in the store

    [tree h lo hi r v]: in the store [h] the reference [r] stands for the
    document [v], and the objects of [v] are the locations [lo .. hi-1],
    those of the children before the object itself.  This is the layout
    that [load] builds; no object is shared. *)
Inductive tree (h : heap) : nat -> nat -> ref -> value -> Prop :=
| tree_none lo : tree h lo lo RNone VNone
| tree_bool lo b : tree h lo lo (RBool b) (VBool b)
| tree_int lo z : tree h lo lo (RInt z) (VInt z)
| tree_str lo s : tree h lo lo (RStr s) (VStr s)
| tree_list lo l rs vs :
    trees h lo l rs vs -> deref h l = Some (OList rs) ->
    tree h lo (S l) (RObj l) (VList vs)
| tree_dict lo l rd vd :
    entries h lo l rd vd -> deref h l = Some (ODict rd) ->
    tree h lo (S l) (RObj l) (VDict vd)
with trees (h : heap) : nat -> nat -> list ref -> list value -> Prop :=
| trees_nil lo : trees h lo lo [] []
| trees_cons lo mid hi r v rs vs :
    tree h lo mid r v -> trees h mid hi rs vs ->
    trees h lo hi (r :: rs) (v :: vs)
with entries (h : heap)
  : nat -> nat -> list (string * ref) -> list (string * value) -> Prop :=
| entries_nil lo : entries h lo lo [] []
| entries_cons lo mid hi k r v rd vd :
    tree h lo mid r v -> entries h mid hi rd vd ->
    entries h lo hi ((k, r) :: rd) ((k, v) :: vd).

(** [stands_for P h r v]: in [h] the reference [r] stands for [v], and
    every object looked at on the way satisfies [P]. *)
Inductive stands_for (P : loc -> Prop) (h : heap) : ref -> value -> Prop :=
| sf_none : stands_for P h RNone VNone
| sf_bool b : stands_for P h (RBool b) (VBool b)
| sf_int z : stands_for P h (RInt z) (VInt z)
| sf_str s : stands_for P h (RStr s) (VStr s)
| sf_list l rs vs :
    P l -> deref h l = Some (OList rs) -> stand_for P h rs vs ->
    stands_for P h (RObj l) (VList vs)
| sf_dict l rd vd :
    P l -> deref h l = Some (ODict rd) -> entries_for P h rd vd ->
    stands_for P h (RObj l) (VDict vd)
with stand_for (P : loc -> Prop) (h : heap) : list ref -> list value -> Prop :=
| sfs_nil : stand_for P h [] []
| sfs_cons r v rs vs :
    stands_for P h r v -> stand_for P h rs vs ->
    stand_for P h (r :: rs) (v :: vs)
with entries_for (P : loc -> Prop) (h : heap)
  : list (string * ref) -> list (string * value) -> Prop :=
| ef_nil : entries_for P h [] []
| ef_cons k r v rd vd :
    stands_for P h r v -> entries_for P h rd vd ->
    entries_for P h ((k, r) :: rd) ((k, v) :: vd).

Scheme tree_mut := Minimality for tree Sort Prop
  with trees_mut := Minimality for trees Sort Prop
  with entries_mut := Minimality for entries Sort Prop.
Combined Scheme tree_mutind from tree_mut, trees_mut, entries_mut.

Scheme stands_for_mut := Minimality for stands_for Sort Prop
  with stand_for_mut := Minimality for stand_for Sort Prop
  with entries_for_mut := Minimality for entries_for Sort Prop.
Combined Scheme stands_for_mutind
  from stands_for_mut, stand_for_mut, entries_for_mut.

Fixpoint map_option {A B : Type} (f : A -> option B) (l : list A)
  : option (list B) :=
  match l with
  | [] => Some []
  | a :: l' =>
      match f a, map_option f l' with
      | Some b, Some bs => Some (b :: bs)
      | _, _ => None
      end
  end.

(** The document a reference stands for, followed to depth [fuel]. *)
Fixpoint read (fuel : nat) (h : heap) (r : ref) : option value :=
  match r with
  | RNone => Some VNone
  | RBool b => Some (VBool b)
  | RInt z => Some (VInt z)
  | RStr s => Some (VStr s)
  | RObj l =>
      match fuel with
      | O => None
      | S fuel' =>
          match deref h l with
          | Some (OList rs) =>
              option_map VList (map_option (read fuel' h) rs)
          | Some (ODict d) =>
              option_map VDict
                (map_option
                   (fun kr => option_map (pair (fst kr)) (read fuel' h (snd kr)))
                   d)
          | None => None
          end
      end
  end.

(** ** Python operations on references *)

Definition is_rstr (s : string) (r : ref) : bool :=
  match r with RStr s' => String.eqb s s' | _ => false end.

Definition h_contains (h : heap) (k : string) (c : ref) : result bool :=
  match c with
  | RStr s => Ok (is_substring k s)
  | RObj l =>
      match deref h l with
      | Some (ODict d) => Ok (has_key k d)
      | Some (OList rs) => Ok (existsb (is_rstr k) rs)
      | None => Raise TypeError
      end
  | _ => Raise TypeError
  end.

Definition h_dict (h : heap) (c : ref) : option (loc * list (string * ref)) :=
  match c with
  | RObj l =>
      match deref h l with
      | Some (ODict d) => Some (l, d)
      | _ => None
      end
  | _ => None
  end.

Definition h_getitem (h : heap) (c : ref) (k : string) : result ref :=
  match h_dict h c with
  | Some (_, d) =>
      match lookup k d with
      | Some v => Ok v
      | None => Raise (KeyError k)
      end
  | None => Raise TypeError
  end.

Definition h_get (h : heap) (c : ref) (k : string) (default : ref) : result ref :=
  match h_dict h c with
  | Some (_, d) =>
      match lookup k d with
      | Some v => Ok v
      | None => Ok default
      end
  | None => Raise AttributeError
  end.

Definition h_truthy (h : heap) (r : ref) : bool :=
  match r with
  | RNone => false
  | RBool b => b
  | RInt z => negb (Z.eqb z 0)
  | RStr s => negb (String.eqb s "")
  | RObj l =>
      match deref h l with
      | Some (ODict []) | Some (OList []) | None => false
      | _ => true
      end
  end.

(** [c[k] = v] on a dictionary object, in place. *)
Definition h_setitem (h : heap) (c : ref) (k : string) (v : ref) : result heap :=
  match h_dict h c with
  | Some (l, d) => Ok (store l (ODict (setitem k v d)) h)
  | None => Raise TypeError
  end.

(** [c.copy()]: a new object with the same references inside. *)
Definition h_copy (h : heap) (c : ref) : result (ref * heap) :=
  match c with
  | RObj l =>
      match deref h l with
      | Some o => let '(a, h') := alloc o h in Ok (RObj a, h')
      | None => Raise AttributeError
      end
  | _ => Raise AttributeError
  end.

Fixpoint any_primary_key (h : heap) (fields : list ref) : result bool :=
  match fields with
  | [] => Ok false
  | field :: rest =>
      pk <- h_get h field "primary_key" (RBool false) ;;
      if h_truthy h pk then Ok true else any_primary_key h rest
  end.

(** The object of the synthetic field. *)
Definition synthetic_object : obj :=
  ODict [("type", RStr "uuid");
         ("primary_key", RBool true);
         ("auto_generated", RBool true)].

(** One iteration of the loop over the models: the store after it. *)
Definition normalize_model (model_def : ref) (h : heap) : result heap :=
  has_fields <- h_contains h "fields" model_def ;;
  if has_fields then
    fields <- h_getitem h model_def "fields" ;;
    match h_dict h fields with
    | None => Raise AttributeError      (* .values() *)
    | Some (_, fd) =>
        has_primary_key <- any_primary_key h (values fd) ;;
        if negb has_primary_key then
          if negb (has_key "id" fd) then
            let '(a, h) := alloc synthetic_object h in
            h_setitem h fields "id" (RObj a)
          else Ok h
        else Ok h
    end
  else Ok h.

Definition dict_size (h : heap) (l : loc) : nat :=
  match deref h l with
  | Some (ODict d) => List.length d
  | _ => 0
  end.

(** The loop [for model_name, model_def in models.items()] over the
    dictionary at [l], which had [size] entries when the loop began: the
    iterator raises [RuntimeError] when the dictionary has changed size. *)
Fixpoint models_loop (l : loc) (size : nat) (items : list (string * ref))
  (h : heap) : result heap :=
  if negb (Nat.eqb (dict_size h l) size) then Raise RuntimeError
  else
    match items with
    | [] => Ok h
    | (_, model_def) :: rest =>
        h <- normalize_model model_def h ;;
        models_loop l size rest h
    end.

Definition _normalize_spec (dsl_spec : ref) (h : heap) : result (ref * heap) :=
  '(normalized, h) <- h_copy h dsl_spec ;;
  (* Add default values *)
  has_meta <- h_contains h "meta" normalized ;;
  h <- (if negb has_meta then
          let '(a, h) := alloc (ODict []) h in
          h_setitem h normalized "meta" (RObj a)
        else Ok h) ;;
  (* Ensure all models have primary keys *)
  match h_dict h normalized with
  | None => Raise AttributeError        (* normalized.get *)
  | Some (_, d) =>
      match lookup "models" d with
      | None => Ok (normalized, h)      (* the loop runs over a fresh {} *)
      | Some models =>
          match h_dict h models with
          | None => Raise AttributeError  (* .items() *)
          | Some (l, items) =>
              h <- models_loop l (List.length items) items h ;;
              Ok (normalized, h)
          end
      end
  end.

End Heap.

(* ------------------------------------------------------------------ *)
(** * [hashlib.sha256] and [str.encode('utf-8')]

    The digest of the Python standard library, written out after
    FIPS 180-4 so that [compute_hash] can be evaluated.  Words are
    integers below [2^32]; bytes are integers below [256]. *)

Module SHA256.

Local Open Scope Z_scope.

Definition w32 (x : Z) : Z := Z.land x 4294967295.
Definition add32 (x y : Z) : Z := w32 (x + y).
Definition rotr (n x : Z) : Z := Z.lor (Z.shiftr x n) (w32 (Z.shiftl x (32 - n))).
Definition not32 (x : Z) : Z := 4294967295 - x.

Definition Ch (x y z : Z) : Z := Z.lxor (Z.land x y) (Z.land (not32 x) z).
Definition Maj (x y z : Z) : Z :=
  Z.lxor (Z.lxor (Z.land x y) (Z.land x z)) (Z.land y z).
Definition Sigma0 (x : Z) : Z := Z.lxor (Z.lxor (rotr 2 x) (rotr 13 x)) (rotr 22 x).
Definition Sigma1 (x : Z) : Z := Z.lxor (Z.lxor (rotr 6 x) (rotr 11 x)) (rotr 25 x).
Definition sigma0 (x : Z) : Z := Z.lxor (Z.lxor (rotr 7 x) (rotr 18 x)) (Z.shiftr x 3).
Definition sigma1 (x : Z) : Z := Z.lxor (Z.lxor (rotr 17 x) (rotr 19 x)) (Z.shiftr x 10).

(** The constants of the standard: the first 32 bits of the fractional
    parts of the cube roots of the first 64 primes, and of the square
    roots of the first 8 primes. *)
Definition is_prime (n : Z) : bool :=
  forallb (fun d => negb (n mod d =? 0)) (map Z.of_nat (seq 2 (Z.to_nat n - 2))).

Definition primes (count : nat) : list Z :=
  firstn count (filter is_prime (map Z.of_nat (seq 2 400))).

(** The integer cube root of [x], found bit by bit below [2^bits]. *)
Fixpoint cube_root (bits : nat) (acc x : Z) : Z :=
  match bits with
  | O => acc
  | S bits' =>
      let candidate := acc + 2 ^ Z.of_nat bits' in
      if candidate * candidate * candidate <=? x
      then cube_root bits' candidate x
      else cube_root bits' acc x
  end.

Definition K : list Z :=
  Eval vm_compute in
    map (fun p => w32 (cube_root 36 0 (p * 2 ^ 96))) (primes 64).

Definition H0 : list Z :=
  Eval vm_compute in
    map (fun p => w32 (Z.sqrt (p * 2 ^ 64))) (primes 8).

(** Big-endian words of a block of bytes. *)
Fixpoint words (bytes : list Z) : list Z :=
  match bytes with
  | a :: b :: c :: d :: rest =>
      (a * 16777216 + b * 65536 + c * 256 + d) :: words rest
  | _ => []
  end.

(** The message schedule, most recent word first: [rev_w] holds
    [W(t-1), W(t-2), ...]. *)
Fixpoint schedule (n : nat) (rev_w : list Z) : list Z :=
  match n with
  | O => rev_w
  | S n' =>
      let w := add32 (add32 (sigma1 (nth 1 rev_w 0)) (nth 6 rev_w 0))
                     (add32 (sigma0 (nth 14 rev_w 0)) (nth 15 rev_w 0)) in
      schedule n' (w :: rev_w)
  end.

Definition round (st : list Z) (kw : Z * Z) : list Z :=
  match st with
  | [a; b; c; d; e; f; g; h] =>
      let t1 := add32 (add32 (add32 h (Sigma1 e)) (add32 (Ch e f g) (fst kw)))
                      (snd kw) in
      let t2 := add32 (Sigma0 a) (Maj a b c) in
      [add32 t1 t2; a; b; c; add32 d t1; e; f; g]
  | _ => st
  end.

Definition compress (st : list Z) (block : list Z) : list Z :=
  let w := rev (schedule 48 (rev (words block))) in
  let st' := fold_left round (combine K w) st in
  map (fun p => add32 (fst p) (snd p)) (combine st st').

Fixpoint be_bytes (n : nat) (x : Z) : list Z :=
  match n with
  | O => []
  | S n' => (be_bytes n' (x / 256) ++ [x mod 256])%list
  end.

Definition pad (msg : list Z) : list Z :=
  let len := Z.of_nat (List.length msg) in
  let zeros := Z.to_nat ((55 - len) mod 64) in
  (msg ++ [128] ++ repeat 0 zeros ++ be_bytes 8 (8 * len))%list.

Fixpoint blocks (fuel : nat) (st : list Z) (bytes : list Z) : list Z :=
  match fuel with
  | O => st
  | S fuel' =>
      match bytes with
      | [] => st
      | _ => blocks fuel' (compress st (firstn 64 bytes)) (skipn 64 bytes)
      end
  end.

Definition digest (msg : list Z) : list Z :=
  let p := pad msg in
  flat_map (be_bytes 4) (blocks (S (List.length p / 64)) H0 p).

(** [s.encode('utf-8')] on code points 0..255 *)
Definition utf8_char (c : ascii) : list Z :=
  let n := Z.of_N (ord c) in
  if n <? 128 then [n] else [192 + n / 64; 128 + n mod 64].

Fixpoint utf8 (s : string) : list Z :=
  match s with
  | EmptyString => []
  | String c s' => (utf8_char c ++ utf8 s')%list
  end.

Definition hex (bytes : list Z) : string :=
  concat_map (fun b => hex2 (Z.to_N b)) bytes.

(** [hashlib.sha256(data).hexdigest()] *)
Definition hexdigest (data : list Z) : string := hex (digest data).

End SHA256.

(* ------------------------------------------------------------------ *)
(** * [BaseGenerator] (base_generator.py) *)

Module BaseGenerator.

(** The attributes of a generator object that its methods write. *)
Record gen_state : Type := mk_state {
  validation_errors : list string;
  security_checks_passed : bool
}.

(** [__init__] *)
Definition init_state : gen_state :=
  {| validation_errors := []; security_checks_passed := false |}.

(** A method: it may update the object and may raise. *)
Definition gen (A : Type) : Type := gen_state -> result A * gen_state.

Definition gret {A : Type} (a : A) : gen A := fun st => (Ok a, st).

Definition graise {A : Type} (e : exn) : gen A := fun st => (Raise e, st).

Definition gbind {A B : Type} (m : gen A) (k : A -> gen B) : gen B :=
  fun st =>
    match m st with
    | (Ok a, st') => k a st'
    | (Raise e, st') => (Raise e, st')
    end.

Definition lift {A : Type} (r : result A) : gen A := fun st => (r, st).

Notation "x <~ m ;; k" := (gbind m (fun x => k))
  (at level 61, m at next level, right associativity) : py_scope.

Fixpoint gfor_each {A : Type} (l : list A) (body : A -> gen unit) : gen unit :=
  match l with
  | [] => gret tt
  | a :: l' => _ <~ body a ;; gfor_each l' body
  end.

Definition set_validation_errors (errs : list string) : gen unit :=
  fun st => (Ok tt, {| validation_errors := errs;
                       security_checks_passed := security_checks_passed st |}).

(** [self.validation_errors.append(msg)] *)
Definition add_error (msg : string) : gen unit :=
  fun st => (Ok tt, {| validation_errors := (validation_errors st ++ [msg])%list;
                       security_checks_passed := security_checks_passed st |}).

Definition set_security_checks_passed (b : bool) : gen unit :=
  fun st => (Ok tt, {| validation_errors := validation_errors st;
                       security_checks_passed := b |}).

Definition get_validation_errors : gen (list string) :=
  fun st => (Ok (validation_errors st), st).

Definition gwhen (cond : bool) (m : gen unit) : gen unit :=
  if cond then m else gret tt.

(** [isinstance(v, dict)] *)
Definition is_dict (v : value) : bool :=
  match v with VDict _ => true | _ => false end.

Definition validate_dsl (dsl_spec : value) : gen bool :=
  _ <~ set_validation_errors [] ;;
  (* Check required fields *)
  _ <~ gfor_each ["meta"; "models"]
         (fun field =>
            present <~ lift (py_contains field dsl_spec) ;;
            gwhen (negb present) (add_error ("Missing required field: " ++ field))) ;;
  (* Validate meta section *)
  has_meta <~ lift (py_contains "meta" dsl_spec) ;;
  _ <~ (if has_meta then
          meta <~ lift (py_getitem dsl_spec "meta") ;;
          if negb (is_dict meta) then
            add_error "Meta section must be a dictionary"
          else
            (* Check required meta fields (description is optional) *)
            gfor_each ["name"; "version"; "framework"]
              (fun field =>
                 present <~ lift (py_contains field meta) ;;
                 gwhen (negb present)
                       (add_error ("Missing required meta field: " ++ field)))
        else gret tt) ;;
  (* Validate models section *)
  has_models <~ lift (py_contains "models" dsl_spec) ;;
  _ <~ (if has_models then
          models <~ lift (py_getitem dsl_spec "models") ;;
          if negb (is_dict models) then
            add_error "Models section must be a dictionary"
          else
            items <~ lift (py_items models) ;;
            gfor_each items
              (fun md =>
                 let '(model_name, model_def) := md in
                 if negb (is_dict model_def) then
                   add_error ("Model " ++ model_name
                                ++ " definition must be a dictionary")
                 else
                   has_fields <~ lift (py_contains "fields" model_def) ;;
                   gwhen (negb has_fields)
                         (add_error ("Model " ++ model_name
                                       ++ " is missing fields definition")))
        else gret tt) ;;
  errs <~ get_validation_errors ;;
  gret (Nat.eqb (List.length errs) 0).

(** The patterns of [perform_security_checks]; all are searched with
    [re.IGNORECASE]. *)
Definition code_execution_re : regex :=        (* (exec\s*\(|eval\s*\(|system\s*\() *)
  alts [cats [lit true "exec"; ws; lit true "("];
        cats [lit true "eval"; ws; lit true "("];
        cats [lit true "system"; ws; lit true "("]].

Definition dynamic_import_re : regex :=        (* (__import__|importlib|subprocess) *)
  alts [lit true "__import__"; lit true "importlib"; lit true "subprocess"].

Definition os_command_re : regex :=            (* (os\.system|os\.popen|os\.spawn) *)
  alts [lit true "os.system"; lit true "os.popen"; lit true "os.spawn"].

Definition is_quote (c : ascii) : bool :=
  N.eqb (ord c) 39 || N.eqb (ord c) 34.

Definition file_write_re : regex :=            (* (open\s*\(.*?,\s*[\'"]w[\'"]\)) *)
  cats [lit true "open"; ws; lit true "("; Star dot; lit true ","; ws;
        Chr is_quote; lit true "w"; Chr is_quote; lit true ")"].

Definition xss_re : regex :=                   (* (<script>|<iframe>|javascript:) *)
  alts [lit true "<script>"; lit true "<iframe>"; lit true "javascript:"].

Definition dangerous_patterns : list regex :=
  [code_execution_re; dynamic_import_re; os_command_re; file_write_re; xss_re].

(** The pattern searched in every field name:
    [(--|;|\/\*|\*\/|@@|@|char\s*\()] *)
Definition sql_injection_re : regex :=
  alts [lit true "--"; lit true ";"; lit true "/*"; lit true "*/";
        lit true "@@"; lit true "@";
        cats [lit true "char"; ws; lit true "("]].

(** The loop over the models; [Ok true] when a field name matched (the
    source returns [False] from inside the loop at that point). *)
Fixpoint field_name_matches (items : list (string * value)) : result bool :=
  match items with
  | [] => Ok false
  | (_, model_def) :: rest =>
      has_fields <- py_contains "fields" model_def ;;
      if has_fields then
        fields <- py_getitem model_def "fields" ;;
        names <- py_keys fields ;;
        if existsb (search sql_injection_re) names then Ok true
        else field_name_matches rest
      else field_name_matches rest
  end.

Definition perform_security_checks (dsl_spec : value) : gen bool :=
  (* Convert DSL to string for pattern matching *)
  let dsl_str := json_dumps dsl_spec in
  (* Check for potentially dangerous patterns *)
  if existsb (fun pattern => search pattern dsl_str) dangerous_patterns then
    gret false
  else
    (* Check field names for SQL injection patterns *)
    has_models <~ lift (py_contains "models" dsl_spec) ;;
    found <~ (if has_models then
                lift (models <- py_getitem dsl_spec "models" ;;
                      items <- py_items models ;;
                      field_name_matches items)
              else gret false) ;;
    if found then gret false
    else
      _ <~ set_security_checks_passed true ;;
      gret true.

(** [hashlib.sha256(content.encode('utf-8')).hexdigest()] *)
Definition compute_hash (content : string) : string :=
  SHA256.hexdigest (SHA256.utf8 content).

End BaseGenerator.

(* ------------------------------------------------------------------ *)
(** * [DjangoGenerator] (django_generator.py) *)

Module DjangoGenerator.

Import BaseGenerator.

(** [dsl_spec.get('meta', {}).get(key, default)] *)
Definition meta_get (dsl_spec : value) (key : string) (default : value)
  : result value :=
  meta <- py_get dsl_spec "meta" (VDict []) ;;
  py_get meta key default.

(** [re.sub(r'(?<!^)(?=[A-Z])', '_', camel_str).lower()]: an underscore
    before every capital A-Z that is not the first character. *)
Fixpoint insert_underscores (s : string) : string :=
  match s with
  | EmptyString => EmptyString
  | String c s' =>
      if is_upper_az c then String (chr 95) (String c (insert_underscores s'))
      else String c (insert_underscores s')
  end.

Definition _to_snake_case (camel_str : string) : string :=
  match camel_str with
  | EmptyString => EmptyString
  | String c s' => lower (String c (insert_underscores s'))
  end.

Definition _generate_manage_py (dsl_spec : value) : result string :=
  project_name <- meta_get dsl_spec "name" (VStr "project") ;;
  Ok ("#!/usr/bin/env python
" ++ dq3 ++ "Django's command-line utility for administrative tasks." ++ dq3 ++ "
import os
import sys


def main():
    " ++ dq3 ++ "Run administrative tasks." ++ dq3 ++ "
    os.environ.setdefault('DJANGO_SETTINGS_MODULE', 'project.settings')
    try:
        from django.core.management import execute_from_command_line
    except ImportError as exc:
        raise ImportError(
            " ++ dq ++ "Couldn't import Django. Are you sure it's installed and " ++ dq ++ "
            " ++ dq ++ "available on your PYTHONPATH environment variable? Did you " ++ dq ++ "
            " ++ dq ++ "forget to activate a virtual environment?" ++ dq ++ "
        ) from exc
    execute_from_command_line(sys.argv)


if __name__ == '__main__':
    main()
").

(** The declaration of one field; [required] is the value of
    [field_config.get('required', False)]. *)
Definition field_declaration (field_name : string) (field_config : value)
  : result string :=
  field_type <- py_get field_config "type" (VStr "string") ;;
  required <- py_get field_config "required" (VBool false) ;;
  let not_required := py_bool (negb (truthy required)) in
  if in_strs field_type ["string"; "text"] then
    max_length <- py_get field_config "max_length" (VInt 255) ;;
    Ok ("    " ++ field_name ++ " = models.CharField(max_length=" ++ py_str max_length ++ ", blank=" ++ not_required ++ ")
")
  else if is_str "integer" field_type then
    Ok ("    " ++ field_name ++ " = models.IntegerField(null=" ++ not_required ++ ", blank=" ++ not_required ++ ")
")
  else if is_str "decimal" field_type then
    Ok ("    " ++ field_name ++ " = models.DecimalField(max_digits=10, decimal_places=2, null=" ++ not_required ++ ", blank=" ++ not_required ++ ")
")
  else if is_str "boolean" field_type then
    Ok ("    " ++ field_name ++ " = models.BooleanField(default=False)
")
  else if is_str "date" field_type then
    Ok ("    " ++ field_name ++ " = models.DateField(null=" ++ not_required ++ ", blank=" ++ not_required ++ ")
")
  else if is_str "datetime" field_type then
    Ok ("    " ++ field_name ++ " = models.DateTimeField(null=" ++ not_required ++ ", blank=" ++ not_required ++ ")
")
  else if is_str "email" field_type then
    Ok ("    " ++ field_name ++ " = models.EmailField(blank=" ++ not_required ++ ")
")
  else if is_str "url" field_type then
    Ok ("    " ++ field_name ++ " = models.URLField(blank=" ++ not_required ++ ")
")
  else
    Ok ("    " ++ field_name ++ " = models.CharField(max_length=255, blank=" ++ not_required ++ ")
").

(** The class emitted for one model: the body of the loop over
    [models.items()]. *)
Definition model_class (md : string * value) (code : string) : result string :=
  let '(model_name, model_config) := md in
  description <- py_get model_config "description" (VStr (model_name ++ " model")) ;;
  let code := code ++ "class " ++ model_name ++ "(models.Model):
" in
  let code := code ++ "    " ++ dq3 ++ py_str description ++ dq3 ++ "
" in
  let code := code ++ "    id = models.UUIDField(primary_key=True, default=uuid.uuid4, editable=False)
" in
  (* Generate fields *)
  fields <- py_get model_config "fields" (VDict []) ;;
  items <- py_items fields ;;
  code <- for_each items
            (fun fd code =>
               decl <- field_declaration (fst fd) (snd fd) ;;
               Ok (code ++ decl))
            code ;;
  let code := code ++ "    created_at = models.DateTimeField(auto_now_add=True)
" in
  let code := code ++ "    updated_at = models.DateTimeField(auto_now=True)
" in
  let code := code ++ "
" in
  let code := code ++ "    class Meta:
" in
  let code := code ++ "        db_table = " ++ dq ++ _to_snake_case model_name ++ "s" ++ dq ++ "
" in
  let code := code ++ "        ordering = [" ++ dq ++ "-created_at" ++ dq ++ "]
" in
  let code := code ++ "
" in
  let code := code ++ "    def __str__(self):
" in
  let first_field := match keys items with
                     | k :: _ => k
                     | [] => "id"
                     end in
  let code := code ++ "        return str(self." ++ first_field ++ ")
" in
  let code := code ++ "

" in
  Ok code.

Definition models_header (project_name : value) : string :=
  dq3 ++ "
Django Models for " ++ py_str project_name ++ "
Generated by InfraNest
" ++ dq3 ++ "
from django.db import models
from django.contrib.auth.models import AbstractUser
from django.core.validators import MinValueValidator, MaxValueValidator
import uuid


class User(AbstractUser):
    " ++ dq3 ++ "Extended user model" ++ dq3 ++ "
    id = models.UUIDField(primary_key=True, default=uuid.uuid4, editable=False)
    bio = models.TextField(blank=True)
    avatar = models.URLField(blank=True)
    created_at = models.DateTimeField(auto_now_add=True)
    updated_at = models.DateTimeField(auto_now=True)
    
    class Meta:
        db_table = 'users'
        ordering = ['-created_at']


".

Definition _generate_models_complete (dsl_spec : value) : result string :=
  project_name <- meta_get dsl_spec "name" (VStr "project") ;;
  models <- py_get dsl_spec "models" (VDict []) ;;
  let code := models_header project_name in
  (* Generate models from DSL *)
  items <- py_items models ;;
  for_each items model_class code.

Definition _generate_views_complete (dsl_spec : value) : result string :=
  project_name <- meta_get dsl_spec "name" (VStr "project") ;;
  models <- py_get dsl_spec "models" (VDict []) ;;
  let code := dq3 ++ "
Django Views for " ++ py_str project_name ++ "
Generated by InfraNest
" ++ dq3 ++ "
from rest_framework import viewsets, status, filters
from rest_framework.decorators import action
from rest_framework.response import Response
from rest_framework.permissions import IsAuthenticated, AllowAny
from django_filters.rest_framework import DjangoFilterBackend
from .models import *
from .serializers import *


" in
  (* Generate ViewSet for each model *)
  names <- py_keys models ;;
  Ok (fold_left
        (fun code model_name =>
           code ++ "class " ++ model_name ++ "ViewSet(viewsets.ModelViewSet):
    " ++ dq3 ++ "
    API endpoint for " ++ model_name ++ " operations
    Provides list, create, retrieve, update, and delete operations
    " ++ dq3 ++ "
    queryset = " ++ model_name ++ ".objects.all()
    serializer_class = " ++ model_name ++ "Serializer
    permission_classes = [IsAuthenticated]
    filter_backends = [DjangoFilterBackend, filters.SearchFilter, filters.OrderingFilter]
    filterset_fields = ['created_at', 'updated_at']
    search_fields = ['id']
    ordering_fields = ['created_at', 'updated_at']
    ordering = ['-created_at']
    
    def get_permissions(self):
        " ++ dq3 ++ "Set permissions based on action" ++ dq3 ++ "
        if self.action == 'list':
            return [AllowAny()]
        return [IsAuthenticated()]
    
    @action(detail=False, methods=['get'])
    def recent(self, request):
        " ++ dq3 ++ "Get recent items" ++ dq3 ++ "
        recent = self.get_queryset()[:10]
        serializer = self.get_serializer(recent, many=True)
        return Response(serializer.data)
    
    @action(detail=True, methods=['post'])
    def activate(self, request, pk=None):
        " ++ dq3 ++ "Activate an item" ++ dq3 ++ "
        instance = self.get_object()
        # Add activation logic here
        return Response({'status': 'activated'})


")
        names code).

(** [all_fields] of the serializer of one model *)
Definition serializer_fields (field_names : list string) : list string :=
  (["id"] ++ field_names ++ ["created_at"; "updated_at"])%list.

(** The serializer class of one model: the body of the loop. *)
Definition serializer_class (md : string * value) (code : string)
  : result string :=
  let '(model_name, model_config) := md in
  fields <- py_get model_config "fields" (VDict []) ;;
  fields <- py_keys fields ;;
  let all_fields := serializer_fields fields in
  Ok (code ++ "class " ++ model_name ++ "Serializer(serializers.ModelSerializer):
    " ++ dq3 ++ "Serializer for " ++ model_name ++ " model" ++ dq3 ++ "
    
    class Meta:
        model = " ++ model_name ++ "
        fields = " ++ repr_strs all_fields ++ "
        read_only_fields = ['id', 'created_at', 'updated_at']


").

Definition serializers_header (project_name : value) : string :=
  dq3 ++ "
Django Serializers for " ++ py_str project_name ++ "
Generated by InfraNest
" ++ dq3 ++ "
from rest_framework import serializers
from .models import *


".

Definition _generate_serializers_complete (dsl_spec : value) : result string :=
  project_name <- meta_get dsl_spec "name" (VStr "project") ;;
  models <- py_get dsl_spec "models" (VDict []) ;;
  let code := serializers_header project_name in
  (* Generate serializer for each model *)
  items <- py_items models ;;
  for_each items serializer_class code.

Definition _generate_urls_complete (dsl_spec : value) : result string :=
  project_name <- meta_get dsl_spec "name" (VStr "project") ;;
  models <- py_get dsl_spec "models" (VDict []) ;;
  let code := dq3 ++ "
Django URLs for " ++ py_str project_name ++ "
Generated by InfraNest
" ++ dq3 ++ "
from django.urls import path, include
from rest_framework.routers import DefaultRouter
from . import views

# Create a router and register viewsets
router = DefaultRouter()
" in
  names <- py_keys models ;;
  let code :=
    fold_left
      (fun code model_name =>
         let route_name := _to_snake_case model_name ++ "s" in
         code ++ "router.register(r'" ++ route_name ++ "', views." ++ model_name ++ "ViewSet, basename='" ++ route_name ++ "')
")
      names code in
  let code := code ++ "
urlpatterns = [
    path('', include(router.urls)),
]
" in
  Ok code.

Definition _generate_admin_complete (dsl_spec : value) : result string :=
  project_name <- meta_get dsl_spec "name" (VStr "project") ;;
  models <- py_get dsl_spec "models" (VDict []) ;;
  let code := dq3 ++ "
Django Admin for " ++ py_str project_name ++ "
Generated by InfraNest
" ++ dq3 ++ "
from django.contrib import admin
from .models import *


" in
  items <- py_items models ;;
  for_each items
    (fun md code =>
       let '(model_name, model_config) := md in
       fields <- py_get model_config "fields" (VDict []) ;;
       fields <- py_keys fields ;;
       Ok (code ++ "@admin.register(" ++ model_name ++ ")
class " ++ model_name ++ "Admin(admin.ModelAdmin):
    " ++ dq3 ++ "Admin interface for " ++ model_name ++ dq3 ++ "
    list_display = ['id'] + " ++ repr_strs (firstn 5 fields) ++ " + ['created_at', 'updated_at']
    list_filter = ['created_at', 'updated_at']
    search_fields = " ++ repr_strs (firstn 3 fields) ++ "
    readonly_fields = ['id', 'created_at', 'updated_at']
    ordering = ['-created_at']


"))
    code.

Definition _generate_tests (dsl_spec : value) : result string :=
  models <- py_get dsl_spec "models" (VDict []) ;;
  let code := dq3 ++ "
Tests for the application
" ++ dq3 ++ "
from django.test import TestCase
from rest_framework.test import APITestCase
from rest_framework import status
from .models import *


" in
  names <- py_keys models ;;
  Ok (fold_left
        (fun code model_name =>
           code ++ "class " ++ model_name ++ "TestCase(APITestCase):
    " ++ dq3 ++ "Test case for " ++ model_name ++ " API" ++ dq3 ++ "
    
    def setUp(self):
        " ++ dq3 ++ "Set up test data" ++ dq3 ++ "
        pass
    
    def test_list_" ++ lower model_name ++ "(self):
        " ++ dq3 ++ "Test listing " ++ model_name ++ dq3 ++ "
        url = '/api/" ++ _to_snake_case model_name ++ "s/'
        response = self.client.get(url)
        self.assertEqual(response.status_code, status.HTTP_200_OK)
    
    def test_create_" ++ lower model_name ++ "(self):
        " ++ dq3 ++ "Test creating " ++ model_name ++ dq3 ++ "
        url = '/api/" ++ _to_snake_case model_name ++ "s/'
        data = {}
        response = self.client.post(url, data, format='json')
        self.assertEqual(response.status_code, status.HTTP_201_CREATED)


")
        names code).

Definition _generate_apps_py (dsl_spec : value) : result string :=
  Ok (dq3 ++ "
App configuration
" ++ dq3 ++ "
from django.apps import AppConfig


class AppConfig(AppConfig):
    default_auto_field = 'django.db.models.BigAutoField'
    name = 'app'
").

Definition _generate_settings_complete (dsl_spec : value) : result string :=
  project_name <- meta_get dsl_spec "name" (VStr "project") ;;
  database <- meta_get dsl_spec "database" (VStr "postgresql") ;;
  Ok (dq3 ++ "
Django settings for " ++ py_str project_name ++ "
Generated by InfraNest
" ++ dq3 ++ "
import os
from pathlib import Path
from decouple import config

BASE_DIR = Path(__file__).resolve().parent.parent

SECRET_KEY = config('SECRET_KEY', default='django-insecure-change-this-in-production')

DEBUG = config('DEBUG', default=True, cast=bool)

ALLOWED_HOSTS = config('ALLOWED_HOSTS', default='localhost,127.0.0.1', cast=lambda v: [s.strip() for s in v.split(',')])

# Application definition
INSTALLED_APPS = [
    'django.contrib.admin',
    'django.contrib.auth',
    'django.contrib.contenttypes',
    'django.contrib.sessions',
    'django.contrib.messages',
    'django.contrib.staticfiles',
    
    # Third party apps
    'rest_framework',
    'rest_framework.authtoken',
    'corsheaders',
    'django_filters',
    
    # Local apps
    'app',
]

MIDDLEWARE = [
    'corsheaders.middleware.CorsMiddleware',
    'django.middleware.security.SecurityMiddleware',
    'django.contrib.sessions.middleware.SessionMiddleware',
    'django.middleware.common.CommonMiddleware',
    'django.middleware.csrf.CsrfViewMiddleware',
    'django.contrib.auth.middleware.AuthenticationMiddleware',
    'django.contrib.messages.middleware.MessageMiddleware',
    'django.middleware.clickjacking.XFrameOptionsMiddleware',
]

ROOT_URLCONF = 'project.urls'

TEMPLATES = [
    {
        'BACKEND': 'django.template.backends.django.DjangoTemplates',
        'DIRS': [],
        'APP_DIRS': True,
        'OPTIONS': {
            'context_processors': [
                'django.template.context_processors.debug',
                'django.template.context_processors.request',
                'django.contrib.auth.context_processors.auth',
                'django.contrib.messages.context_processors.messages',
            ],
        },
    },
]

WSGI_APPLICATION = 'project.wsgi.application'

# Database
DATABASES = {
    'default': {
        'ENGINE': 'django.db.backends." ++ py_str database ++ "',
        'NAME': config('DB_NAME', default='" ++ py_str project_name ++ "_db'),
        'USER': config('DB_USER', default='postgres'),
        'PASSWORD': config('DB_PASSWORD', default='postgres'),
        'HOST': config('DB_HOST', default='localhost'),
        'PORT': config('DB_PORT', default='5432'),
    }
}

# Password validation
AUTH_PASSWORD_VALIDATORS = [
    {'NAME': 'django.contrib.auth.password_validation.UserAttributeSimilarityValidator'},
    {'NAME': 'django.contrib.auth.password_validation.MinimumLengthValidator'},
    {'NAME': 'django.contrib.auth.password_validation.CommonPasswordValidator'},
    {'NAME': 'django.contrib.auth.password_validation.NumericPasswordValidator'},
]

# Internationalization
LANGUAGE_CODE = 'en-us'
TIME_ZONE = 'UTC'
USE_I18N = True
USE_TZ = True

# Static files
STATIC_URL = 'static/'
STATIC_ROOT = os.path.join(BASE_DIR, 'staticfiles')

# Media files
MEDIA_URL = 'media/'
MEDIA_ROOT = os.path.join(BASE_DIR, 'media')

DEFAULT_AUTO_FIELD = 'django.db.models.BigAutoField'

# REST Framework settings
REST_FRAMEWORK = {
    'DEFAULT_AUTHENTICATION_CLASSES': [
        'rest_framework.authentication.TokenAuthentication',
        'rest_framework.authentication.SessionAuthentication',
    ],
    'DEFAULT_PERMISSION_CLASSES': [
        'rest_framework.permissions.IsAuthenticated',
    ],
    'DEFAULT_PAGINATION_CLASS': 'rest_framework.pagination.PageNumberPagination',
    'PAGE_SIZE': 20,
    'DEFAULT_FILTER_BACKENDS': [
        'django_filters.rest_framework.DjangoFilterBackend',
        'rest_framework.filters.SearchFilter',
        'rest_framework.filters.OrderingFilter',
    ],
}

# CORS settings
CORS_ALLOWED_ORIGINS = [
    " ++ dq ++ "http://localhost:3000" ++ dq ++ ",
    " ++ dq ++ "http://localhost:5173" ++ dq ++ ",
    " ++ dq ++ "http://localhost:8080" ++ dq ++ ",
]

CORS_ALLOW_CREDENTIALS = True

# Custom user model
AUTH_USER_MODEL = 'app.User'
").

Definition _generate_project_urls (dsl_spec : value) : result string :=
  project_name <- meta_get dsl_spec "name" (VStr "project") ;;
  Ok (dq3 ++ "
URL configuration for " ++ py_str project_name ++ " project
Generated by InfraNest
" ++ dq3 ++ "
from django.contrib import admin
from django.urls import path, include
from rest_framework.authtoken.views import obtain_auth_token

urlpatterns = [
    path('admin/', admin.site.urls),
    path('api/', include('app.urls')),
    path('api/auth/token/', obtain_auth_token, name='api_token_auth'),
]
").

Definition _generate_wsgi (dsl_spec : value) : result string :=
  Ok (dq3 ++ "
WSGI config for project
" ++ dq3 ++ "
import os
from django.core.wsgi import get_wsgi_application

os.environ.setdefault('DJANGO_SETTINGS_MODULE', 'project.settings')
application = get_wsgi_application()
").

Definition _generate_asgi (dsl_spec : value) : result string :=
  Ok (dq3 ++ "
ASGI config for project
" ++ dq3 ++ "
import os
from django.core.asgi import get_asgi_application

os.environ.setdefault('DJANGO_SETTINGS_MODULE', 'project.settings')
application = get_asgi_application()
").

Definition _generate_requirements_complete (dsl_spec : value) : result string :=
  Ok ("# Django Framework
Django==4.2.7
djangorestframework==3.14.0

# Database
psycopg2-binary==2.9.9

# CORS headers
django-cors-headers==4.3.1

# Environment variables
python-decouple==3.8

# Filtering
django-filter==23.5

# Testing
pytest==7.4.3
pytest-django==4.7.0
pytest-cov==4.1.0

# Code quality
black==23.12.1
flake8==7.0.0
isort==5.13.2

# Production server
gunicorn==21.2.0
whitenoise==6.6.0
").

Definition _generate_dockerfile_complete (dsl_spec : value) : result string :=
  Ok ("FROM python:3.11-slim

# Set environment variables
ENV PYTHONDONTWRITEBYTECODE=1
ENV PYTHONUNBUFFERED=1

# Set work directory
WORKDIR /app

# Install system dependencies
RUN apt-get update && apt-get install -y \
    postgresql-client \
    && rm -rf /var/lib/apt/lists/*

# Install Python dependencies
COPY requirements.txt /app/
RUN pip install --upgrade pip && pip install -r requirements.txt

# Copy project
COPY . /app/

# Collect static files
RUN python manage.py collectstatic --noinput

# Run migrations and start server
CMD [" ++ dq ++ "gunicorn" ++ dq ++ ", " ++ dq ++ "project.wsgi:application" ++ dq ++ ", " ++ dq ++ "--bind" ++ dq ++ ", " ++ dq ++ "0.0.0.0:8000" ++ dq ++ ", " ++ dq ++ "--workers" ++ dq ++ ", " ++ dq ++ "4" ++ dq ++ "]
").

Definition _generate_docker_compose (dsl_spec : value) : result string :=
  project_name <- meta_get dsl_spec "name" (VStr "project") ;;
  Ok ("version: '3.8'

services:
  db:
    image: postgres:15
    volumes:
      - postgres_data:/var/lib/postgresql/data
    environment:
      - POSTGRES_DB=" ++ py_str project_name ++ "_db
      - POSTGRES_USER=postgres
      - POSTGRES_PASSWORD=postgres
    ports:
      - " ++ dq ++ "5432:5432" ++ dq ++ "

  web:
    build: .
    command: python manage.py runserver 0.0.0.0:8000
    volumes:
      - .:/app
    ports:
      - " ++ dq ++ "8000:8000" ++ dq ++ "
    environment:
      - DEBUG=True
      - DB_NAME=" ++ py_str project_name ++ "_db
      - DB_USER=postgres
      - DB_PASSWORD=postgres
      - DB_HOST=db
      - DB_PORT=5432
    depends_on:
      - db

volumes:
  postgres_data:
").

Definition _generate_env_example (dsl_spec : value) : result string :=
  project_name <- meta_get dsl_spec "name" (VStr "project") ;;
  Ok ("# Django settings
SECRET_KEY=your-secret-key-here
DEBUG=True
ALLOWED_HOSTS=localhost,127.0.0.1

# Database
DB_NAME=" ++ py_str project_name ++ "_db
DB_USER=postgres
DB_PASSWORD=postgres
DB_HOST=localhost
DB_PORT=5432
").

Definition _generate_gitignore  : result string :=
  Ok ("# Python
__pycache__/
*.py[cod]
*$py.class
*.so
.Python
env/
venv/
ENV/
build/
develop-eggs/
dist/
downloads/
eggs/
.eggs/
lib/
lib64/
parts/
sdist/
var/
wheels/
*.egg-info/
.installed.cfg
*.egg

# Django
*.log
local_settings.py
db.sqlite3
db.sqlite3-journal
/media
/staticfiles

# Environment
.env

# IDE
.vscode/
.idea/
*.swp
*.swo
*~

# OS
.DS_Store
Thumbs.db
").

Definition _generate_pytest_ini  : result string :=
  Ok ("[pytest]
DJANGO_SETTINGS_MODULE = project.settings
python_files = tests.py test_*.py *_tests.py
addopts = --cov=. --cov-report=html --cov-report=term-missing
").

Definition _generate_dockerignore  : result string :=
  Ok ("__pycache__
*.pyc
*.pyo
*.pyd
.Python
env/
venv/
.git
.gitignore
.dockerignore
Dockerfile
docker-compose.yml
.env
*.sqlite3
").

Definition _generate_readme (dsl_spec : value) : result string :=
  project_name <- meta_get dsl_spec "name" (VStr "project") ;;
  description <- meta_get dsl_spec "description" (VStr "A Django REST API project") ;;
  Ok ("# " ++ py_str project_name ++ "

" ++ py_str description ++ "

## Generated by InfraNest

This project was automatically generated using InfraNest DSL-to-Code generator.

## Features

- Django REST Framework API
- PostgreSQL database
- JWT Authentication
- Docker support
- Comprehensive test suite
- Admin interface

## Setup

### Prerequisites

- Python 3.11+
- PostgreSQL 15+
- Docker (optional)

### Installation

1. Clone the repository
2. Create virtual environment:
   ```bash
   python -m venv venv
   source venv/bin/activate  # On Windows: venv\Scripts\activate
   ```

3. Install dependencies:
   ```bash
   pip install -r requirements.txt
   ```

4. Set up environment variables:
   ```bash
   cp .env.example .env
   # Edit .env with your settings
   ```

5. Run migrations:
   ```bash
   python manage.py migrate
   ```

6. Create superuser:
   ```bash
   python manage.py createsuperuser
   ```

7. Run development server:
   ```bash
   python manage.py runserver
   ```

### Docker Setup

1. Build and run with Docker Compose:
   ```bash
   docker-compose up --build
   ```

2. Run migrations:
   ```bash
   docker-compose exec web python manage.py migrate
   ```

3. Create superuser:
   ```bash
   docker-compose exec web python manage.py createsuperuser
   ```

## API Endpoints

- `/admin/` - Django admin interface
- `/api/` - REST API endpoints
- `/api/auth/token/` - Authentication token endpoint

## Testing

Run tests with:
```bash
pytest
```

## License

MIT License
").

Definition file_map : Type := list (string * string).

(** The manifest: [json.dumps({filename: compute_hash(content) for ... in
    files.items() if filename != 'integrity.json'}, indent=2)] *)
Definition integrity_manifest (files : file_map) : value :=
  VDict (fold_left
           (fun d fc => setitem (fst fc) (VStr (compute_hash (snd fc))) d)
           (filter (fun fc => negb (String.eqb (fst fc) "integrity.json")) files)
           []).

(** The file map, once both checks have passed. *)
Definition generate_files (dsl_spec : value) : result file_map :=
  let files : file_map := [] in
  (* Generate complete Django project structure *)
  c <- _generate_manage_py dsl_spec ;;
  let files := setitem "manage.py" c files in
  c <- _generate_models_complete dsl_spec ;;
  let files := setitem "app/models.py" c files in
  c <- _generate_views_complete dsl_spec ;;
  let files := setitem "app/views.py" c files in
  c <- _generate_urls_complete dsl_spec ;;
  let files := setitem "app/urls.py" c files in
  c <- _generate_serializers_complete dsl_spec ;;
  let files := setitem "app/serializers.py" c files in
  c <- _generate_admin_complete dsl_spec ;;
  let files := setitem "app/admin.py" c files in
  c <- _generate_tests dsl_spec ;;
  let files := setitem "app/tests.py" c files in
  let files := setitem "app/__init__.py" EmptyString files in
  c <- _generate_apps_py dsl_spec ;;
  let files := setitem "app/apps.py" c files in
  c <- _generate_settings_complete dsl_spec ;;
  let files := setitem "project/settings.py" c files in
  c <- _generate_project_urls dsl_spec ;;
  let files := setitem "project/urls.py" c files in
  c <- _generate_wsgi dsl_spec ;;
  let files := setitem "project/wsgi.py" c files in
  c <- _generate_asgi dsl_spec ;;
  let files := setitem "project/asgi.py" c files in
  let files := setitem "project/__init__.py" EmptyString files in
  c <- _generate_requirements_complete dsl_spec ;;
  let files := setitem "requirements.txt" c files in
  c <- _generate_dockerfile_complete dsl_spec ;;
  let files := setitem "Dockerfile" c files in
  c <- _generate_docker_compose dsl_spec ;;
  let files := setitem "docker-compose.yml" c files in
  c <- _generate_env_example dsl_spec ;;
  let files := setitem ".env.example" c files in
  c <- _generate_gitignore ;;
  let files := setitem ".gitignore" c files in
  c <- _generate_readme dsl_spec ;;
  let files := setitem "README.md" c files in
  c <- _generate_pytest_ini ;;
  let files := setitem "pytest.ini" c files in
  c <- _generate_dockerignore ;;
  let files := setitem ".dockerignore" c files in
  (* Add integrity hashes for verification *)
  let files := setitem "integrity.json"
                 (json_dumps_indent 2 (integrity_manifest files)) files in
  Ok files.

(** The two checks that open [generate] and [preview]. *)
Definition check_spec (dsl_spec : value) : gen unit :=
  (* Validate DSL and perform security checks *)
  ok <~ validate_dsl dsl_spec ;;
  if negb ok then
    errs <~ get_validation_errors ;;
    graise (ValueError ("Invalid DSL specification: " ++ join ", " errs))
  else
    ok <~ perform_security_checks dsl_spec ;;
    if negb ok then
      graise (ValueError "DSL specification failed security checks")
    else gret tt.

Definition generate (dsl_spec : value) : gen file_map :=
  _ <~ check_spec dsl_spec ;;
  lift (generate_files dsl_spec).

Definition preview_entry (path type description : string) : value :=
  VDict [("path", VStr path); ("type", VStr type); ("description", VStr description)].

Definition preview (dsl_spec : value) : gen value :=
  _ <~ check_spec dsl_spec ;;
  gret (VDict
          [("files",
            VList
              [preview_entry "models.py" "model" "Database models";
               preview_entry "views.py" "view" "API views";
               preview_entry "urls.py" "config" "URL routing";
               preview_entry "serializers.py" "serializer" "Data serialization";
               preview_entry "admin.py" "admin" "Admin interface";
               preview_entry "settings.py" "config" "Django settings";
               preview_entry "requirements.txt" "config" "Python dependencies";
               preview_entry "Dockerfile" "config" "Docker configuration";
               preview_entry "docker-compose.yml" "config"
                             "Docker Compose configuration";
               preview_entry "README.md" "doc" "Project documentation";
               preview_entry ".gitignore" "config" "Git ignore file"])]).

End DjangoGenerator.

(* ------------------------------------------------------------------ *)
(** * [GoGenerator] (go_generator.py)

    The class does not derive from [BaseGenerator]: its methods keep no
    state and call neither [validate_dsl] nor [perform_security_checks]. *)

Module GoGenerator.

Definition file_map : Type := list (string * string).

(** The characters [str.title()] treats as letters, on code points
    0..255. *)
Definition is_cased (c : ascii) : bool :=
  is_upper_az c || is_lower_az c
  || N.eqb (ord c) 170 || N.eqb (ord c) 181 || N.eqb (ord c) 186
  || (in_range 192 255 c && negb (N.eqb (ord c) 215) && negb (N.eqb (ord c) 247)).

(** The title-case form of a character.  The sharp s becomes [Ss]; the
    title forms of the micro sign and of y with diaeresis lie beyond code
    point 255 and are not represented: these two stay as they are. *)
Definition title_char (c : ascii) : string :=
  if is_lower_az c then String (chr (ord c - 32)%N) EmptyString
  else if N.eqb (ord c) 223 then "Ss"
  else if in_range 224 254 c && negb (N.eqb (ord c) 247)
       then String (chr (ord c - 32)%N) EmptyString
  else String c EmptyString.

(** [s.title()]: a letter after a letter is lowered, any other letter is
    put in title case. *)
Fixpoint title_from (previous_is_cased : bool) (s : string) : string :=
  match s with
  | EmptyString => EmptyString
  | String c s' =>
      (if previous_is_cased then String (lower_char c) EmptyString
       else title_char c) ++ title_from (is_cased c) s'
  end.

Definition title (s : string) : string := title_from false s.

(** The Go type of a field. *)
Definition go_type_of (field_type : value) : string :=
  let go_type := "string" in
  if in_strs field_type ["integer"; "number"] then "int"
  else if is_str "boolean" field_type then "bool"
  else if in_strs field_type ["date"; "datetime"] then "time.Time"
  else go_type.

(** The struct of one model: the body of the loop that builds
    [models/models.go]. *)
Definition model_struct (md : string * value) (models_code : string)
  : result string :=
  let '(model_name, model_spec) := md in
  let models_code := models_code ++ "type " ++ model_name ++ " struct {
" in
  let models_code := models_code ++ "	gorm.Model
" in
  fields <- py_get model_spec "fields" (VDict []) ;;
  items <- py_items fields ;;
  models_code <-
    for_each items
      (fun fd models_code =>
         let '(field_name, field_spec) := fd in
         field_type <- py_get field_spec "type" (VStr "string") ;;
         let go_type := go_type_of field_type in
         Ok (models_code ++ "	" ++ title field_name ++ " " ++ go_type ++ " `json:" ++ dq ++ field_name ++ dq ++ "`
"))
      models_code ;;
  Ok (models_code ++ "}

").

Definition generate (dsl_spec : value) : result file_map :=
  let files : file_map := [] in
  meta <- py_get dsl_spec "meta" (VDict []) ;;
  project_name <- py_get meta "name" (VStr "go_app") ;;
  models <- py_get dsl_spec "models" (VDict []) ;;
  (* go.mod *)
  let files := setitem "go.mod" ("module " ++ py_str project_name ++ "

go 1.21

require (
	github.com/gofiber/fiber/v2 v2.51.0
	gorm.io/gorm v1.25.5
	gorm.io/driver/postgres v1.5.4
	github.com/golang-jwt/jwt/v4 v4.5.0
)
") files in
  (* main.go *)
  let files := setitem "main.go" ("package main

import (
	" ++ dq ++ "log" ++ dq ++ "
	" ++ dq ++ "os" ++ dq ++ "
	
	" ++ dq ++ "github.com/gofiber/fiber/v2" ++ dq ++ "
	" ++ dq ++ "github.com/gofiber/fiber/v2/middleware/cors" ++ dq ++ "
	" ++ dq ++ "github.com/gofiber/fiber/v2/middleware/logger" ++ dq ++ "
	" ++ dq ++ py_str project_name ++ "/database" ++ dq ++ "
	" ++ dq ++ py_str project_name ++ "/routes" ++ dq ++ "
)

func main() {
	app := fiber.New()

	// Middleware
	app.Use(logger.New())
	app.Use(cors.New())

	// Connect to database
	database.Connect()

	// Setup routes
	routes.Setup(app)

	// Start server
	port := os.Getenv(" ++ dq ++ "PORT" ++ dq ++ ")
	if port == " ++ dq ++ dq ++ " {
		port = " ++ dq ++ "8080" ++ dq ++ "
	}
	log.Fatal(app.Listen(" ++ dq ++ ":" ++ dq ++ " + port))
}
") files in
  (* database/database.go *)
  let db_code := "package database

import (
	" ++ dq ++ "fmt" ++ dq ++ "
	" ++ dq ++ "log" ++ dq ++ "
	" ++ dq ++ "os" ++ dq ++ "
	
	" ++ dq ++ "gorm.io/driver/postgres" ++ dq ++ "
	" ++ dq ++ "gorm.io/gorm" ++ dq ++ "
)

var DB *gorm.DB

func Connect() {
	dsn := fmt.Sprintf(
		" ++ dq ++ "host=%s user=%s password=%s dbname=%s port=%s sslmode=disable" ++ dq ++ ",
		os.Getenv(" ++ dq ++ "DB_HOST" ++ dq ++ "),
		os.Getenv(" ++ dq ++ "DB_USER" ++ dq ++ "),
		os.Getenv(" ++ dq ++ "DB_PASSWORD" ++ dq ++ "),
		os.Getenv(" ++ dq ++ "DB_NAME" ++ dq ++ "),
		os.Getenv(" ++ dq ++ "DB_PORT" ++ dq ++ "),
	)

	db, err := gorm.Open(postgres.Open(dsn), &gorm.Config{})
	if err != nil {
		log.Fatal(" ++ dq ++ "Failed to connect to database:" ++ dq ++ ", err)
	}

	DB = db
	
	// Auto migrate models
" in
  names <- py_keys models ;;
  let db_code :=
    fold_left (fun db_code model_name => db_code ++ "	DB.AutoMigrate(&" ++ model_name ++ "{})
") names db_code in
  let db_code := db_code ++ "}
" in
  let files := setitem "database/database.go" db_code files in
  (* models/models.go *)
  let models_code := "package models

import (
	" ++ dq ++ "time" ++ dq ++ "
	" ++ dq ++ "gorm.io/gorm" ++ dq ++ "
)

" in
  items <- py_items models ;;
  models_code <- for_each items model_struct models_code ;;
  let files := setitem "models/models.go" models_code files in
  (* handlers/handlers.go *)
  let handlers_code := "package handlers

import (
	" ++ dq ++ "github.com/gofiber/fiber/v2" ++ dq ++ "
	" ++ dq ++ py_str project_name ++ "/database" ++ dq ++ "
	" ++ dq ++ py_str project_name ++ "/models" ++ dq ++ "
)

" in
  names <- py_keys models ;;
  let handlers_code :=
    fold_left
      (fun handlers_code model_name =>
         handlers_code ++ "// Get all " ++ model_name ++ "s
func Get" ++ model_name ++ "s(c *fiber.Ctx) error {
	var items []models." ++ model_name ++ "
	database.DB.Find(&items)
	return c.JSON(items)
}

// Get one " ++ model_name ++ "
func Get" ++ model_name ++ "(c *fiber.Ctx) error {
	id := c.Params(" ++ dq ++ "id" ++ dq ++ ")
	var item models." ++ model_name ++ "
	if err := database.DB.First(&item, id).Error; err != nil {
		return c.Status(404).JSON(fiber.Map{" ++ dq ++ "error" ++ dq ++ ": " ++ dq ++ "Not found" ++ dq ++ "})
	}
	return c.JSON(item)
}

// Create " ++ model_name ++ "
func Create" ++ model_name ++ "(c *fiber.Ctx) error {
	var item models." ++ model_name ++ "
	if err := c.BodyParser(&item); err != nil {
		return c.Status(400).JSON(fiber.Map{" ++ dq ++ "error" ++ dq ++ ": err.Error()})
	}
	database.DB.Create(&item)
	return c.Status(201).JSON(item)
}

// Update " ++ model_name ++ "
func Update" ++ model_name ++ "(c *fiber.Ctx) error {
	id := c.Params(" ++ dq ++ "id" ++ dq ++ ")
	var item models." ++ model_name ++ "
	if err := database.DB.First(&item, id).Error; err != nil {
		return c.Status(404).JSON(fiber.Map{" ++ dq ++ "error" ++ dq ++ ": " ++ dq ++ "Not found" ++ dq ++ "})
	}
	if err := c.BodyParser(&item); err != nil {
		return c.Status(400).JSON(fiber.Map{" ++ dq ++ "error" ++ dq ++ ": err.Error()})
	}
	database.DB.Save(&item)
	return c.JSON(item)
}

// Delete " ++ model_name ++ "
func Delete" ++ model_name ++ "(c *fiber.Ctx) error {
	id := c.Params(" ++ dq ++ "id" ++ dq ++ ")
	var item models." ++ model_name ++ "
	if err := database.DB.First(&item, id).Error; err != nil {
		return c.Status(404).JSON(fiber.Map{" ++ dq ++ "error" ++ dq ++ ": " ++ dq ++ "Not found" ++ dq ++ "})
	}
	database.DB.Delete(&item)
	return c.SendStatus(204)
}

")
      names handlers_code in
  let files := setitem "handlers/handlers.go" handlers_code files in
  (* routes/routes.go *)
  let routes_code := "package routes

import (
	" ++ dq ++ "github.com/gofiber/fiber/v2" ++ dq ++ "
	" ++ dq ++ py_str project_name ++ "/handlers" ++ dq ++ "
)

func Setup(app *fiber.App) {
	api := app.Group(" ++ dq ++ "/api/v1" ++ dq ++ ")
	
" in
  names <- py_keys models ;;
  let routes_code :=
    fold_left
      (fun routes_code model_name =>
         let plural := lower model_name ++ "s" in
         routes_code ++ "	// " ++ model_name ++ " routes
	" ++ plural ++ " := api.Group(" ++ dq ++ "/" ++ plural ++ dq ++ ")
	" ++ plural ++ ".Get(" ++ dq ++ "/" ++ dq ++ ", handlers.Get" ++ model_name ++ "s)
	" ++ plural ++ ".Get(" ++ dq ++ "/:id" ++ dq ++ ", handlers.Get" ++ model_name ++ ")
	" ++ plural ++ ".Post(" ++ dq ++ "/" ++ dq ++ ", handlers.Create" ++ model_name ++ ")
	" ++ plural ++ ".Put(" ++ dq ++ "/:id" ++ dq ++ ", handlers.Update" ++ model_name ++ ")
	" ++ plural ++ ".Delete(" ++ dq ++ "/:id" ++ dq ++ ", handlers.Delete" ++ model_name ++ ")
	
")
      names routes_code in
  let routes_code := routes_code ++ "}
" in
  let files := setitem "routes/routes.go" routes_code files in
  (* Dockerfile *)
  let files := setitem "Dockerfile" ("FROM golang:1.21-alpine AS builder

WORKDIR /app

COPY go.mod go.sum ./
RUN go mod download

COPY . .
RUN go build -o main .

FROM alpine:latest
WORKDIR /root/
COPY --from=builder /app/main .
EXPOSE 8080
CMD [" ++ dq ++ "./main" ++ dq ++ "]
") files in
  (* docker-compose.yml *)
  let files := setitem "docker-compose.yml" ("version: '3.8'
services:
  db:
    image: postgres:15
    environment:
      POSTGRES_DB: " ++ py_str project_name ++ "
      POSTGRES_USER: postgres
      POSTGRES_PASSWORD: postgres
    volumes:
      - postgres_data:/var/lib/postgresql/data
    ports:
      - " ++ dq ++ "5432:5432" ++ dq ++ "

  web:
    build: .
    ports:
      - " ++ dq ++ "8080:8080" ++ dq ++ "
    depends_on:
      - db
    environment:
      DB_HOST: db
      DB_USER: postgres
      DB_PASSWORD: postgres
      DB_NAME: " ++ py_str project_name ++ "
      DB_PORT: 5432
      PORT: 8080

volumes:
  postgres_data:
") files in
  (* README.md *)
  let files := setitem "README.md" ("# " ++ py_str project_name ++ "

A Go Fiber API application generated by InfraNest.

## Setup

```bash
go mod download
go run main.go
```

## Docker

```bash
docker-compose up --build
```

## API Endpoints

") files in
  names <- py_keys models ;;
  files <-
    for_each names
      (fun model_name files =>
         let plural := lower model_name ++ "s" in
         match lookup "README.md" files with
         | Some readme =>
             Ok (setitem "README.md" (readme ++ "
### " ++ model_name ++ "
- GET /api/v1/" ++ plural ++ " - List all
- POST /api/v1/" ++ plural ++ " - Create new
- GET /api/v1/" ++ plural ++ "/:id - Get one
- PUT /api/v1/" ++ plural ++ "/:id - Update
- DELETE /api/v1/" ++ plural ++ "/:id - Delete
") files)
         | None => Raise (KeyError "README.md")
         end)
      files ;;
  (* .gitignore *)
  let files := setitem ".gitignore" ("*.exe
*.exe~
*.dll
*.so
*.dylib
*.test
*.out
vendor/
") files in
  Ok files.

Definition preview_entry (path type description : string) : value :=
  VDict [("path", VStr path); ("type", VStr type); ("description", VStr description)].

Definition preview (dsl_spec : value) : result value :=
  Ok (VDict
        [("files",
          VList
            [preview_entry "main.go" "main" "Main application file";
             preview_entry "go.mod" "config" "Go module file";
             preview_entry "go.sum" "config" "Go dependencies";
             preview_entry "models/models.go" "model" "Data models";
             preview_entry "handlers/handlers.go" "handler" "API handlers";
             preview_entry "routes/routes.go" "config" "API routes";
             preview_entry "middleware/auth.go" "middleware"
                           "Authentication middleware";
             preview_entry "database/database.go" "config"
                           "Database configuration";
             preview_entry "Dockerfile" "config" "Docker configuration";
             preview_entry "docker-compose.yml" "config"
                           "Docker Compose configuration";
             preview_entry "README.md" "doc" "Project documentation";
             preview_entry ".gitignore" "config" "Git ignore file"])]).

End GoGenerator.

(* ------------------------------------------------------------------ *)
(** * [RailsGenerator] (rails_generator.py)

    Like [GoGenerator], a class of its own with no checks. *)

Module RailsGenerator.

Definition file_map : Type := list (string * string).

(** The model and the controller of one model: the body of the loop
    "Generate models". *)
Definition model_files (md : string * value) (files : file_map)
  : result file_map :=
  let '(model_name, model_spec) := md in
  let table_name := lower model_name ++ "s" in
  let model_code := "class " ++ model_name ++ " < ApplicationRecord
  # Validations
" in
  fields <- py_get model_spec "fields" (VDict []) ;;
  items <- py_items fields ;;
  model_code <-
    for_each items
      (fun fd model_code =>
         let '(field_name, field_spec) := fd in
         required <- py_get field_spec "required" VNone ;;
         if truthy required then
           Ok (model_code ++ "  validates :" ++ field_name ++ ", presence: true
")
         else Ok model_code)
      model_code ;;
  let model_code := model_code ++ "
  # Associations
" in
  let model_code := model_code ++ "  # Add associations here

" in
  let model_code := model_code ++ "  # Callbacks
" in
  let model_code := model_code ++ "  # Add callbacks here
end
" in
  let files := setitem ("app/models/" ++ lower model_name ++ ".rb") model_code files in
  (* Generate controller *)
  let plural := lower model_name ++ "s" in
  let field_names := keys items in
  let controller_code := "module Api
  module V1
    class " ++ model_name ++ "sController < ApplicationController
      before_action :set_" ++ lower model_name ++ ", only: [:show, :update, :destroy]

      # GET /api/v1/" ++ plural ++ "
      def index
        @" ++ plural ++ " = " ++ model_name ++ ".page(params[:page]).per(params[:per_page] || 20)
        render json: @" ++ plural ++ "
      end

      # GET /api/v1/" ++ plural ++ "/:id
      def show
        render json: @" ++ lower model_name ++ "
      end

      # POST /api/v1/" ++ plural ++ "
      def create
        @" ++ lower model_name ++ " = " ++ model_name ++ ".new(" ++ lower model_name ++ "_params)

        if @" ++ lower model_name ++ ".save
          render json: @" ++ lower model_name ++ ", status: :created
        else
          render json: @" ++ lower model_name ++ ".errors, status: :unprocessable_entity
        end
      end

      # PATCH/PUT /api/v1/" ++ plural ++ "/:id
      def update
        if @" ++ lower model_name ++ ".update(" ++ lower model_name ++ "_params)
          render json: @" ++ lower model_name ++ "
        else
          render json: @" ++ lower model_name ++ ".errors, status: :unprocessable_entity
        end
      end

      # DELETE /api/v1/" ++ plural ++ "/:id
      def destroy
        @" ++ lower model_name ++ ".destroy
        head :no_content
      end

      private

      def set_" ++ lower model_name ++ "
        @" ++ lower model_name ++ " = " ++ model_name ++ ".find(params[:id])
      end

      def " ++ lower model_name ++ "_params
        params.require(:" ++ lower model_name ++ ").permit(" ++ join ", " (map (fun f => ":" ++ f) field_names) ++ ")
      end
    end
  end
end
" in
  let files := setitem ("app/controllers/api/v1/" ++ plural ++ "_controller.rb") controller_code files in
  Ok files.

Definition generate (dsl_spec : value) : result file_map :=
  let files : file_map := [] in
  meta <- py_get dsl_spec "meta" (VDict []) ;;
  project_name <- py_get meta "name" (VStr "rails_app") ;;
  models <- py_get dsl_spec "models" (VDict []) ;;
  (* Gemfile *)
  let files := setitem "Gemfile" ("source 'https://rubygems.org'
ruby '3.2.0'

gem 'rails', '~> 7.1.0'
gem 'pg', '~> 1.5'
gem 'puma', '~> 6.4'
gem 'redis', '~> 5.0'
gem 'bcrypt', '~> 3.1'
gem 'rack-cors'
gem 'jwt'
gem 'active_model_serializers', '~> 0.10.0'
gem 'kaminari'

group :development, :test do
  gem 'rspec-rails'
  gem 'factory_bot_rails'
  gem 'faker'
end

group :development do
  gem 'listen'
end
") files in
  (* config/database.yml *)
  let files := setitem "config/database.yml" ("default: &default
  adapter: postgresql
  encoding: unicode
  pool: <%= ENV.fetch(" ++ dq ++ "RAILS_MAX_THREADS" ++ dq ++ ") { 5 } %>
  username: <%= ENV.fetch(" ++ dq ++ "DB_USERNAME" ++ dq ++ ") { " ++ dq ++ "postgres" ++ dq ++ " } %>
  password: <%= ENV.fetch(" ++ dq ++ "DB_PASSWORD" ++ dq ++ ") { " ++ dq ++ "postgres" ++ dq ++ " } %>
  host: <%= ENV.fetch(" ++ dq ++ "DB_HOST" ++ dq ++ ") { " ++ dq ++ "localhost" ++ dq ++ " } %>

development:
  <<: *default
  database: " ++ py_str project_name ++ "_development

test:
  <<: *default
  database: " ++ py_str project_name ++ "_test

production:
  <<: *default
  database: " ++ py_str project_name ++ "_production
  url: <%= ENV['DATABASE_URL'] %>
") files in
  (* config/routes.rb *)
  let routes := "Rails.application.routes.draw do
" in
  let routes := routes ++ "  namespace :api do
" in
  let routes := routes ++ "    namespace :v1 do
" in
  names <- py_keys models ;;
  let routes :=
    fold_left
      (fun routes model_name =>
         let plural := lower model_name ++ "s" in
         routes ++ "      resources :" ++ plural ++ "
")
      names routes in
  let routes := routes ++ "    end
  end
end
" in
  let files := setitem "config/routes.rb" routes files in
  (* Generate models *)
  items <- py_items models ;;
  files <- for_each items model_files files ;;
  (* Dockerfile *)
  let files := setitem "Dockerfile" ("FROM ruby:3.2.0

WORKDIR /app

COPY Gemfile Gemfile.lock ./
RUN bundle install

COPY . .

EXPOSE 3000

CMD [" ++ dq ++ "rails" ++ dq ++ ", " ++ dq ++ "server" ++ dq ++ ", " ++ dq ++ "-b" ++ dq ++ ", " ++ dq ++ "0.0.0.0" ++ dq ++ "]
") files in
  (* docker-compose.yml *)
  let files := setitem "docker-compose.yml" ("version: '3.8'
services:
  db:
    image: postgres:15
    environment:
      POSTGRES_DB: " ++ py_str project_name ++ "_development
      POSTGRES_USER: postgres
      POSTGRES_PASSWORD: postgres
    volumes:
      - postgres_data:/var/lib/postgresql/data
    ports:
      - " ++ dq ++ "5432:5432" ++ dq ++ "

  web:
    build: .
    command: rails server -b 0.0.0.0
    volumes:
      - .:/app
    ports:
      - " ++ dq ++ "3000:3000" ++ dq ++ "
    depends_on:
      - db
    environment:
      DB_HOST: db
      DB_USERNAME: postgres
      DB_PASSWORD: postgres

volumes:
  postgres_data:
") files in
  (* README.md *)
  let files := setitem "README.md" ("# " ++ py_str project_name ++ "

A Rails API application generated by InfraNest.

## Setup

```bash
bundle install
rails db:create db:migrate
rails server
```

## Docker

```bash
docker-compose up
```

## API Endpoints

") files in
  names <- py_keys models ;;
  files <-
    for_each names
      (fun model_name files =>
         let plural := lower model_name ++ "s" in
         match lookup "README.md" files with
         | Some readme =>
             Ok (setitem "README.md" (readme ++ "
### " ++ model_name ++ "
- GET /api/v1/" ++ plural ++ " - List all
- POST /api/v1/" ++ plural ++ " - Create new
- GET /api/v1/" ++ plural ++ "/:id - Get one
- PUT /api/v1/" ++ plural ++ "/:id - Update
- DELETE /api/v1/" ++ plural ++ "/:id - Delete
") files)
         | None => Raise (KeyError "README.md")
         end)
      files ;;
  (* .gitignore *)
  let files := setitem ".gitignore" ("*.rbc
*.log
tmp/
.DS_Store
coverage/
") files in
  Ok files.

Definition preview_entry (path type description : string) : value :=
  VDict [("path", VStr path); ("type", VStr type); ("description", VStr description)].

Definition preview (dsl_spec : value) : result value :=
  let files :=
    [preview_entry "Gemfile" "config" "Ruby dependencies";
     preview_entry "config/database.yml" "config" "Database configuration";
     preview_entry "config/routes.rb" "config" "API routes";
     preview_entry "config/application.rb" "config" "Application configuration";
     preview_entry "app/models/application_record.rb" "model" "Base model class";
     preview_entry "app/controllers/application_controller.rb" "controller"
                   "Base controller class";
     preview_entry "Dockerfile" "config" "Docker configuration";
     preview_entry "docker-compose.yml" "config" "Docker Compose configuration";
     preview_entry "README.md" "doc" "Project documentation";
     preview_entry ".gitignore" "config" "Git ignore file"] in
  (* Add model files to preview *)
  models <- py_get dsl_spec "models" (VDict []) ;;
  names <- py_keys models ;;
  let files :=
    fold_left
      (fun files model_name =>
         (files
          ++ [preview_entry ("app/models/" ++ lower model_name ++ ".rb") "model"
                            (model_name ++ " model");
              preview_entry ("app/controllers/" ++ lower model_name
                               ++ "s_controller.rb")
                            "controller" (model_name ++ " controller");
              preview_entry ("app/serializers/" ++ lower model_name
                               ++ "_serializer.rb")
                            "serializer" (model_name ++ " serializer")])%list)
      names files in
  Ok (VDict [("files", VList files)]).

End RailsGenerator.

(* ------------------------------------------------------------------ *)
(** * The text of the Django models and serializers, in closed form *)

Module DjangoText.

Import DjangoGenerator.

(** The fields of a model: [model_config.get('fields', {})]. *)
Definition fields_of (m : list (string * value)) : list (string * value) :=
  match lookup "fields" m with
  | Some (VDict fields) => fields
  | _ => []
  end.

(** The line every model class starts with, whatever its fields. *)
Definition id_column : string :=
  "    id = models.UUIDField(primary_key=True, default=uuid.uuid4, editable=False)
".

(** The declaration that [field_declaration] emits for a field. *)
Definition declaration_of (fd : string * value) : string :=
  match field_declaration (fst fd) (snd fd) with
  | Ok decl => decl
  | Raise _ => EmptyString
  end.

Definition class_head (model_name : string) (m : list (string * value)) : string :=
  let description :=
    match lookup "description" m with
    | Some v => py_str v
    | None => model_name ++ " model"
    end in
  "class " ++ model_name ++ "(models.Model):
" ++ "    " ++ dq3 ++ description ++ dq3 ++ "
".

Definition class_tail (model_name : string) (fields : list (string * value))
  : string :=
  let first_field := match keys fields with
                     | k :: _ => k
                     | [] => "id"
                     end in
  "    created_at = models.DateTimeField(auto_now_add=True)
" ++ "    updated_at = models.DateTimeField(auto_now=True)
" ++ "
" ++ "    class Meta:
" ++ "        db_table = " ++ dq ++ _to_snake_case model_name ++ "s" ++ dq ++ "
" ++ "        ordering = [" ++ dq ++ "-created_at" ++ dq ++ "]
" ++ "
" ++ "    def __str__(self):
" ++ "        return str(self." ++ first_field ++ ")
" ++ "

".

(** The class of one model: the hard-coded [id] column, then the declared
    fields in their order, then the timestamps. *)
Definition model_text (md : string * value) : string :=
  match snd md with
  | VDict m =>
      class_head (fst md) m ++ id_column
        ++ concat_map declaration_of (fields_of m)
        ++ class_tail (fst md) (fields_of m)
  | _ => EmptyString
  end.

(** The serializer of one model, for the list [all_fields]. *)
Definition serializer_for (model_name : string) (all_fields : list string)
  : string :=
  "class " ++ model_name ++ "Serializer(serializers.ModelSerializer):
    " ++ dq3 ++ "Serializer for " ++ model_name ++ " model" ++ dq3 ++ "
    
    class Meta:
        model = " ++ model_name ++ "
        fields = " ++ repr_strs all_fields ++ "
        read_only_fields = ['id', 'created_at', 'updated_at']


".

Definition serializer_text (md : string * value) : string :=
  match snd md with
  | VDict m =>
      serializer_for (fst md)
        (["id"] ++ keys (fields_of m) ++ ["created_at"; "updated_at"])%list
  | _ => EmptyString
  end.

(** The project name the headers print. *)
Definition project_name_of (d : list (string * value)) : value :=
  match lookup "meta" d with
  | Some (VDict meta) =>
      match lookup "name" meta with
      | Some v => v
      | None => VStr "project"
      end
  | _ => VStr "project"
  end.

(** ** Changing the primary-key flags of a document *)

(** [g] changes nothing of a field definition but its [primary_key]
    entry. *)
Definition changes_only_primary_key (g : value -> value) : Prop :=
  forall v,
    match v with
    | VDict f =>
        exists f', g v = VDict f'
          /\ forall k, k <> "primary_key" -> lookup k f' = lookup k f
    | _ => g v = v
    end.

(** [g] applied to every value of a dictionary. *)
Definition map_values (g : value -> value) (v : value) : value :=
  match v with
  | VDict d => VDict (map (fun kv => (fst kv, g (snd kv))) d)
  | _ => v
  end.

(** [g] applied to the entry [k] of a dictionary. *)
Definition map_entry (k : string) (g : value -> value) (v : value) : value :=
  match v with
  | VDict d =>
      VDict (map (fun kv => if String.eqb k (fst kv) then (fst kv, g (snd kv))
                            else kv) d)
  | _ => v
  end.

(** [g] applied to every field definition of every model. *)
Definition map_field_defs (g : value -> value) (dsl_spec : value) : value :=
  map_entry "models" (map_values (map_entry "fields" (map_values g))) dsl_spec.

End DjangoText.

(* ------------------------------------------------------------------ *)
(** * Example documents *)

Module Examples.

Definition meta_of (name framework : string) : value :=
  VDict [("name", VStr name); ("version", VStr "1.0");
         ("framework", VStr framework)].

(** Scenario B of the specification: a model [Task] with one field and no
    primary key. *)
Definition title_field : value :=
  VDict [("type", VStr "string"); ("required", VBool true)].

Definition task_fields : list (string * value) := [("title", title_field)].

Definition task_model : list (string * value) :=
  [("fields", VDict task_fields)].

Definition task_models : list (string * value) :=
  [("Task", VDict task_model)].

Definition scenario_B_document : list (string * value) :=
  [("meta", meta_of "todo" "django"); ("models", VDict task_models)].

Definition scenario_B : value := VDict scenario_B_document.

(** Scenario B after normalisation: the synthetic [id] follows [title]. *)
Definition normalized_task_fields : list (string * value) :=
  [("title", title_field); ("id", DSLParser.synthetic_id)].

Definition normalized_scenario_B : value :=
  VDict [("meta", meta_of "todo" "django");
         ("models",
          VDict [("Task", VDict [("fields", VDict normalized_task_fields)])])].

(** A field definition that is a number. *)
Definition number_field : value :=
  VDict [("meta", meta_of "todo" "django");
         ("models",
          VDict [("Task", VDict [("fields", VDict [("title", VInt 5)])])])].

(** Two fields flagged as primary key, the first without a type. *)
Definition masked_fields : list (string * value) :=
  [("a", VDict [("primary_key", VBool true)]);
   ("b", VDict [("type", VStr "uuid"); ("primary_key", VBool true)])].

Definition masked_model : list (string * value) :=
  [("fields", VDict masked_fields)].

Definition masked_models : list (string * value) :=
  [("User", VDict masked_model)].

Definition masked_document : list (string * value) :=
  [("meta", meta_of "shop" "django"); ("models", VDict masked_models)].

Definition masked_primary_keys : value := VDict masked_document.






(** The two examples of the specification for the security gate: a
    description that holds a script element and a field named [1;DROP]. *)
Definition unsafe_document : list (string * value) :=
  [("meta",
    VDict [("name", VStr "shop"); ("version", VStr "1.0");
           ("framework", VStr "go-fiber");
           ("description", VStr "<script>alert(1)</script>")]);
   ("models",
    VDict [("Item",
            VDict [("fields",
                    VDict [("1;DROP", VDict [("type", VStr "integer")])])])])].

Definition unsafe_spec : value := VDict unsafe_document.

(** A document with no [meta] section. *)
Definition no_meta : value :=
  VDict [("models", VDict [("Item", VDict [("fields", VDict [])])])].

End Examples.

(* ------------------------------------------------------------------ *)
(** * Shapes of documents, and what the validator reports on them

    A document has the shape of the data model when every section, model
    definition, field definition and endpoint is a dictionary (and
    [meta.name] is a string, [api.endpoints] a list).  On such documents
    the result of [validate] is given in closed form by the functions
    below, which the theorems relate to the code. *)

Module Shape.

Import DSLParser.

Definition is_dict (v : value) : bool :=
  match v with VDict _ => true | _ => false end.

(** A dictionary all of whose values satisfy [p]. *)
Definition dict_of (p : value -> bool) (v : value) : bool :=
  match v with
  | VDict d => forallb (fun kv => p (snd kv)) d
  | _ => false
  end.

(** The entry [k] of [d], when present, satisfies [p]. *)
Definition entry_ok {A : Type} (k : string) (p : A -> bool)
  (d : list (string * A)) : bool :=
  match lookup k d with
  | Some v => p v
  | None => true
  end.

Definition is_string (v : value) : bool :=
  match v with VStr _ => true | _ => false end.

Definition meta_ok (v : value) : bool :=
  match v with
  | VDict m => entry_ok "name" is_string m
  | _ => false
  end.

Definition model_ok (v : value) : bool :=
  match v with
  | VDict md => entry_ok "fields" (dict_of is_dict) md
  | _ => false
  end.

Definition endpoints_ok (v : value) : bool :=
  match v with
  | VList l => forallb is_dict l
  | _ => false
  end.

Definition api_ok (v : value) : bool :=
  match v with
  | VDict a => entry_ok "endpoints" endpoints_ok a
  | _ => false
  end.

Definition well_shaped (spec : value) : bool :=
  match spec with
  | VDict d =>
      entry_ok "meta" meta_ok d
      && entry_ok "models" (dict_of model_ok) d
      && entry_ok "auth" is_dict d
      && entry_ok "api" api_ok d
  | _ => false
  end.

(** ** The errors and warnings of a well-shaped document *)

Definition missing (k : string) (d : list (string * value)) (msg : string)
  : list string :=
  if has_key k d then [] else [msg].

Definition meta_errors (m : list (string * value)) : list string :=
  (missing "name" m (missing_meta_field_msg "name")
   ++ missing "version" m (missing_meta_field_msg "version")
   ++ missing "framework" m (missing_meta_field_msg "framework")
   ++ match lookup "framework" m with
      | Some fw => if in_strs fw supported_frameworks then []
                   else [unsupported_framework_msg fw]
      | None => []
      end
   ++ match lookup "name" m with
      | Some (VStr s) => if match_dollar project_name_re s then []
                         else [project_name_msg]
      | _ => []
      end)%list.

(** The field-type errors of one field definition. *)
Definition field_errors (model_name : string) (fd : string * value)
  : list string :=
  match snd fd with
  | VDict f =>
      match lookup "type" f with
      | None => [missing_type_msg (fst fd) model_name]
      | Some ty => if in_strs ty field_types then []
                   else [invalid_type_msg ty (fst fd) model_name]
      end
  | _ => []
  end.

(** Whether the validator counts the field as a primary key: it has a
    [type] and a true [primary_key]. *)
Definition counted_primary_key (v : value) : bool :=
  match v with
  | VDict f =>
      has_key "type" f
      && match lookup "primary_key" f with
         | Some pk => truthy pk
         | None => false
         end
  | _ => false
  end.

Definition primary_key_count (fields : list (string * value)) : nat :=
  List.length (filter (fun fd => counted_primary_key (snd fd)) fields).

Definition model_name_errors (model_name : string) : list string :=
  if match_dollar model_name_re model_name then []
  else [model_name_msg model_name].

Definition model_errors (md : string * value) : list string :=
  (model_name_errors (fst md)
   ++ match snd md with
      | VDict m =>
          match lookup "fields" m with
          | None => [missing_fields_msg (fst md)]
          | Some (VDict fields) =>
              flat_map (field_errors (fst md)) fields
              ++ (if Nat.ltb 1 (primary_key_count fields)
                  then [multiple_primary_keys_msg (fst md)] else [])
          | Some _ => []
          end
      | _ => []
      end)%list.

Definition model_warnings (md : string * value) : list string :=
  match snd md with
  | VDict m =>
      match lookup "fields" m with
      | Some (VDict fields) =>
          if Nat.eqb (primary_key_count fields) 0
          then [no_primary_key_msg (fst md)] else []
      | _ => []
      end
  | _ => []
  end.

Definition auth_errors (a : list (string * value)) : list string :=
  (missing "provider" a missing_provider_msg
   ++ match lookup "provider" a with
      | Some p => if in_strs p supported_providers then []
                  else [unsupported_provider_msg p]
      | None => [unsupported_provider_msg VNone]
      end)%list.

Definition endpoint_errors (e : value) : list string :=
  match e with
  | VDict ep =>
      (missing "path" ep missing_path_msg
       ++ missing "method" ep missing_method_msg)%list
  | _ => []
  end.

Definition api_errors (a : list (string * value)) : list string :=
  match lookup "endpoints" a with
  | Some (VList l) => flat_map endpoint_errors l
  | _ => []
  end.

(** The part of the result that a section contributes. *)
Definition section {A : Type} (k : string) (d : list (string * value))
  (f : value -> list A) : list A :=
  match lookup k d with
  | Some v => f v
  | None => []
  end.

Definition on_dict {A : Type} (f : list (string * value) -> list A)
  (v : value) : list A :=
  match v with
  | VDict d => f d
  | _ => []
  end.

Definition all_errors (d : list (string * value)) : list string :=
  (missing "meta" d (missing_section_msg "meta")
   ++ missing "models" d (missing_section_msg "models")
   ++ section "meta" d (on_dict meta_errors)
   ++ section "models" d (on_dict (flat_map model_errors))
   ++ section "auth" d (on_dict auth_errors)
   ++ section "api" d (on_dict api_errors))%list.

Definition all_warnings (d : list (string * value)) : list string :=
  section "models" d (on_dict (flat_map model_warnings)).

(** ** The document that [_normalize_spec] returns *)

(** The field definition carries a true [primary_key]. *)
Definition flagged_primary_key (v : value) : bool :=
  match v with
  | VDict f =>
      match lookup "primary_key" f with
      | Some pk => truthy pk
      | None => false
      end
  | _ => false
  end.

Definition has_primary_key (fields : list (string * value)) : bool :=
  existsb (fun fd => flagged_primary_key (snd fd)) fields.

Definition normalized_fields (fields : list (string * value))
  : list (string * value) :=
  if has_primary_key fields || has_key "id" fields then fields
  else (fields ++ [("id", synthetic_id)])%list.

Definition normalized_model (model_def : value) : value :=
  match model_def with
  | VDict m =>
      match lookup "fields" m with
      | Some (VDict fields) =>
          VDict (setitem "fields" (VDict (normalized_fields fields)) m)
      | _ => model_def
      end
  | _ => model_def
  end.

Definition normalized_models (models : list (string * value))
  : list (string * value) :=
  map (fun md => (fst md, normalized_model (snd md))) models.


(** ** What the security gate looks for *)




(** ** Generator objects: what a call can depend on *)

(** Two states of a generator with the same [validation_errors]. *)
Definition same_errors (st1 st2 : BaseGenerator.gen_state) : Prop :=
  BaseGenerator.validation_errors st1 = BaseGenerator.validation_errors st2.

(** A method whose outcome depends on the state through
    [validation_errors] at most. *)
Definition stable {A : Type} (m : BaseGenerator.gen A) : Prop :=
  forall st1 st2, same_errors st1 st2 ->
    fst (m st1) = fst (m st2) /\ same_errors (snd (m st1)) (snd (m st2)).

(** A method whose outcome does not depend on the state at all. *)
Definition oblivious {A : Type} (m : BaseGenerator.gen A) : Prop :=
  forall st1 st2,
    fst (m st1) = fst (m st2) /\ same_errors (snd (m st1)) (snd (m st2)).

(** The document returned by [_normalize_spec] has a [meta] section. *)
Definition with_meta (d : list (string * value)) : list (string * value) :=
  if has_key "meta" d then d else setitem "meta" (VDict []) d.

(** The document with its models normalised. *)
Definition after_call (d : list (string * value)) : list (string * value) :=
  match lookup "models" d with
  | Some (VDict models) => setitem "models" (VDict (normalized_models models)) d
  | _ => d
  end.

End Shape.


(* ------------------------------------------------------------------ *)
(** * Names that the validator accepts *)

Module Names.

Import DSLParser.

Fixpoint string_forallb (p : ascii -> bool) (s : string) : bool :=
  match s with
  | EmptyString => true
  | String c s' => p c && string_forallb p s'
  end.








End Names.

(* ------------------------------------------------------------------ *)
(** * More example documents *)

Module Examples2.

Import Examples.

(** Scenario B with two sections that the validator does not know. *)
Definition scenario_B_with_jobs : list (string * value) :=
  (scenario_B_document
   ++ [("jobs", VList [VInt 1]); ("deployment", VStr "docker")])%list.

(** A [meta] section whose name is a number. *)
Definition numbered_meta : list (string * value) :=
  [("name", VInt 5); ("version", VStr "1.0"); ("framework", VStr "django")].

Definition numbered_document : list (string * value) :=
  [("meta", VDict numbered_meta); ("models", VDict task_models)].



End Examples2.

(* ------------------------------------------------------------------ *)
(** * What [BaseGenerator.validate_dsl] reports *)

Module DslErrors.

(** The error of a required key that is missing. *)
Definition missing_key (what key : string) (d : list (string * value))
  : list string :=
  if has_key key d then [] else [what ++ key].

Definition required_errors (d : list (string * value)) : list string :=
  (missing_key "Missing required field: " "meta" d
   ++ missing_key "Missing required field: " "models" d)%list.

Definition meta_section_errors (d : list (string * value)) : list string :=
  match lookup "meta" d with
  | None => []
  | Some (VDict meta) =>
      (missing_key "Missing required meta field: " "name" meta
       ++ missing_key "Missing required meta field: " "version" meta
       ++ missing_key "Missing required meta field: " "framework" meta)%list
  | Some _ => ["Meta section must be a dictionary"]
  end.

Definition model_entry_errors (md : string * value) : list string :=
  match snd md with
  | VDict model_def =>
      if has_key "fields" model_def then []
      else ["Model " ++ fst md ++ " is missing fields definition"]
  | _ => ["Model " ++ fst md ++ " definition must be a dictionary"]
  end.

Definition models_section_errors (d : list (string * value)) : list string :=
  match lookup "models" d with
  | None => []
  | Some (VDict models) => flat_map model_entry_errors models
  | Some _ => ["Models section must be a dictionary"]
  end.

Definition dsl_errors (d : list (string * value)) : list string :=
  (required_errors d ++ meta_section_errors d ++ models_section_errors d)%list.

(** A model definition that is a dictionary with a [fields] key. *)
Definition has_fields (v : value) : bool :=
  match v with
  | VDict model_def => has_key "fields" model_def
  | _ => false
  end.

(** The documents that [validate_dsl] accepts. *)
Definition accepted (d : list (string * value)) : bool :=
  match lookup "meta" d, lookup "models" d with
  | Some (VDict meta), Some (VDict models) =>
      has_key "name" meta && has_key "version" meta
      && has_key "framework" meta
      && forallb (fun md => has_fields (snd md)) models
  | _, _ => false
  end.

(** The generator object after [validate_dsl] has stored [errs]. *)
Definition with_errors (errs : list string) (st : BaseGenerator.gen_state)
  : BaseGenerator.gen_state :=
  {| BaseGenerator.validation_errors := errs;
     BaseGenerator.security_checks_passed :=
       BaseGenerator.security_checks_passed st |}.

End DslErrors.

(* ------------------------------------------------------------------ *)
(** * The paths of the generated files *)

Module Paths.


Definition go : list string :=
  ["go.mod"; "main.go"; "database/database.go"; "models/models.go";
   "handlers/handlers.go"; "routes/routes.go"; "Dockerfile";
   "docker-compose.yml"; "README.md"; ".gitignore"].

(** The Rails files that do not depend on the models. *)
Definition rails_fixed : list string :=
  ["Gemfile"; "config/database.yml"; "config/routes.rb"; "Dockerfile";
   "docker-compose.yml"; "README.md"; ".gitignore"].

(** The two Rails files of a model. *)
Definition rails_model (model_name : string) : string :=
  "app/models/" ++ lower model_name ++ ".rb".

Definition rails_controller (model_name : string) : string :=
  "app/controllers/api/v1/" ++ (lower model_name ++ "s") ++ "_controller.rb".

Definition rails_paths (model_names : list string) (p : string) : Prop :=
  In p rails_fixed
  \/ exists model_name,
       In model_name model_names
       /\ (p = rails_model model_name \/ p = rails_controller model_name).


End Paths.

(* ------------------------------------------------------------------ *)
(** * The template filters of [DjangoGenerator] (django_generator.py) *)

Module DjangoFilters.

(** [s.split(sep)] for a separator of one character. *)
Fixpoint split (sep : ascii) (s : string) : list string :=
  match s with
  | EmptyString => [EmptyString]
  | String c s' =>
      if Ascii.eqb c sep then EmptyString :: split sep s'
      else match split sep s' with
           | piece :: rest => String c piece :: rest
           | [] => [String c EmptyString]
           end
  end.

(** [_to_camel_case] *)
Definition _to_camel_case (snake_str : string) : string :=
  let components := split (chr 95) snake_str in
  concat_map GoGenerator.title components.

(** [s.endswith(c)] for one character, and [s[:-1]]. *)
Fixpoint ends_with (c : ascii) (s : string) : bool :=
  match s with
  | EmptyString => false
  | String a s' =>
      match s' with
      | EmptyString => Ascii.eqb a c
      | _ => ends_with c s'
      end
  end.

Fixpoint drop_last (s : string) : string :=
  match s with
  | EmptyString => EmptyString
  | String a s' =>
      match s' with
      | EmptyString => EmptyString
      | _ => String a (drop_last s')
      end
  end.

(** [_pluralize] *)
Definition _pluralize (singular : string) : string :=
  if ends_with (chr 121) singular then drop_last singular ++ "ies"
  else if ends_with (chr 115) singular then singular ++ "es"
  else singular ++ "s".

(** ** The names of the round trips *)

Definition is_letter_az (c : ascii) : bool := is_upper_az c || is_lower_az c.

(** A capital [A-Z] followed by letters [a-zA-Z], or the empty string. *)
Definition camel_name (s : string) : bool :=
  match s with
  | EmptyString => true
  | String c s' => is_upper_az c && Names.string_forallb is_letter_az s'
  end.

(** Words of [a-z] joined by single underscores; [after_letter] says
    whether a letter comes just before. *)
Fixpoint snake_from (after_letter : bool) (s : string) : bool :=
  match s with
  | EmptyString => after_letter
  | String c s' =>
      if Ascii.eqb c (chr 95) then after_letter && snake_from false s'
      else is_lower_az c && snake_from true s'
  end.

Definition snake_name (s : string) : bool := snake_from false s.

(** [_to_camel_case] in one pass: underscores are dropped, and a letter
    is put in title case unless a letter comes just before. *)
Fixpoint camel_from (previous_is_cased : bool) (s : string) : string :=
  match s with
  | EmptyString => EmptyString
  | String c s' =>
      if Ascii.eqb c (chr 95) then camel_from false s'
      else (if previous_is_cased then String (lower_char c) EmptyString
            else GoGenerator.title_char c)
           ++ camel_from (GoGenerator.is_cased c) s'
  end.

End DjangoFilters.

(* ------------------------------------------------------------------ *)
(** * Documents on which the two validators part *)

Module Examples3.

Import Examples.

(** A document whose [meta] section is [None]. *)
Definition null_meta : value := VDict [("meta", VNone)].

(** Scenario D of the specification: a field definition that is a string
    literal. *)
Definition string_field : value :=
  VDict [("meta", meta_of "todo" "django");
         ("models",
          VDict [("Account",
                  VDict [("fields",
                          VDict [("password", VStr "secret123")])])])].

(** A field whose type is outside the enumeration. *)
Definition bogus_fields : list (string * value) :=
  [("b", VDict [("type", VStr "bogus")])].

Definition bogus_only : value :=
  VDict [("meta", meta_of "shop" "django");
         ("models", VDict [("Item", VDict [("fields", VDict bogus_fields)])])].

(** The same field, followed by a field definition that is a number. *)
Definition bogus_then_number : value :=
  VDict [("meta", meta_of "shop" "django");
         ("models",
          VDict [("Item",
                  VDict [("fields",
                          VDict (bogus_fields ++ [("a", VInt 5)]))])])].

(** A model with one field of each accepted type, one field of an unknown
    type and one field without a type. *)
Definition typed (ty : string) : string * value :=
  ("f_" ++ ty, VDict [("type", VStr ty)]).

Definition all_types_fields : list (string * value) :=
  (map typed DSLParser.field_types
   ++ [("g", VDict [("type", VStr "decimal")]);
       ("h", VDict [("required", VBool true)])])%list.

Definition all_types_model : list (string * value) :=
  [("fields", VDict all_types_fields)].

Definition all_types_models : list (string * value) :=
  [("Item", VDict all_types_model)].

Definition all_types_document : list (string * value) :=
  [("meta", meta_of "shop" "django"); ("models", VDict all_types_models)].

End Examples3.

(* ================================================================== *)
(** * Theorems *)

Lemma for_each_app {A S : Type} (l1 l2 : list A) (body : A -> S -> result S)
  (s : S) :
  for_each (l1 ++ l2) body s = (s' <- for_each l1 body s ;; for_each l2 body s').
Proof.
  revert s; induction l1 as [|a l1 IH]; intros s; simpl; [reflexivity|].
  destruct (body a s); simpl; auto.
Qed.

Arguments DSLParser.missing_section_msg : simpl never.
Arguments DSLParser.missing_meta_field_msg : simpl never.
Arguments DSLParser.unsupported_framework_msg : simpl never.
Arguments DSLParser.project_name_msg : simpl never.
Arguments DSLParser.model_name_msg : simpl never.
Arguments DSLParser.missing_fields_msg : simpl never.
Arguments DSLParser.missing_type_msg : simpl never.
Arguments DSLParser.invalid_type_msg : simpl never.
Arguments DSLParser.no_primary_key_msg : simpl never.
Arguments DSLParser.multiple_primary_keys_msg : simpl never.
Arguments DSLParser.missing_provider_msg : simpl never.
Arguments DSLParser.unsupported_provider_msg : simpl never.
Arguments DSLParser.missing_path_msg : simpl never.
Arguments DSLParser.missing_method_msg : simpl never.
Arguments match_dollar : simpl never.
Arguments in_strs : simpl never.

Section ValidateShape.

Import DSLParser Shape.

Lemma append_if_app (c : bool) (msg : string) (errs : list string) :
  append_if c msg errs = (errs ++ (if c then [msg] else []))%list.
Proof. destruct c; simpl; [reflexivity | now rewrite app_nil_r]. Qed.

Lemma missing_negb k d msg :
  (if negb (has_key k d) then [msg] else []) = missing k d msg.
Proof. unfold missing; now destruct (has_key k d). Qed.

Lemma has_key_lookup {A} k (d : list (string * A)) :
  has_key k d = match lookup k d with Some _ => true | None => false end.
Proof. reflexivity. Qed.

Lemma validate_meta_dict (m : list (string * value)) :
  meta_ok (VDict m) = true ->
  _validate_meta (VDict m) = Ok (meta_errors m).
Proof.
  unfold meta_ok, entry_ok, _validate_meta, meta_errors; intros Hname.
  cbn [for_each py_contains bind].
  rewrite !append_if_app, !missing_negb. cbn [app].
  generalize (missing "name" m (missing_meta_field_msg "name")).
  generalize (missing "version" m (missing_meta_field_msg "version")).
  generalize (missing "framework" m (missing_meta_field_msg "framework")).
  intros e3 e2 e1.
  unfold has_key, py_getitem.
  destruct (lookup "framework" m) as [fw|];
    destruct (lookup "name" m) as [[| | |s| |]|]; try discriminate; cbn;
    rewrite ?append_if_app, <- ?app_assoc;
    repeat match goal with
           | |- context [in_strs ?a ?b] => destruct (in_strs a b)
           | |- context [match_dollar ?a ?b] => destruct (match_dollar a b)
           end; cbn; rewrite ?app_nil_r; reflexivity.
Qed.

Lemma validate_field_dict model_name field_name f errs n :
  validate_field model_name (field_name, VDict f) (errs, n) =
  Ok ((errs ++ field_errors model_name (field_name, VDict f))%list,
      if counted_primary_key (VDict f) then S n else n).
Proof.
  unfold validate_field, field_errors, counted_primary_key.
  cbn [py_contains bind fst snd py_getitem py_get].
  unfold has_key.
  destruct (lookup "type" f) as [ty|]; cbn; [|reflexivity].
  rewrite append_if_app.
  destruct (lookup "primary_key" f) as [pk|]; cbn;
    destruct (in_strs ty field_types); cbn; reflexivity.
Qed.

Lemma validate_fields_dict model_name fields :
  forallb (fun kv => is_dict (snd kv)) fields = true ->
  forall errs n,
  for_each fields (validate_field model_name) (errs, n) =
  Ok ((errs ++ flat_map (field_errors model_name) fields)%list,
      n + primary_key_count fields).
Proof.
  induction fields as [|[fname fdef] fields IH]; intros Hall errs n.
  - cbn. now rewrite app_nil_r, Nat.add_0_r.
  - cbn in Hall. apply andb_prop in Hall as [Hd Hall].
    destruct fdef; try discriminate.
    cbn [for_each]. rewrite validate_field_dict. cbn [bind].
    rewrite (IH Hall). unfold primary_key_count. cbn [flat_map filter snd].
    rewrite <- app_assoc.
    destruct (counted_primary_key (VDict d)); cbn [List.length];
      f_equal; f_equal; lia.
Qed.

Lemma validate_model_dict model_name m errs warns :
  model_ok (VDict m) = true ->
  validate_model (model_name, VDict m) (errs, warns) =
  Ok ((errs ++ model_errors (model_name, VDict m))%list,
      (warns ++ model_warnings (model_name, VDict m))%list).
Proof.
  unfold model_ok, entry_ok, validate_model, model_errors, model_warnings,
    model_name_errors.
  cbn [py_contains bind fst snd py_getitem].
  rewrite append_if_app. unfold has_key.
  destruct (lookup "fields" m) as [fs|]; cbn [negb].
  - intros Hfs. destruct fs; try discriminate. cbn in Hfs.
    cbn [py_items bind]. rewrite (@validate_fields_dict _ _ Hfs). cbn [bind].
    rewrite Nat.add_0_l.
    destruct (Nat.eqb (primary_key_count d) 0) eqn:E0.
    + apply Nat.eqb_eq in E0. rewrite E0. cbn.
      rewrite app_nil_r, <- !app_assoc.
      destruct (match_dollar model_name_re model_name); reflexivity.
    + destruct (Nat.ltb 1 (primary_key_count d)); cbn;
        rewrite ?app_nil_r, <- ?app_assoc;
        destruct (match_dollar model_name_re model_name); cbn;
        rewrite ?app_nil_r, <- ?app_assoc; reflexivity.
  - intros _. cbn. rewrite app_nil_r, <- !app_assoc.
    destruct (match_dollar model_name_re model_name); reflexivity.
Qed.

Lemma validate_models_loop models :
  forallb (fun kv => model_ok (snd kv)) models = true ->
  forall errs warns,
  for_each models validate_model (errs, warns) =
  Ok ((errs ++ flat_map model_errors models)%list,
      (warns ++ flat_map model_warnings models)%list).
Proof.
  induction models as [|[name def] models IH]; intros Hall errs warns.
  - cbn. now rewrite !app_nil_r.
  - cbn in Hall. apply andb_prop in Hall as [Hd Hall].
    destruct def; try discriminate.
    cbn [for_each]. rewrite (@validate_model_dict _ _ _ _ Hd). cbn [bind].
    rewrite (IH Hall). cbn [flat_map]. now rewrite <- !app_assoc.
Qed.

Lemma validate_models_dict models :
  dict_of model_ok (VDict models) = true ->
  _validate_models (VDict models) =
  Ok (flat_map model_errors models, flat_map model_warnings models).
Proof.
  intros H. unfold _validate_models. cbn [py_items bind].
  now rewrite (@validate_models_loop _ H).
Qed.

Lemma validate_auth_dict a :
  _validate_auth (VDict a) = Ok (auth_errors a).
Proof.
  unfold _validate_auth, auth_errors. cbn [py_contains bind py_get].
  rewrite !append_if_app, missing_negb. cbn [app].
  destruct (lookup "provider" a) as [p|]; cbn [bind].
  - rewrite append_if_app. now destruct (in_strs p supported_providers).
  - reflexivity.
Qed.

Lemma validate_endpoint_dict ep errs :
  validate_endpoint (VDict ep) errs = Ok (errs ++ endpoint_errors (VDict ep))%list.
Proof.
  unfold validate_endpoint, endpoint_errors. cbn [py_contains bind].
  now rewrite !append_if_app, !missing_negb, <- app_assoc.
Qed.

Lemma validate_endpoints_loop l :
  forallb is_dict l = true ->
  forall errs,
  for_each l validate_endpoint errs = Ok (errs ++ flat_map endpoint_errors l)%list.
Proof.
  induction l as [|e l IH]; intros Hall errs.
  - cbn. now rewrite app_nil_r.
  - cbn in Hall. apply andb_prop in Hall as [Hd Hall].
    destruct e; try discriminate.
    cbn [for_each]. rewrite validate_endpoint_dict. cbn [bind].
    rewrite (IH Hall). cbn [flat_map]. now rewrite <- app_assoc.
Qed.

Lemma validate_api_dict a :
  api_ok (VDict a) = true ->
  _validate_api (VDict a) = Ok (api_errors a).
Proof.
  unfold api_ok, entry_ok, _validate_api, api_errors.
  cbn [py_contains bind py_getitem]. unfold has_key.
  destruct (lookup "endpoints" a) as [e|]; [|reflexivity].
  intros He. destruct e; try discriminate. cbn in He.
  cbn [py_iter bind]. now rewrite (@validate_endpoints_loop _ He).
Qed.

(** On a well-shaped document [validate] returns, and its result is the one
    given in closed form. *)
Lemma validate_well_shaped d :
  well_shaped (VDict d) = true ->
  validate (VDict d) =
  Ok {| valid := Nat.eqb (List.length (all_errors d)) 0;
        errors := all_errors d;
        warnings := all_warnings d |}.
Proof.
  unfold well_shaped, entry_ok. intros H.
  apply andb_prop in H as [H Hapi]. apply andb_prop in H as [H Hauth].
  apply andb_prop in H as [Hmeta Hmodels].
  unfold validate, all_errors, all_warnings, section, on_dict.
  cbn [for_each required_sections py_contains bind py_getitem].
  rewrite !append_if_app, !missing_negb. cbn [app].
  generalize (missing "meta" d (missing_section_msg "meta")).
  generalize (missing "models" d (missing_section_msg "models")).
  intros e2 e1. unfold has_key.
  destruct (lookup "meta" d) as [[| | | | |meta]|]; try discriminate;
    [cbn [bind]; rewrite (@validate_meta_dict _ Hmeta)|];
    (destruct (lookup "models" d) as [[| | | | |models]|]; try discriminate;
     [cbn [bind]; rewrite (@validate_models_dict _ Hmodels)|]);
    (destruct (lookup "auth" d) as [[| | | | |auth]|]; try discriminate;
     [cbn [bind]; rewrite validate_auth_dict|]);
    (destruct (lookup "api" d) as [[| | | | |api]|]; try discriminate;
     [cbn [bind]; rewrite (@validate_api_dict _ Hapi)|]);
    cbn [bind app]; rewrite ?app_nil_r, <- ?app_assoc; reflexivity.
Qed.


Lemma in_flat_map_intro {A B : Type} (f : A -> list B) (l : list A) a b :
  In a l -> In b (f a) -> In b (flat_map f l).
Proof. intros; apply in_flat_map; eauto. Qed.

Lemma nonempty_not_valid (l : list string) (x : string) :
  In x l -> Nat.eqb (List.length l) 0 = false.
Proof. destruct l; [contradiction | reflexivity]. Qed.

(** An error of a model is an error of the document. *)
Lemma model_error_reported d models md msg :
  lookup "models" d = Some (VDict models) ->
  In md models ->
  In msg (model_errors md) ->
  In msg (all_errors d).
Proof.
  intros Hm Hin Hmsg. unfold all_errors, section. rewrite Hm. cbn [on_dict].
  rewrite !in_app_iff. do 3 right. left.
  eapply in_flat_map_intro; eauto.
Qed.

Lemma field_error_reported model_name m fields fd msg :
  lookup "fields" m = Some (VDict fields) ->
  In fd fields ->
  In msg (field_errors model_name fd) ->
  In msg (model_errors (model_name, VDict m)).
Proof.
  intros Hf Hin Hmsg. unfold model_errors. cbn [fst snd]. rewrite Hf.
  rewrite !in_app_iff. right. left.
  eapply in_flat_map_intro; eauto.
Qed.

End ValidateShape.

(** On every document with the shape of the data model
    (sections, model definitions, field definitions and endpoints are
    dictionaries, [meta.name] is a string, [api.endpoints] a list),
    [validate] raises nothing: it returns a record of [valid], [errors]
    and [warnings], and [valid] holds exactly when [errors] is empty. *)
Theorem validate_returns_on_well_shaped (spec : value) :
  Shape.well_shaped spec = true ->
  exists r : DSLParser.validation_result,
    DSLParser.validate spec = Ok r
    /\ (DSLParser.valid r = true <-> DSLParser.errors r = []).
Proof.
  intros H. destruct spec; try discriminate.
  rewrite (@validate_well_shaped _ H). eexists; split; [reflexivity|].
  cbn. destruct (Shape.all_errors d); cbn; split; congruence.
Qed.

Lemma validate_returns_on_well_shaped_witness :
  Shape.well_shaped Examples.scenario_B = true
  /\ exists r : DSLParser.validation_result,
       DSLParser.validate Examples.scenario_B = Ok r
       /\ (DSLParser.valid r = true <-> DSLParser.errors r = []).
Proof.
  split; [reflexivity|].
  apply (validate_returns_on_well_shaped Examples.scenario_B); reflexivity.
Defined.

(** C6: with two fields flagged [primary_key] of which the first has no
    [type], [validate] reports the missing type only: the [continue] after
    that error skips the count, so no "multiple primary keys" error is
    reported (and no warning either). *)
Theorem validate_masks_multiple_primary_keys :
  DSLParser.validate Examples.masked_primary_keys =
  Ok {| DSLParser.valid := false;
        DSLParser.errors := [DSLParser.missing_type_msg "a" "User"];
        DSLParser.warnings := [] |}
  /\ ~ In (DSLParser.multiple_primary_keys_msg "User")
          [DSLParser.missing_type_msg "a" "User"].
Proof.
  split; [reflexivity|].
  intros [H|[]]; discriminate H.
Qed.

(** ** Dictionaries *)

Lemma lookup_setitem_eq {A : Type} k (v : A) d :
  lookup k (setitem k v d) = Some v.
Proof.
  induction d as [|[k' v'] d IH]; cbn.
  - now rewrite String.eqb_refl.
  - destruct (String.eqb k k') eqn:E; cbn; rewrite E; auto.
Qed.

Lemma lookup_setitem_neq {A : Type} k k' (v : A) d :
  k <> k' -> lookup k (setitem k' v d) = lookup k d.
Proof.
  intros Hne. induction d as [|[k2 v2] d IH]; cbn.
  - apply String.eqb_neq in Hne. now rewrite Hne.
  - destruct (String.eqb k' k2) eqn:E; cbn.
    + apply String.eqb_eq in E; subst k2.
      apply String.eqb_neq in Hne. now rewrite Hne.
    + now rewrite IH.
Qed.

Lemma setitem_absent {A : Type} k (v : A) d :
  has_key k d = false -> setitem k v d = (d ++ [(k, v)])%list.
Proof.
  unfold has_key. induction d as [|[k' v'] d IH]; cbn; [reflexivity|].
  destruct (String.eqb k k'); [discriminate|].
  intros H. now rewrite IH.
Qed.

Lemma setitem_same {A : Type} k (v : A) d :
  lookup k d = Some v -> setitem k v d = d.
Proof.
  induction d as [|[k' v'] d IH]; cbn; [discriminate|].
  destruct (String.eqb k k') eqn:E.
  - intros [= ->]. reflexivity.
  - intros H. now rewrite IH.
Qed.


(** ** [DSLParser._normalize_spec] on well-shaped documents *)

Section NormalizeShape.

Import DSLParser Shape.

Lemma any_primary_key_dicts fields :
  forallb (fun kv => is_dict (snd kv)) fields = true ->
  any_primary_key (values fields) = Ok (has_primary_key fields).
Proof.
  unfold has_primary_key.
  induction fields as [|[k v] fields IH]; cbn; [reflexivity|].
  intros H. apply andb_prop in H as [Hd H].
  destruct v; try discriminate. cbn.
  destruct (lookup "primary_key" d) as [pk|]; cbn.
  - destruct (truthy pk); cbn; auto.
  - now apply IH.
Qed.

Lemma normalize_model_dict m :
  model_ok (VDict m) = true ->
  normalize_model (VDict m) = Ok (normalized_model (VDict m)).
Proof.
  unfold model_ok, entry_ok, normalize_model, normalized_model,
    normalized_fields.
  cbn [py_contains bind py_getitem]. unfold has_key at 1.
  destruct (lookup "fields" m) as [fs|] eqn:Hfs; [|reflexivity].
  intros H. destruct fs; try discriminate. cbn in H.
  cbn [bind py_values]. rewrite (@any_primary_key_dicts _ H). cbn [bind].
  destruct (has_primary_key d); cbn [negb orb].
  - now rewrite (@setitem_same _ _ _ _ Hfs).
  - cbn [py_contains bind]. destruct (has_key "id" d) eqn:Hid; cbn [negb].
    + now rewrite (@setitem_same _ _ _ _ Hfs).
    + cbn [py_setitem bind]. now rewrite (@setitem_absent _ _ _ _ Hid).
Qed.

Lemma normalize_models_dicts models :
  forallb (fun kv => model_ok (snd kv)) models = true ->
  normalize_models models = Ok (normalized_models models).
Proof.
  induction models as [|[k v] models IH]; cbn; [reflexivity|].
  intros H. apply andb_prop in H as [Hd H].
  destruct v; try discriminate.
  rewrite (@normalize_model_dict _ Hd). cbn [bind].
  rewrite (IH H). reflexivity.
Qed.

Lemma normalize_spec_well_shaped d models :
  well_shaped (VDict d) = true ->
  lookup "models" d = Some (VDict models) ->
  _normalize_spec (VDict d) =
  Ok (VDict (setitem "models" (VDict (normalized_models models)) (with_meta d))).
Proof.
  unfold well_shaped, entry_ok. intros H Hm.
  apply andb_prop in H as [H _]. apply andb_prop in H as [H _].
  apply andb_prop in H as [_ Hmodels]. rewrite Hm in Hmodels. cbn in Hmodels.
  unfold _normalize_spec, with_meta. cbn [py_copy bind py_contains].
  destruct (has_key "meta" d) eqn:Hmeta; cbn [negb bind py_setitem py_contains py_get].
  - rewrite Hm. cbn [py_items bind]. rewrite (@normalize_models_dicts _ Hmodels).
    cbn [bind]. unfold has_key. rewrite Hm. reflexivity.
  - rewrite (@lookup_setitem_neq _ "models" "meta") by discriminate.
    rewrite Hm. cbn [py_items bind]. rewrite (@normalize_models_dicts _ Hmodels).
    cbn [bind]. unfold has_key.
    rewrite (@lookup_setitem_neq _ "models" "meta") by discriminate.
    rewrite Hm. reflexivity.
Qed.

End NormalizeShape.




(** ** Strings *)

Lemma append_nil_r (s : string) : s ++ "" = s.
Proof. induction s; cbn; congruence. Qed.

Lemma append_assoc (a b c : string) : (a ++ b) ++ c = a ++ b ++ c.
Proof. induction a; cbn; congruence. Qed.

(** ** Patterns: the matcher finds exactly what the pattern matches *)

Lemma matches_void s : ~ matches Void s.
Proof. intros H; inversion H. Qed.

Lemma matches_eps s : matches Eps s -> s = "".
Proof. intros H; now inversion H. Qed.

Lemma nullable_spec r : nullable r = true <-> matches r "".
Proof.
  split.
  - induction r; cbn; intros H; try discriminate.
    + constructor.
    + apply andb_prop in H as [H1 H2].
      change "" with ("" ++ ""). constructor; auto.
    + apply orb_prop in H as [H|H]; [apply MAltL | apply MAltR]; auto.
    + constructor.
  - remember "" as s eqn:Es. intros H.
    induction H; cbn; auto; try discriminate.
    + destruct s1; [|discriminate]. cbn in Es. subst s2.
      rewrite IHmatches1, IHmatches2; auto.
    + rewrite IHmatches; auto.
    + rewrite IHmatches; auto using orb_true_r.
Qed.

Lemma is_void_true r : is_void r = true -> r = Void.
Proof. destruct r; cbn; congruence. Qed.

Lemma is_eps_true r : is_eps r = true -> r = Eps.
Proof. destruct r; cbn; congruence. Qed.

Lemma cat_spec r1 r2 s : matches (cat r1 r2) s <-> matches (Cat r1 r2) s.
Proof.
  unfold cat.
  destruct (is_void r1) eqn:V1; [apply is_void_true in V1; subst|].
  { cbn. split; intros H; inversion H; subst.
    exfalso; eapply matches_void; eauto. }
  destruct (is_void r2) eqn:V2; [apply is_void_true in V2; subst|].
  { cbn. split; intros H; inversion H; subst.
    exfalso; eapply matches_void; eauto. }
  cbn. destruct (is_eps r1) eqn:E1; [apply is_eps_true in E1; subst|reflexivity].
  split; intros H.
  - change s with ("" ++ s). constructor; [constructor | assumption].
  - inversion H; subst.
    match goal with He : matches Eps _ |- _ => apply matches_eps in He; subst end.
    assumption.
Qed.

Lemma alt_spec r1 r2 s : matches (alt r1 r2) s <-> matches (Alt r1 r2) s.
Proof.
  unfold alt.
  destruct (is_void r1) eqn:V1; [apply is_void_true in V1; subst|].
  { split; intros H; [now apply MAltR|].
    inversion H; subst; [exfalso; eapply matches_void; eauto | assumption]. }
  destruct (is_void r2) eqn:V2; [apply is_void_true in V2; subst|reflexivity].
  split; intros H; [now apply MAltL|].
  inversion H; subst; [assumption | exfalso; eapply matches_void; eauto].
Qed.

Lemma deriv_sound c r : forall s, matches (deriv c r) s -> matches r (String c s).
Proof.
  induction r; cbn; intros s H.
  - inversion H.
  - inversion H.
  - destruct (p c) eqn:E; [|inversion H].
    apply matches_eps in H; subst. now constructor.
  - destruct (nullable r1) eqn:N.
    + apply alt_spec in H. inversion H; subst.
      * match goal with Hc : matches (cat _ _) _ |- _ =>
          apply cat_spec in Hc; inversion Hc; subst end.
        change (String c (s1 ++ s2)) with (String c s1 ++ s2).
        constructor; auto.
      * change (String c s) with ("" ++ String c s).
        constructor; [now apply nullable_spec | auto].
    + apply cat_spec in H. inversion H; subst.
      change (String c (s1 ++ s2)) with (String c s1 ++ s2).
      constructor; auto.
  - apply alt_spec in H. inversion H; subst; [apply MAltL | apply MAltR]; auto.
  - apply cat_spec in H. inversion H; subst.
    change (String c (s1 ++ s2)) with (String c s1 ++ s2).
    constructor; auto.
Qed.

Lemma deriv_complete r s0 :
  matches r s0 -> forall c s, s0 = String c s -> matches (deriv c r) s.
Proof.
  induction 1; intros c' s' E; cbn.
  - discriminate.
  - injection E as -> <-. rewrite H. constructor.
  - destruct s1 as [|c1 s1].
    + cbn in E. subst s2.
      assert (N : nullable r1 = true) by now apply nullable_spec.
      rewrite N. apply alt_spec, MAltR. now apply IHmatches2.
    + cbn in E. injection E as -> <-.
      assert (Hc : matches (cat (deriv c' r1) r2) (s1 ++ s2)).
      { apply cat_spec. constructor; auto. }
      destruct (nullable r1); [apply alt_spec, MAltL|]; assumption.
  - apply alt_spec, MAltL; auto.
  - apply alt_spec, MAltR; auto.
  - discriminate.
  - destruct s1 as [|c1 s1].
    + cbn in E. now apply IHmatches2.
    + cbn in E. injection E as -> <-.
      apply cat_spec. constructor; auto.
Qed.

Lemma deriv_spec c r s : matches (deriv c r) s <-> matches r (String c s).
Proof.
  split; [apply deriv_sound | intros H; eapply deriv_complete; eauto].
Qed.

Lemma fullmatch_spec s : forall r, fullmatch r s = true <-> matches r s.
Proof.
  induction s as [|c s IH]; intros r; cbn.
  - apply nullable_spec.
  - rewrite IH. apply deriv_spec.
Qed.



(** ** [BaseGenerator.perform_security_checks] *)

Section SecurityGate.

Import BaseGenerator Shape.





End SecurityGate.




(** ** [DjangoGenerator]: the models and the serializers *)

Section DjangoModels.

Import DjangoGenerator DjangoText Shape.

Lemma concat_map_app {A : Type} (f : A -> string) (l1 l2 : list A) :
  concat_map f (l1 ++ l2) = concat_map f l1 ++ concat_map f l2.
Proof.
  induction l1 as [|a l1 IH]; cbn; [reflexivity|].
  now rewrite IH, append_assoc.
Qed.

Lemma field_declaration_dict field_name f :
  exists decl, field_declaration field_name (VDict f) = Ok decl.
Proof.
  unfold field_declaration. cbn [py_get].
  destruct (lookup "type" f) as [ty|]; cbn [bind];
    destruct (lookup "required" f) as [rq|]; cbn [bind];
    repeat match goal with
           | |- context [if ?b then _ else _] => destruct b
           end;
    cbn [py_get bind];
    try (destruct (lookup "max_length" f); cbn [bind]);
    eexists; reflexivity.
Qed.

Lemma declaration_of_dict field_name f :
  field_declaration field_name (VDict f) = Ok (declaration_of (field_name, VDict f)).
Proof.
  unfold declaration_of. cbn [fst snd].
  destruct (field_declaration_dict field_name f) as [decl ->]. reflexivity.
Qed.

Lemma field_columns_loop fields :
  forallb (fun kv => is_dict (snd kv)) fields = true ->
  forall code,
  for_each fields
    (fun fd code => decl <- field_declaration (fst fd) (snd fd) ;; Ok (code ++ decl))
    code
  = Ok (code ++ concat_map declaration_of fields).
Proof.
  induction fields as [|[fname fdef] fields IH]; intros Hall code.
  - cbn. now rewrite append_nil_r.
  - cbn in Hall. apply andb_prop in Hall as [Hd Hall].
    destruct fdef; try discriminate.
    cbn [for_each fst snd]. rewrite declaration_of_dict. cbn [bind].
    rewrite (IH Hall). cbn [concat_map]. now rewrite append_assoc.
Qed.

Lemma bind_ok {A B : Type} (a : A) (k : A -> result B) : bind (Ok a) k = k a.
Proof. reflexivity. Qed.

Lemma model_class_dict model_name m code :
  model_ok (VDict m) = true ->
  model_class (model_name, VDict m) code
  = Ok (code ++ model_text (model_name, VDict m)).
Proof.
  unfold model_ok, entry_ok. intros Hok.
  unfold model_class, model_text, class_head, class_tail, id_column, fields_of.
  cbn [py_get fst snd].
  destruct (lookup "description" m) as [desc|]; rewrite bind_ok;
    (destruct (lookup "fields" m) as [fs|];
     [ destruct fs as [| | | | |fields]; try discriminate; cbn in Hok;
       rewrite bind_ok; cbn [py_items]; rewrite bind_ok;
       rewrite (@field_columns_loop _ Hok), bind_ok
     | rewrite bind_ok; cbn [py_items]; rewrite bind_ok;
       cbn [for_each concat_map keys map]; rewrite bind_ok ]);
    cbn [py_str]; rewrite !append_assoc; reflexivity.
Qed.

Lemma model_classes_loop models :
  forallb (fun kv => model_ok (snd kv)) models = true ->
  forall code,
  for_each models model_class code = Ok (code ++ concat_map model_text models).
Proof.
  induction models as [|[mn mdef] models IH]; intros Hall code.
  - cbn. now rewrite append_nil_r.
  - cbn in Hall. apply andb_prop in Hall as [Hd Hall].
    destruct mdef; try discriminate.
    cbn [for_each]. rewrite (@model_class_dict _ _ _ Hd). cbn [bind].
    rewrite (IH Hall). cbn [concat_map]. now rewrite append_assoc.
Qed.

Lemma meta_get_name d :
  well_shaped (VDict d) = true ->
  meta_get (VDict d) "name" (VStr "project") = Ok (project_name_of d).
Proof.
  unfold well_shaped, entry_ok, meta_get, project_name_of. intros H.
  apply andb_prop in H as [H _]. apply andb_prop in H as [H _].
  apply andb_prop in H as [Hmeta _].
  cbn [py_get]. destruct (lookup "meta" d) as [meta|]; cbn [bind].
  - destruct meta; try discriminate. cbn [py_get].
    destruct (lookup "name" d0); reflexivity.
  - reflexivity.
Qed.

Lemma models_ok_of_shape d models :
  well_shaped (VDict d) = true ->
  lookup "models" d = Some (VDict models) ->
  forallb (fun kv => model_ok (snd kv)) models = true.
Proof.
  unfold well_shaped, entry_ok. intros H Hm.
  apply andb_prop in H as [H _]. apply andb_prop in H as [H _].
  apply andb_prop in H as [_ Hmodels]. now rewrite Hm in Hmodels.
Qed.

Lemma generate_models_well_shaped d models :
  well_shaped (VDict d) = true ->
  lookup "models" d = Some (VDict models) ->
  _generate_models_complete (VDict d)
  = Ok (models_header (project_name_of d) ++ concat_map model_text models).
Proof.
  intros Hshape Hm. unfold _generate_models_complete.
  rewrite (meta_get_name _ Hshape). cbn [bind py_get]. rewrite Hm.
  cbn [bind py_items].
  apply model_classes_loop. eapply models_ok_of_shape; eauto.
Qed.

Lemma serializer_class_dict model_name m code :
  model_ok (VDict m) = true ->
  serializer_class (model_name, VDict m) code
  = Ok (code ++ serializer_text (model_name, VDict m)).
Proof.
  unfold model_ok, entry_ok. intros Hok.
  unfold serializer_class, serializer_text, serializer_for, serializer_fields,
    fields_of.
  cbn [py_get bind fst snd].
  destruct (lookup "fields" m) as [fs|].
  - destruct fs as [| | | | |fields]; try discriminate. reflexivity.
  - reflexivity.
Qed.

Lemma serializer_classes_loop models :
  forallb (fun kv => model_ok (snd kv)) models = true ->
  forall code,
  for_each models serializer_class code
  = Ok (code ++ concat_map serializer_text models).
Proof.
  induction models as [|[mn mdef] models IH]; intros Hall code.
  - cbn. now rewrite append_nil_r.
  - cbn in Hall. apply andb_prop in Hall as [Hd Hall].
    destruct mdef; try discriminate.
    cbn [for_each]. rewrite (@serializer_class_dict _ _ _ Hd). cbn [bind].
    rewrite (IH Hall). cbn [concat_map]. now rewrite append_assoc.
Qed.

Lemma generate_serializers_well_shaped d models :
  well_shaped (VDict d) = true ->
  lookup "models" d = Some (VDict models) ->
  _generate_serializers_complete (VDict d)
  = Ok (serializers_header (project_name_of d)
          ++ concat_map serializer_text models).
Proof.
  intros Hshape Hm. unfold _generate_serializers_complete.
  rewrite (meta_get_name _ Hshape). cbn [bind py_get]. rewrite Hm.
  cbn [bind py_items].
  apply serializer_classes_loop. eapply models_ok_of_shape; eauto.
Qed.

(** *** The primary-key flags are never read *)

Lemma for_each_map {A B S : Type} (h : A -> B) (l : list A)
  (body : B -> S -> result S) (s : S) :
  for_each (map h l) body s = for_each l (fun a => body (h a)) s.
Proof.
  revert s; induction l as [|a l IH]; intros s; cbn; [reflexivity|].
  destruct (body (h a) s); cbn; auto.
Qed.

Lemma for_each_ext {A S : Type} (l : list A) (body1 body2 : A -> S -> result S) :
  (forall a s, body1 a s = body2 a s) ->
  forall s, for_each l body1 s = for_each l body2 s.
Proof.
  intros Hext. induction l as [|a l IH]; intros s; cbn; [reflexivity|].
  rewrite Hext. destruct (body2 a s); cbn; auto.
Qed.

Lemma lookup_map_entry k k' (g : value -> value) (d : list (string * value)) :
  lookup k (map (fun kv => if String.eqb k' (fst kv) then (fst kv, g (snd kv))
                           else kv) d)
  = if String.eqb k' k then option_map g (lookup k d) else lookup k d.
Proof.
  induction d as [|[k2 v2] d IH]; cbn [map lookup fst snd].
  - now destruct (String.eqb k' k).
  - destruct (String.eqb k' k2) eqn:E2; cbn [lookup];
      destruct (String.eqb k k2) eqn:E.
    + apply String.eqb_eq in E, E2. subst. now rewrite String.eqb_refl.
    + exact IH.
    + apply String.eqb_eq in E. subst k2. now rewrite E2.
    + exact IH.
Qed.

Lemma keys_map_values {A B : Type} (g : A -> B) (d : list (string * A)) :
  keys (map (fun kv => (fst kv, g (snd kv))) d) = keys d.
Proof. unfold keys. rewrite map_map. reflexivity. Qed.

Lemma field_declaration_ignores_primary_key g field_name field_config :
  changes_only_primary_key g ->
  field_declaration field_name (g field_config)
  = field_declaration field_name field_config.
Proof.
  intros Hg. specialize (Hg field_config).
  destruct field_config; try (now rewrite Hg).
  destruct Hg as (f' & -> & Hsame).
  unfold field_declaration. cbn [py_get].
  rewrite !Hsame by discriminate. reflexivity.
Qed.

Lemma model_class_ignores_primary_key g model_name model_config code :
  changes_only_primary_key g ->
  model_class (model_name, map_entry "fields" (map_values g) model_config) code
  = model_class (model_name, model_config) code.
Proof.
  intros Hg. destruct model_config as [| | | | |m]; try reflexivity.
  unfold model_class, map_entry. cbn [py_get].
  rewrite !lookup_map_entry. cbn [String.eqb Ascii.eqb Bool.eqb].
  destruct (lookup "description" m) as [desc|]; rewrite !bind_ok;
    (destruct (lookup "fields" m) as [fs|]; cbn [option_map]; [|reflexivity];
     destruct fs as [| | | | |fields]; try reflexivity;
     cbn [map_values]; rewrite !bind_ok; cbn [py_items]; rewrite !bind_ok;
     rewrite for_each_map, keys_map_values;
     erewrite for_each_ext;
     [ reflexivity
     | intros [fname fdef] c; cbn [fst snd];
       now rewrite (field_declaration_ignores_primary_key _ _ Hg) ]).
Qed.

Lemma generate_models_ignores_primary_key g dsl_spec :
  changes_only_primary_key g ->
  _generate_models_complete (map_field_defs g dsl_spec)
  = _generate_models_complete dsl_spec.
Proof.
  intros Hg. destruct dsl_spec as [| | | | |d]; try reflexivity.
  unfold _generate_models_complete, meta_get, map_field_defs, map_entry.
  cbn [py_get]. rewrite !lookup_map_entry. cbn [String.eqb Ascii.eqb Bool.eqb].
  destruct (lookup "meta" d) as [meta|]; cbn [bind];
    (destruct (py_get _ "name" (VStr "project")) as [name|]; cbn [bind];
     [|reflexivity];
     destruct (lookup "models" d) as [models|]; cbn [option_map bind];
     [|reflexivity];
     destruct models as [| | | | |models]; try reflexivity;
     cbn [map_values py_items bind];
     rewrite for_each_map;
     apply for_each_ext; intros [mn cfg] c; cbn [fst snd];
     now apply model_class_ignores_primary_key).
Qed.

End DjangoModels.

(** ** [DjangoGenerator.generate]: the checks, the state, the manifest *)

Section GeneratorState.

Import Shape.

Import BaseGenerator.

Lemma stable_gret {A : Type} (a : A) : stable (gret a).
Proof. intros st1 st2 H; now split. Qed.

Lemma stable_graise {A : Type} (e : exn) : stable (@graise A e).
Proof. intros st1 st2 H; now split. Qed.

Lemma stable_lift {A : Type} (r : result A) : stable (lift r).
Proof. intros st1 st2 H; now split. Qed.

Lemma stable_gbind {A B : Type} (m : gen A) (k : A -> gen B) :
  stable m -> (forall a, stable (k a)) -> stable (gbind m k).
Proof.
  intros Hm Hk st1 st2 H. unfold gbind.
  destruct (Hm st1 st2 H) as [Hr Hs].
  destruct (m st1) as [r1 s1], (m st2) as [r2 s2]. cbn in Hr, Hs. subst r2.
  destruct r1; [now apply Hk | now split].
Qed.

Lemma oblivious_gbind {A B : Type} (m : gen A) (k : A -> gen B) :
  oblivious m -> (forall a, stable (k a)) -> oblivious (gbind m k).
Proof.
  intros Hm Hk st1 st2. unfold gbind.
  destruct (Hm st1 st2) as [Hr Hs].
  destruct (m st1) as [r1 s1], (m st2) as [r2 s2]. cbn in Hr, Hs. subst r2.
  destruct r1; [now apply Hk | now split].
Qed.

Lemma stable_add_error msg : stable (add_error msg).
Proof.
  intros st1 st2 H. split; [reflexivity|].
  unfold same_errors in *. cbn. now rewrite H.
Qed.

Lemma stable_get_validation_errors : stable get_validation_errors.
Proof. intros st1 st2 H. split; [cbn; now f_equal | assumption]. Qed.

Lemma stable_set_security_checks_passed b : stable (set_security_checks_passed b).
Proof. intros st1 st2 H. now split. Qed.

Lemma oblivious_set_validation_errors errs : oblivious (set_validation_errors errs).
Proof. intros st1 st2. now split. Qed.

Lemma stable_gwhen c m : stable m -> stable (gwhen c m).
Proof. intros Hm. destruct c; [assumption | apply stable_gret]. Qed.

Lemma stable_gfor_each {A : Type} (l : list A) (body : A -> gen unit) :
  (forall a, stable (body a)) -> stable (gfor_each l body).
Proof.
  intros Hb. induction l as [|a l IH]; cbn; [apply stable_gret|].
  apply stable_gbind; auto.
Qed.

Create HintDb stable.

Hint Resolve stable_gret stable_graise stable_lift stable_add_error
  stable_get_validation_errors stable_set_security_checks_passed
  stable_gwhen stable_gfor_each : stable.

Ltac stable_step :=
  match goal with
  | |- stable (gbind _ _) => apply stable_gbind; [|intros ?]
  | |- stable (if ?c then _ else _) => destruct c
  | |- stable (let '(_, _) := ?p in _) => destruct p
  | |- stable (gfor_each _ _) => apply stable_gfor_each; intros ?
  | |- stable (gwhen _ _) => apply stable_gwhen
  | |- stable _ => solve [auto with stable]
  end.

Lemma oblivious_validate_dsl dsl_spec : oblivious (validate_dsl dsl_spec).
Proof.
  unfold validate_dsl.
  apply oblivious_gbind; [apply oblivious_set_validation_errors|].
  intros _. repeat stable_step.
Qed.

Lemma stable_perform_security_checks dsl_spec :
  stable (perform_security_checks dsl_spec).
Proof. unfold perform_security_checks. repeat stable_step. Qed.

Lemma oblivious_check_spec dsl_spec : oblivious (DjangoGenerator.check_spec dsl_spec).
Proof.
  unfold DjangoGenerator.check_spec.
  apply oblivious_gbind; [apply oblivious_validate_dsl|].
  intros ok. pose proof (stable_perform_security_checks dsl_spec).
  repeat stable_step.
Qed.

Lemma oblivious_generate dsl_spec : oblivious (DjangoGenerator.generate dsl_spec).
Proof.
  unfold DjangoGenerator.generate.
  apply oblivious_gbind; [apply oblivious_check_spec|].
  intros _. apply stable_lift.
Qed.

End GeneratorState.

(** C8: the file map that [generate] returns (or the error it raises) for
    a specification does not depend on the state of the generator object,
    the one thing a call can inherit from earlier calls: two calls with
    the same specification, whether from two states or one after the
    other on the same object, return the same file map.  The method reads
    no clock and no random source, so the embedding has no such input. *)
Theorem generate_is_deterministic (dsl_spec : value)
  (st st' : BaseGenerator.gen_state) :
  fst (DjangoGenerator.generate dsl_spec st)
  = fst (DjangoGenerator.generate dsl_spec st')
  /\ (let first := DjangoGenerator.generate dsl_spec st in
      fst (DjangoGenerator.generate dsl_spec (snd first)) = fst first).
Proof.
  split; apply oblivious_generate.
Qed.

Section DjangoChecks.

Import BaseGenerator DjangoGenerator.

(** When [validate_dsl] fails, [generate] and [preview] raise the error
    that lists the validation errors; no file map is returned. *)
Lemma django_refuses_invalid dsl_spec st :
  fst (validate_dsl dsl_spec st) = Ok false ->
  let msg := "Invalid DSL specification: "
               ++ join ", " (validation_errors (snd (validate_dsl dsl_spec st))) in
  fst (generate dsl_spec st) = Raise (ValueError msg)
  /\ fst (preview dsl_spec st) = Raise (ValueError msg).
Proof.
  intros H. unfold generate, preview, check_spec, gbind.
  destruct (validate_dsl dsl_spec st) as [r st1]. cbn in H. subst r.
  cbn. split; reflexivity.
Qed.

(** When the security gate fails, they raise the security error. *)
Lemma django_refuses_unsafe dsl_spec st :
  fst (validate_dsl dsl_spec st) = Ok true ->
  fst (perform_security_checks dsl_spec (snd (validate_dsl dsl_spec st))) = Ok false ->
  fst (generate dsl_spec st)
  = Raise (ValueError "DSL specification failed security checks")
  /\ fst (preview dsl_spec st)
     = Raise (ValueError "DSL specification failed security checks").
Proof.
  intros H1 H2. unfold generate, preview, check_spec, gbind.
  destruct (validate_dsl dsl_spec st) as [r st1]. cbn in H1, H2. subst r.
  cbn [negb].
  destruct (perform_security_checks dsl_spec st1) as [r2 st2]. cbn in H2. subst r2.
  cbn. split; reflexivity.
Qed.

(** A file map is returned only after both checks have passed. *)
Lemma django_generates_after_checks dsl_spec st files :
  fst (generate dsl_spec st) = Ok files ->
  fst (validate_dsl dsl_spec st) = Ok true
  /\ fst (perform_security_checks dsl_spec (snd (validate_dsl dsl_spec st))) = Ok true
  /\ generate_files dsl_spec = Ok files.
Proof.
  unfold generate, check_spec, gbind, lift, graise, gret, get_validation_errors.
  destruct (validate_dsl dsl_spec st) as [[ok|e] st1]; cbn [fst snd];
    [|discriminate].
  destruct ok; cbn [negb]; [|discriminate].
  destruct (perform_security_checks dsl_spec st1) as [[ok|e] st2]; cbn [fst snd];
    [|discriminate].
  destruct ok; cbn [negb fst]; [|discriminate].
  intros H. auto.
Qed.

End DjangoChecks.

Arguments BaseGenerator.compute_hash : simpl never.
Arguments json_dumps_indent : simpl never.

Section DjangoManifest.

Import BaseGenerator DjangoGenerator.

(** What [generate_files] returns: the twenty-two generated files in the
    order of the source, then the manifest of their hashes. *)
Lemma generate_files_manifest dsl_spec files :
  generate_files dsl_spec = Ok files ->
  exists others,
    files = (others
             ++ [("integrity.json",
                  json_dumps_indent 2
                    (VDict (map (fun fc => (fst fc, VStr (compute_hash (snd fc))))
                                others)))])%list
    /\ keys others
       = ["manage.py"; "app/models.py"; "app/views.py"; "app/urls.py";
          "app/serializers.py"; "app/admin.py"; "app/tests.py";
          "app/__init__.py"; "app/apps.py"; "project/settings.py";
          "project/urls.py"; "project/wsgi.py"; "project/asgi.py";
          "project/__init__.py"; "requirements.txt"; "Dockerfile";
          "docker-compose.yml"; ".env.example"; ".gitignore"; "README.md";
          "pytest.ini"; ".dockerignore"].
Proof.
  unfold generate_files. intros H.
  repeat match type of H with
         | bind ?m _ = _ =>
             let c := fresh "c" in
             destruct m as [c|]; [rewrite bind_ok in H | discriminate H]
         end.
  injection H as <-.
  unfold integrity_manifest.
  cbn [setitem filter fold_left String.eqb Ascii.eqb Bool.eqb negb fst snd].
  eexists. split.
  - match goal with
    | |- ?l = _ => exact (eq_refl : l = (removelast l ++ [last l (EmptyString, EmptyString)])%list)
    end.
  - reflexivity.
Qed.

End DjangoManifest.

(** ** Documents in the store: [Heap._normalize_spec] on loaded documents *)

Section StoreModel.

Import Heap.

(** Induction on documents. *)
Lemma value_induction (P : value -> Prop) :
  P VNone -> (forall b, P (VBool b)) -> (forall z, P (VInt z)) ->
  (forall s, P (VStr s)) ->
  (forall l, Forall P l -> P (VList l)) ->
  (forall d, Forall (fun kv => P (snd kv)) d -> P (VDict d)) ->
  forall v, P v.
Proof.
  intros Hn Hb Hi Hs Hl Hd.
  refine (fix IH (v : value) : P v :=
            match v with
            | VNone => Hn
            | VBool b => Hb b
            | VInt z => Hi z
            | VStr s => Hs s
            | VList l =>
                Hl l ((fix go (l : list value) : Forall P l :=
                         match l with
                         | [] => Forall_nil _
                         | x :: l' => Forall_cons _ (IH x) (go l')
                         end) l)
            | VDict d =>
                Hd d ((fix go (d : list (string * value))
                         : Forall (fun kv => P (snd kv)) d :=
                         match d with
                         | [] => Forall_nil _
                         | kv :: d' => Forall_cons _ (IH (snd kv)) (go d')
                         end) d)
            end).
Qed.

Lemma load_VList l h :
  load (VList l) h
  = let '(rs, h1) := load_list l h in
    (RObj (List.length h1), (h1 ++ [OList rs])%list).
Proof. reflexivity. Qed.

Lemma load_VDict d h :
  load (VDict d) h
  = let '(rs, h1) := load_dict d h in
    (RObj (List.length h1), (h1 ++ [ODict rs])%list).
Proof. reflexivity. Qed.

(** The ranges of a tree are well formed. *)
Lemma tree_bounds h :
  (forall lo hi r v, tree h lo hi r v -> lo <= hi)
  /\ (forall lo hi rs vs, trees h lo hi rs vs -> lo <= hi)
  /\ (forall lo hi rd vd, entries h lo hi rd vd -> lo <= hi).
Proof. apply tree_mutind; intros; lia. Qed.

(** A tree only depends on the objects of its range. *)
Lemma tree_frame h :
  (forall lo hi r v, tree h lo hi r v ->
     forall h', (forall l, lo <= l < hi -> deref h' l = deref h l) ->
     tree h' lo hi r v)
  /\ (forall lo hi rs vs, trees h lo hi rs vs ->
     forall h', (forall l, lo <= l < hi -> deref h' l = deref h l) ->
     trees h' lo hi rs vs)
  /\ (forall lo hi rd vd, entries h lo hi rd vd ->
     forall h', (forall l, lo <= l < hi -> deref h' l = deref h l) ->
     entries h' lo hi rd vd).
Proof.
  apply tree_mutind; intros; try (now constructor).
  - pose proof (proj1 (proj2 (tree_bounds h)) _ _ _ _ H).
    apply tree_list with (rs := rs).
    + apply H0; intros; apply H2; lia.
    + rewrite H2; [assumption|lia].
  - pose proof (proj2 (proj2 (tree_bounds h)) _ _ _ _ H).
    apply tree_dict with (rd := rd).
    + apply H0; intros; apply H2; lia.
    + rewrite H2; [assumption|lia].
  - pose proof (proj1 (tree_bounds h) _ _ _ _ H).
    pose proof (proj1 (proj2 (tree_bounds h)) _ _ _ _ H1).
    econstructor; [apply H0 | apply H2]; intros; apply H3; lia.
  - pose proof (proj1 (tree_bounds h) _ _ _ _ H).
    pose proof (proj2 (proj2 (tree_bounds h)) _ _ _ _ H1).
    econstructor; [apply H0 | apply H2]; intros; apply H3; lia.
Qed.

Lemma deref_app_old (h ext : heap) l :
  l < List.length h -> deref (h ++ ext)%list l = deref h l.
Proof. intros H. unfold deref. now rewrite nth_error_app1. Qed.

Lemma deref_app_new (h : heap) o :
  deref (h ++ [o])%list (List.length h) = Some o.
Proof. unfold deref. rewrite nth_error_app2, Nat.sub_diag by lia. reflexivity. Qed.

(** [load] builds a tree on top of the store it is given. *)
Lemma load_tree v :
  forall h0, exists ext,
    snd (load v h0) = (h0 ++ ext)%list
    /\ tree (snd (load v h0)) (List.length h0) (List.length (snd (load v h0)))
            (fst (load v h0)) v.
Proof.
  induction v using value_induction; intros h0;
    try (exists []; cbn; rewrite app_nil_r; split; [reflexivity | constructor]).
  - (* lists *)
    assert (Hl : forall h0, exists ext,
               snd (load_list l h0) = (h0 ++ ext)%list
               /\ trees (snd (load_list l h0)) (List.length h0)
                        (List.length (snd (load_list l h0)))
                        (fst (load_list l h0)) l).
    { clear h0. induction H as [|x l Hx Hrest IH]; intros h0.
      - exists []. cbn. rewrite app_nil_r. split; [reflexivity | constructor].
      - cbn [load_list]. destruct (Hx h0) as (e1 & E1 & T1).
        destruct (load x h0) as [r h1]. cbn [fst snd] in *.
        destruct (IH h1) as (e2 & E2 & T2).
        destruct (load_list l h1) as [rs h2]. cbn [fst snd] in *.
        subst h1. exists (e1 ++ e2)%list. split; [now rewrite app_assoc|].
        econstructor; [|exact T2].
        eapply (proj1 (tree_frame _)); [exact T1|].
        intros l0 Hl0. rewrite E2. now apply deref_app_old. }
    rewrite load_VList. destruct (Hl h0) as (e & E & T).
    destruct (load_list l h0) as [rs h1]. cbn [fst snd] in *.
    exists (e ++ [OList rs])%list. split; [rewrite E; now rewrite app_assoc|].
    rewrite length_app. cbn [List.length]. rewrite Nat.add_1_r.
    apply tree_list with (rs := rs).
    + eapply (proj1 (proj2 (tree_frame _))); [exact T|].
      intros l0 Hl0. apply deref_app_old. lia.
    + apply deref_app_new.
  - (* dictionaries *)
    assert (Hd : forall h0, exists ext,
               snd (load_dict d h0) = (h0 ++ ext)%list
               /\ entries (snd (load_dict d h0)) (List.length h0)
                          (List.length (snd (load_dict d h0)))
                          (fst (load_dict d h0)) d).
    { clear h0. induction H as [|[k x] d Hx Hrest IH]; intros h0.
      - exists []. cbn. rewrite app_nil_r. split; [reflexivity | constructor].
      - cbn [load_dict]. cbn [snd] in Hx. destruct (Hx h0) as (e1 & E1 & T1).
        destruct (load x h0) as [r h1]. cbn [fst snd] in *.
        destruct (IH h1) as (e2 & E2 & T2).
        destruct (load_dict d h1) as [rs h2]. cbn [fst snd] in *.
        subst h1. exists (e1 ++ e2)%list. split; [now rewrite app_assoc|].
        econstructor; [|exact T2].
        eapply (proj1 (tree_frame _)); [exact T1|].
        intros l0 Hl0. rewrite E2. now apply deref_app_old. }
    rewrite load_VDict. destruct (Hd h0) as (e & E & T).
    destruct (load_dict d h0) as [rs h1]. cbn [fst snd] in *.
    exists (e ++ [ODict rs])%list. split; [rewrite E; now rewrite app_assoc|].
    rewrite length_app. cbn [List.length]. rewrite Nat.add_1_r.
    apply tree_dict with (rd := rs).
    + eapply (proj2 (proj2 (tree_frame _))); [exact T|].
      intros l0 Hl0. apply deref_app_old. lia.
    + apply deref_app_new.
Qed.

Lemma tree_stands_for h :
  (forall lo hi r v, tree h lo hi r v ->
     forall P : loc -> Prop, (forall l, lo <= l < hi -> P l) -> stands_for P h r v)
  /\ (forall lo hi rs vs, trees h lo hi rs vs ->
     forall P : loc -> Prop, (forall l, lo <= l < hi -> P l) -> stand_for P h rs vs)
  /\ (forall lo hi rd vd, entries h lo hi rd vd ->
     forall P : loc -> Prop, (forall l, lo <= l < hi -> P l) -> entries_for P h rd vd).
Proof.
  apply tree_mutind; intros; try (now constructor).
  - pose proof (proj1 (proj2 (tree_bounds h)) _ _ _ _ H).
    apply sf_list with (rs := rs); [apply H2; lia | assumption |].
    apply H0; intros; apply H2; lia.
  - pose proof (proj2 (proj2 (tree_bounds h)) _ _ _ _ H).
    apply sf_dict with (rd := rd); [apply H2; lia | assumption |].
    apply H0; intros; apply H2; lia.
  - pose proof (proj1 (tree_bounds h) _ _ _ _ H).
    pose proof (proj1 (proj2 (tree_bounds h)) _ _ _ _ H1).
    constructor; [apply H0 | apply H2]; intros; apply H3; lia.
  - pose proof (proj1 (tree_bounds h) _ _ _ _ H).
    pose proof (proj2 (proj2 (tree_bounds h)) _ _ _ _ H1).
    constructor; [apply H0 | apply H2]; intros; apply H3; lia.
Qed.

Lemma stands_for_frame (P : loc -> Prop) h :
  (forall r v, stands_for P h r v ->
     forall (Q : loc -> Prop) h',
       (forall l o, P l -> deref h l = Some o -> Q l /\ deref h' l = Some o) ->
       stands_for Q h' r v)
  /\ (forall rs vs, stand_for P h rs vs ->
     forall (Q : loc -> Prop) h',
       (forall l o, P l -> deref h l = Some o -> Q l /\ deref h' l = Some o) ->
       stand_for Q h' rs vs)
  /\ (forall rd vd, entries_for P h rd vd ->
     forall (Q : loc -> Prop) h',
       (forall l o, P l -> deref h l = Some o -> Q l /\ deref h' l = Some o) ->
       entries_for Q h' rd vd).
Proof.
  apply stands_for_mutind; intros; try (now constructor).
  - destruct (H3 _ _ H H0) as [HQ Hd].
    apply sf_list with (rs := rs); [assumption | assumption | now apply H2].
  - destruct (H3 _ _ H H0) as [HQ Hd].
    apply sf_dict with (rd := rd); [assumption | assumption | now apply H2].
  - constructor; [now apply H0 | now apply H2].
  - constructor; [now apply H0 | now apply H2].
Qed.

Lemma entries_for_app (P : loc -> Prop) h rd1 vd1 rd2 vd2 :
  entries_for P h rd1 vd1 -> entries_for P h rd2 vd2 ->
  entries_for P h (rd1 ++ rd2) (vd1 ++ vd2).
Proof.
  induction 1; cbn; intros H2; [assumption|].
  constructor; auto.
Qed.

Lemma entries_keys h lo hi rd vd :
  entries h lo hi rd vd -> keys rd = keys vd.
Proof.
  induction 1; cbn; [reflexivity|]. unfold keys in *. cbn. congruence.
Qed.

Lemma has_key_keys {A B : Type} k (d1 : list (string * A)) (d2 : list (string * B)) :
  keys d1 = keys d2 -> has_key k d1 = has_key k d2.
Proof.
  unfold has_key, keys. revert d2.
  induction d1 as [|[k1 v1] d1 IH]; intros [|[k2 v2] d2] E; try discriminate;
    cbn in *; [reflexivity|].
  injection E as <- E. destruct (String.eqb k k1); [reflexivity | now apply IH].
Qed.

(** The truth value of a reference is that of the document it stands
    for. *)
Lemma tree_truthy h lo hi r v :
  tree h lo hi r v -> h_truthy h r = truthy v.
Proof.
  intros H. destruct H; cbn; try reflexivity.
  - rewrite H0. destruct H; reflexivity.
  - rewrite H0. destruct H; reflexivity.
Qed.

(** The first binding of a key: it is found in the object exactly when it
    is found in the document, it stands for the value bound there, and
    when the objects of that value alone change, the dictionary stands
    for the updated document. *)
Lemma entries_lookup h lo hi rd vd :
  entries h lo hi rd vd ->
  forall k,
    match lookup k vd with
    | None => lookup k rd = None
    | Some v =>
        exists r a b,
          lookup k rd = Some r /\ lo <= a /\ b <= hi /\ tree h a b r v
          /\ forall (P : loc -> Prop) h' v',
               (forall l, lo <= l < hi -> ~ (a <= l < b) -> deref h' l = deref h l) ->
               (forall l, lo <= l < hi -> P l) ->
               stands_for P h' r v' ->
               entries_for P h' rd (setitem k v' vd)
    end.
Proof.
  induction 1 as [lo|lo mid hi k0 r v rd vd Ht Hrest IH]; intros k; cbn.
  - reflexivity.
  - pose proof (proj1 (tree_bounds h) _ _ _ _ Ht) as B1.
    pose proof (proj2 (proj2 (tree_bounds h)) _ _ _ _ Hrest) as B2.
    destruct (String.eqb k k0) eqn:E.
    + exists r, lo, mid. repeat split; try lia; try assumption.
      intros P h' v' Hframe HP Hsf. constructor; [assumption|].
      assert (Hrest' : entries h' mid hi rd vd).
      { eapply (proj2 (proj2 (tree_frame h))); [exact Hrest|].
        intros l Hl. apply Hframe; lia. }
      eapply (proj2 (proj2 (tree_stands_for h'))); [exact Hrest'|].
      intros; apply HP; lia.
    + specialize (IH k). destruct (lookup k vd) as [v0|]; [|assumption].
      destruct IH as (r0 & a & b & Hl & Ha & Hb & Ht0 & Hupd).
      exists r0, a, b. repeat split; try lia; try assumption.
      intros P h' v' Hframe HP Hsf. constructor.
      * assert (Ht' : tree h' lo mid r v).
        { eapply (proj1 (tree_frame h)); [exact Ht|].
          intros l Hl0. apply Hframe; lia. }
        eapply (proj1 (tree_stands_for h')); [exact Ht'|].
        intros; apply HP; lia.
      * apply Hupd; [intros; apply Hframe; lia | intros; apply HP; lia | assumption].
Qed.

(** *** The store *)

Lemma length_store l o (h : heap) : List.length (store l o h) = List.length h.
Proof.
  revert l; induction h as [|o' h IH]; intros [|l]; cbn; auto.
Qed.

Lemma deref_store_eq l o (h : heap) :
  l < List.length h -> deref (store l o h) l = Some o.
Proof.
  unfold deref. revert l; induction h as [|o' h IH]; intros [|l]; cbn; intros H;
    try lia; [reflexivity | apply IH; lia].
Qed.

Lemma deref_store_neq l l' o (h : heap) :
  l <> l' -> deref (store l o h) l' = deref h l'.
Proof.
  unfold deref. revert l l'; induction h as [|o' h IH]; intros [|l] [|l'] H; cbn;
    try reflexivity; try lia. apply IH. lia.
Qed.

Lemma deref_bound (h : heap) l o : deref h l = Some o -> l < List.length h.
Proof. unfold deref. intros H. apply nth_error_Some. congruence. Qed.

(** *** One model *)

Lemma any_primary_key_tree h lo hi rf fields :
  entries h lo hi rf fields ->
  forallb (fun kv => Shape.is_dict (snd kv)) fields = true ->
  any_primary_key h (values rf) = Ok (Shape.has_primary_key fields).
Proof.
  unfold Shape.has_primary_key.
  induction 1 as [lo|lo mid hi k r v rd vd Ht Hrest IH]; intros Hall.
  - reflexivity.
  - cbn in Hall. apply andb_prop in Hall as [Hd Hall].
    destruct v; try discriminate.
    inversion Ht as [| | | | |lo' l rd0 vd0 He Hderef]; subst.
    cbn [values map snd any_primary_key existsb Shape.flagged_primary_key].
    unfold h_get, h_dict. rewrite Hderef.
    pose proof (entries_lookup He "primary_key") as Hl.
    destruct (lookup "primary_key" d) as [pk|].
    + destruct Hl as (rpk & a & b & Hl & _ & _ & Htpk & _).
      rewrite Hl. cbn [bind]. rewrite (tree_truthy Htpk).
      destruct (truthy pk); [reflexivity | now apply IH].
    + rewrite Hl. cbn [bind h_truthy orb]. now apply IH.
Qed.

Lemma synthetic_stands_for (P : loc -> Prop) h a :
  P a -> deref h a = Some synthetic_object ->
  stands_for P h (RObj a) DSLParser.synthetic_id.
Proof.
  intros HP Hd. eapply sf_dict; [exact HP | exact Hd |].
  repeat constructor.
Qed.

(** What one iteration of the loop does to a model that sits in the store
    as a tree: it changes objects of the model only (and creates new
    ones), and afterwards the model stands for its normalised form. *)
Lemma normalize_model_tree h lo hi r m :
  tree h lo hi r (VDict m) ->
  Shape.model_ok (VDict m) = true ->
  exists h1,
    normalize_model r h = Ok h1
    /\ List.length h <= List.length h1
    /\ (forall l, l < List.length h -> ~ (lo <= l < hi) -> deref h1 l = deref h l)
    /\ stands_for (fun l => lo <= l < hi \/ List.length h <= l) h1 r
                  (Shape.normalized_model (VDict m)).
Proof.
  intros Ht Hok.
  inversion Ht as [| | | | |lo' lm rm vd0 He Hderef]; subst.
  pose proof (proj2 (proj2 (tree_bounds h)) _ _ _ _ He) as Bm.
  pose proof (deref_bound _ _ Hderef) as Blm.
  unfold Shape.model_ok, Shape.entry_ok in Hok.
  unfold normalize_model, h_contains. rewrite Hderef.
  rewrite (has_key_keys "fields" _ _ (entries_keys He)).
  rewrite (@has_key_lookup _ "fields" m).
  pose proof (entries_lookup He "fields") as Hl.
  unfold Shape.normalized_model.
  destruct (lookup "fields" m) as [fs|] eqn:Hfs; cbn [bind].
  2: { exists h. repeat split; auto.
       eapply (proj1 (tree_stands_for h)); [exact Ht | intros; lia]. }
  destruct fs as [| | | | |fields]; try discriminate. cbn in Hok.
  destruct Hl as (rf & a & b & Hlrf & Ha & Hb & Htf & Hupd).
  inversion Htf as [| | | | |a' lf rfd vd1 Hfe Hfderef]; subst.
  pose proof (proj2 (proj2 (tree_bounds h)) _ _ _ _ Hfe) as Bf.
  unfold h_getitem, h_dict at 1. rewrite Hderef, Hlrf. cbn [bind].
  unfold h_dict. rewrite Hfderef.
  rewrite (any_primary_key_tree Hfe Hok). cbn [bind].
  rewrite (has_key_keys "id" _ _ (entries_keys Hfe)).
  unfold Shape.normalized_fields.
  destruct (Shape.has_primary_key fields); cbn [negb orb].
  { exists h. repeat split; auto.
    rewrite (@setitem_same _ _ _ _ Hfs).
    eapply (proj1 (tree_stands_for h)); [exact Ht | intros; lia]. }
  destruct (has_key "id" fields) eqn:Hid; cbn [negb].
  { exists h. repeat split; auto.
    rewrite (@setitem_same _ _ _ _ Hfs).
    eapply (proj1 (tree_stands_for h)); [exact Ht | intros; lia]. }
  (* the synthetic field is created and added *)
  unfold alloc, h_setitem, h_dict.
  assert (Blf : lf < List.length h) by lia.
  rewrite (deref_app_old _ _ Blf), Hfderef.
  assert (Hidr : has_key "id" rfd = false)
    by (rewrite (has_key_keys "id" _ _ (entries_keys Hfe)); exact Hid).
  rewrite (@setitem_absent _ _ _ _ Hidr).
  set (new := List.length h).
  set (h' := (h ++ [synthetic_object])%list).
  set (h1 := store lf (ODict (rfd ++ [("id", RObj new)])) h').
  assert (Hlen' : List.length h' = S (List.length h))
    by (unfold h'; rewrite length_app; cbn; lia).
  assert (Hold : forall l, l < List.length h -> l <> lf -> deref h1 l = deref h l).
  { intros l Hl1 Hne. unfold h1. rewrite deref_store_neq by congruence.
    unfold h'. now apply deref_app_old. }
  exists h1. split; [reflexivity|]. split.
  { unfold h1. rewrite length_store, Hlen'. lia. }
  split.
  { intros l Hl1 Hout. apply Hold; [assumption | lia]. }
  apply sf_dict with (rd := rm).
  - left. lia.
  - rewrite Hold by lia. assumption.
  - apply Hupd.
    + intros l Hl1 Hout. apply Hold; lia.
    + intros l Hl1. left. lia.
    + apply sf_dict with (rd := (rfd ++ [("id", RObj new)])%list).
      * left. lia.
      * unfold h1. apply deref_store_eq. lia.
      * apply entries_for_app.
        -- assert (Hfe' : entries h1 a lf rfd fields).
           { eapply (proj2 (proj2 (tree_frame h))); [exact Hfe|].
             intros l Hl1. apply Hold; lia. }
           eapply (proj2 (proj2 (tree_stands_for h1))); [exact Hfe'|].
           intros l Hl1. left. lia.
        -- constructor; [|constructor].
           apply synthetic_stands_for; [right; unfold new; lia|].
           unfold h1. rewrite deref_store_neq by (unfold new; lia).
           unfold h', new. apply deref_app_new.
Qed.

(** *** The loop over the models *)

Lemma models_loop_tree lm size : forall rm vm lo hi h,
  entries h lo hi rm vm ->
  forallb (fun kv => Shape.model_ok (snd kv)) vm = true ->
  hi <= List.length h ->
  ~ (lo <= lm < hi) -> lm < List.length h ->
  Nat.eqb (dict_size h lm) size = true ->
  exists hfin,
    models_loop lm size rm h = Ok hfin
    /\ List.length h <= List.length hfin
    /\ (forall l, l < List.length h -> ~ (lo <= l < hi) -> deref hfin l = deref h l)
    /\ entries_for (fun l => lo <= l < hi \/ List.length h <= l) hfin rm
                   (Shape.normalized_models vm).
Proof.
  induction rm as [|[k r] rm IH]; intros vm lo hi h He Hall Hhi Hlm Hlmb Hsize;
    inversion He as [lo'|lo' mid hi' k' r' v rd vd Ht Hrest]; subst.
  - exists h. cbn [models_loop]. rewrite Hsize. cbn.
    repeat split; auto. constructor.
  - cbn in Hall. apply andb_prop in Hall as [Hd Hall].
    destruct v as [| | | | |m]; try discriminate.
    pose proof (proj1 (tree_bounds h) _ _ _ _ Ht) as B1.
    pose proof (proj2 (proj2 (tree_bounds h)) _ _ _ _ Hrest) as B2.
    destruct (normalize_model_tree Ht Hd) as (h1 & Hrun & Hlen1 & Hframe1 & Hsf1).
    assert (Hrest1 : entries h1 mid hi rm vd).
    { eapply (proj2 (proj2 (tree_frame h))); [exact Hrest|].
      intros l Hl. apply Hframe1; lia. }
    assert (Hsize1 : dict_size h1 lm = dict_size h lm).
    { unfold dict_size. rewrite Hframe1 by lia. reflexivity. }
    destruct (IH vd mid hi h1 Hrest1 Hall) as (hfin & Hloop & Hlen2 & Hframe2 & Hef);
      try lia; [now rewrite Hsize1|].
    exists hfin. cbn [models_loop]. rewrite Hsize. cbn [negb].
    rewrite Hrun. cbn [bind]. rewrite Hloop.
    split; [reflexivity|]. split; [lia|]. split.
    { intros l Hl Hout. rewrite Hframe2 by lia. apply Hframe1; lia. }
    cbn [Shape.normalized_models map fst snd]. constructor.
    + eapply (proj1 (stands_for_frame _ h1)); [exact Hsf1|].
      intros l o HP Hd1. cbv beta in HP.
      split; [destruct HP; [left|right]; lia|].
      rewrite Hframe2; [assumption | now apply deref_bound in Hd1 | lia].
    + eapply (proj2 (proj2 (stands_for_frame _ hfin))); [exact Hef|].
      intros l o HP Hd1. cbv beta in HP.
      split; [destruct HP; [left|right]; lia | assumption].
Qed.

(** *** The [models] section *)

Lemma setitem_app_present {A : Type} k (v v0 : A) d e :
  lookup k d = Some v0 -> setitem k v (d ++ e)%list = (setitem k v d ++ e)%list.
Proof.
  induction d as [|[k' v'] d IH]; cbn; [discriminate|].
  destruct (String.eqb k k'); [reflexivity|].
  intros H. now rewrite IH.
Qed.

Lemma models_section_tree h lo l rd d h3 :
  entries h lo l rd d -> l < List.length h ->
  Shape.entry_ok "models" (Shape.dict_of Shape.model_ok) d = true ->
  List.length h <= List.length h3 ->
  (forall x, x < List.length h -> deref h3 x = deref h x) ->
  exists hfin,
    match lookup "models" rd with
    | None => Ok h3
    | Some models =>
        match h_dict h3 models with
        | None => Raise AttributeError
        | Some (lm, items) => models_loop lm (List.length items) items h3
        end
    end = Ok hfin
    /\ (forall x, List.length h <= x < List.length h3 -> deref hfin x = deref h3 x)
    /\ deref hfin l = deref h l
    /\ entries_for (fun _ => True) hfin rd (Shape.after_call d).
Proof.
  intros He Hl Hok Hlen Hframe.
  pose proof (proj2 (proj2 (tree_bounds h)) _ _ _ _ He) as B.
  pose proof (entries_lookup He "models") as Hlk.
  unfold Shape.entry_ok in Hok. unfold Shape.after_call.
  destruct (lookup "models" d) as [v|] eqn:Hm.
  2: { rewrite Hlk. exists h3. split; [reflexivity|]. split; [reflexivity|].
       split; [apply Hframe; lia|].
       { assert (He3 : entries h3 lo l rd d).
         { eapply (proj2 (proj2 (tree_frame h))); [exact He|].
           intros x Hx. apply Hframe; lia. }
         eapply (proj2 (proj2 (tree_stands_for h3))); [exact He3 | auto]. } }
  destruct v as [| | | | |models]; try discriminate. cbn in Hok.
  destruct Hlk as (rmod & a & b & Hlrm & Ha & Hb & Htm & Hupd).
  inversion Htm as [| | | | |a' lm rmm vd0 Hme Hmderef]; subst.
  pose proof (proj2 (proj2 (tree_bounds h)) _ _ _ _ Hme) as Bm.
  rewrite Hlrm. unfold h_dict. rewrite Hframe by lia. rewrite Hmderef.
  assert (Hme3 : entries h3 a lm rmm models).
  { eapply (proj2 (proj2 (tree_frame h))); [exact Hme|].
    intros x Hx. apply Hframe; lia. }
  destruct (@models_loop_tree lm (List.length rmm) rmm models a lm h3 Hme3 Hok)
    as (hfin & Hloop & Hlen2 & Hframe2 & Hef); try lia.
  { unfold dict_size. rewrite Hframe by lia. rewrite Hmderef. apply Nat.eqb_refl. }
  exists hfin. split; [exact Hloop|]. split.
  { intros x Hx. apply Hframe2; lia. }
  split.
  { rewrite Hframe2 by lia. apply Hframe; lia. }
  apply Hupd.
  - intros x Hx Hout. rewrite Hframe2 by lia. apply Hframe; lia.
  - auto.
  - apply sf_dict with (rd := rmm); [exact I | |].
    + rewrite Hframe2 by lia. rewrite Hframe by lia. assumption.
    + eapply (proj2 (proj2 (stands_for_frame _ hfin))); [exact Hef|].
      intros x o _ Hd. split; [exact I | assumption].
Qed.

Lemma normalize_spec_after_call d :
  Shape.well_shaped (VDict d) = true ->
  DSLParser._normalize_spec (VDict d)
  = Ok (VDict (Shape.after_call (Shape.with_meta d))).
Proof.
  intros Hws. unfold Shape.after_call.
  assert (Hlk : lookup "models" (Shape.with_meta d) = lookup "models" d).
  { unfold Shape.with_meta. destruct (has_key "meta" d); [reflexivity|].
    now rewrite (@lookup_setitem_neq _ "models" "meta") by discriminate. }
  rewrite Hlk.
  destruct (lookup "models" d) as [v|] eqn:Hm.
  - assert (Hv : exists models, v = VDict models).
    { unfold Shape.well_shaped, Shape.entry_ok in Hws. rewrite Hm in Hws.
      destruct v; try (now rewrite !andb_false_r in Hws; cbn in Hws;
                       rewrite ?andb_false_r in Hws; discriminate).
      now eexists. }
    destruct Hv as [models ->]. now apply normalize_spec_well_shaped.
  - unfold DSLParser._normalize_spec, Shape.with_meta.
    cbn [DSLParser.py_copy bind py_contains].
    destruct (has_key "meta" d) eqn:Hmeta;
      cbn [negb bind py_setitem py_contains py_get].
    + rewrite Hm. cbn. unfold has_key. rewrite Hm. reflexivity.
    + rewrite (@lookup_setitem_neq _ "models" "meta") by discriminate.
      rewrite Hm. cbn. unfold has_key.
      rewrite (@lookup_setitem_neq _ "models" "meta") by discriminate.
      rewrite Hm. reflexivity.
Qed.

Lemma after_call_with_meta d :
  has_key "meta" d = false ->
  Shape.after_call (Shape.with_meta d)
  = (Shape.after_call d ++ [("meta", VDict [])])%list.
Proof.
  intros Hmeta. unfold Shape.with_meta. rewrite Hmeta.
  rewrite (@setitem_absent _ _ _ _ Hmeta). unfold Shape.after_call.
  assert (Hlk : lookup "models" (d ++ [("meta", VDict [])])%list = lookup "models" d).
  { rewrite <- (@setitem_absent _ _ (VDict []) _ Hmeta).
    now rewrite (@lookup_setitem_neq _ "models" "meta") by discriminate. }
  rewrite Hlk. destruct (lookup "models" d) as [v|] eqn:Hm; [|reflexivity].
  destruct v; try reflexivity.
  now rewrite (@setitem_app_present _ _ _ _ _ _ Hm).
Qed.

(** *** Reading a document back *)

(** With enough fuel [read] returns the document a reference stands
    for. *)
Lemma stands_for_read (P : loc -> Prop) h :
  (forall r v, stands_for P h r v ->
     exists n, forall m, n <= m -> read m h r = Some v)
  /\ (forall rs vs, stand_for P h rs vs ->
     exists n, forall m, n <= m -> map_option (read m h) rs = Some vs)
  /\ (forall rd vd, entries_for P h rd vd ->
     exists n, forall m, n <= m ->
       map_option (fun kr => option_map (pair (fst kr)) (read m h (snd kr))) rd
       = Some vd).
Proof.
  apply stands_for_mutind; intros;
    try (exists 0; intros m _; destruct m; reflexivity).
  - destruct H2 as [n Hn]. exists (S n). intros [|m] Hm; [lia|].
    cbn [read]. rewrite H0, Hn by lia. reflexivity.
  - destruct H2 as [n Hn]. exists (S n). intros [|m] Hm; [lia|].
    cbn [read]. rewrite H0, Hn by lia. reflexivity.
  - destruct H0 as [n1 H1n]. destruct H2 as [n2 H2n]. exists (n1 + n2).
    intros m Hm. cbn [map_option]. rewrite H1n, H2n by lia. reflexivity.
  - destruct H0 as [n1 H1n]. destruct H2 as [n2 H2n]. exists (n1 + n2).
    intros m Hm. cbn [map_option fst snd]. rewrite H1n by lia.
    cbn [option_map]. rewrite H2n by lia. reflexivity.
Qed.

(** *** The whole function *)

(** On a well-shaped document that sits in the store as a tree,
    [_normalize_spec] returns a new object that stands for the document
    the function on values returns; the caller's object is another one,
    and after the call it stands for the caller's document with its models
    normalised. *)
Lemma normalize_spec_tree h lo l rd d :
  entries h lo l rd d -> deref h l = Some (ODict rd) ->
  Shape.well_shaped (VDict d) = true ->
  exists a hfin,
    _normalize_spec (RObj l) h = Ok (RObj a, hfin)
    /\ a <> l
    /\ stands_for (fun _ => True) hfin (RObj a)
                   (VDict (Shape.after_call (Shape.with_meta d)))
    /\ stands_for (fun _ => True) hfin (RObj l) (VDict (Shape.after_call d)).
Proof.
  intros He Hderef Hws.
  pose proof (deref_bound _ _ Hderef) as Hl.
  assert (Hok : Shape.entry_ok "models" (Shape.dict_of Shape.model_ok) d = true).
  { unfold Shape.well_shaped in Hws.
    apply andb_prop in Hws as [Hws _]. apply andb_prop in Hws as [Hws _].
    now apply andb_prop in Hws as [_ Hws]. }
  unfold _normalize_spec, h_copy. rewrite Hderef. unfold alloc. cbn [bind].
  set (a := List.length h).
  set (h2 := (h ++ [ODict rd])%list).
  assert (Hlen2 : List.length h2 = S a)
    by (unfold h2, a; rewrite length_app; cbn; lia).
  assert (Ha2 : deref h2 a = Some (ODict rd)) by apply deref_app_new.
  assert (Hold2 : forall x, x < List.length h -> deref h2 x = deref h x)
    by (intros x Hx; now apply deref_app_old).
  unfold h_contains at 1. rewrite Ha2. cbn [bind].
  rewrite (has_key_keys "meta" _ _ (entries_keys He)).
  destruct (has_key "meta" d) eqn:Hmeta; cbn [negb bind].
  - (* the document has a meta section *)
    unfold h_dict at 1. rewrite Ha2.
    destruct (@models_section_tree h lo l rd d h2 He Hl Hok)
      as (hfin & Hrun & Hnew & Hsame & Hef); [lia | exact Hold2 |].
    exists a, hfin. split.
    { destruct (lookup "models" rd) as [m|].
      - destruct (h_dict h2 m) as [[lm items]|]; [|discriminate].
        rewrite Hrun. reflexivity.
      - now injection Hrun as <-. }
    split; [unfold a; lia|]. split.
    + unfold Shape.with_meta. rewrite Hmeta.
      apply sf_dict with (rd := rd); [exact I | | exact Hef].
      rewrite Hnew by lia. exact Ha2.
    + apply sf_dict with (rd := rd); [exact I | | exact Hef].
      now rewrite Hsame.
  - (* a meta section is added to the copy *)
    unfold h_setitem, h_dict at 1.
    set (b := List.length h2).
    set (h2' := (h2 ++ [ODict []])%list).
    assert (Ha2' : deref h2' a = Some (ODict rd)).
    { unfold h2'. rewrite deref_app_old by lia. exact Ha2. }
    rewrite Ha2'. cbn [bind].
    assert (Hmr : has_key "meta" rd = false)
      by (rewrite (has_key_keys "meta" _ _ (entries_keys He)); exact Hmeta).
    rewrite (@setitem_absent _ _ _ _ Hmr).
    set (rd3 := (rd ++ [("meta", RObj b)])%list).
    set (h3 := store a (ODict rd3) h2').
    assert (Hlen3 : List.length h3 = S (S a)).
    { unfold h3. rewrite length_store. unfold h2'. rewrite length_app. cbn. lia. }
    assert (Ha3 : deref h3 a = Some (ODict rd3)).
    { unfold h3. apply deref_store_eq. unfold h2'. rewrite length_app. cbn. lia. }
    assert (Hb3 : deref h3 b = Some (ODict [])).
    { unfold h3. rewrite deref_store_neq by (unfold b; lia).
      unfold h2', b. apply deref_app_new. }
    assert (Hold3 : forall x, x < List.length h -> deref h3 x = deref h x).
    { intros x Hx. unfold h3. rewrite deref_store_neq by (unfold a; lia).
      unfold h2'. rewrite deref_app_old by lia. now apply Hold2. }
    unfold h_dict at 1. rewrite Ha3.
    assert (Hlk3 : lookup "models" rd3 = lookup "models" rd).
    { unfold rd3. rewrite <- (@setitem_absent _ _ (RObj b) _ Hmr).
      now rewrite (@lookup_setitem_neq _ "models" "meta") by discriminate. }
    rewrite Hlk3.
    destruct (@models_section_tree h lo l rd d h3 He Hl Hok)
      as (hfin & Hrun & Hnew & Hsame & Hef); [lia | exact Hold3 |].
    exists a, hfin. split.
    { destruct (lookup "models" rd) as [m|].
      - destruct (h_dict h3 m) as [[lm items]|]; [|discriminate].
        rewrite Hrun. reflexivity.
      - now injection Hrun as <-. }
    split; [unfold a; lia|]. split.
    + rewrite (after_call_with_meta _ Hmeta).
      apply sf_dict with (rd := rd3); [exact I | |].
      * rewrite Hnew by lia. exact Ha3.
      * unfold rd3. apply entries_for_app; [exact Hef|].
        constructor; [|constructor].
        apply sf_dict with (rd := []); [exact I | | constructor].
        rewrite Hnew by (unfold b; lia). exact Hb3.
    + apply sf_dict with (rd := rd); [exact I | | exact Hef].
      now rewrite Hsame.
Qed.

(** The same for a document [d] as the decoder builds it, read back from
    the store: the call returns a new object whose content is the
    document that [DSLParser._normalize_spec] returns on [d], and the
    caller's own object then holds [d] with its models normalised. *)
Theorem normalize_spec_refines d h0 :
  Shape.well_shaped (VDict d) = true ->
  exists a hfin v n,
    _normalize_spec (fst (load (VDict d) h0)) (snd (load (VDict d) h0))
    = Ok (RObj a, hfin)
    /\ RObj a <> fst (load (VDict d) h0)
    /\ DSLParser._normalize_spec (VDict d) = Ok v
    /\ forall m, n <= m ->
         read m hfin (RObj a) = Some v
         /\ read m hfin (fst (load (VDict d) h0))
            = Some (VDict (Shape.after_call d)).
Proof.
  intros Hws. destruct (load_tree (VDict d) h0) as (ext & _ & Ht).
  destruct (load (VDict d) h0) as [r h]. cbn [fst snd] in *.
  inversion Ht as [| | | | |lo l rd vd He Hderef]; subst.
  destruct (normalize_spec_tree He Hderef Hws)
    as (a & hfin & Hrun & Hne & Hcopy & Hcaller).
  destruct (proj1 (stands_for_read _ hfin) _ _ Hcopy) as [n1 Hn1].
  destruct (proj1 (stands_for_read _ hfin) _ _ Hcaller) as [n2 Hn2].
  exists a, hfin, (VDict (Shape.after_call (Shape.with_meta d))), (n1 + n2).
  split; [exact Hrun|]. split; [congruence|].
  split; [now apply normalize_spec_after_call|].
  intros m Hm. split; [apply Hn1 | apply Hn2]; lia.
Qed.

End StoreModel.

(** C9: [compute_hash] is the SHA-256 hex digest of the UTF-8 encoding of
    its argument (here checked on the test vector ["abc"] of FIPS 180-4),
    and every file map that [generate] returns is the list of the other
    generated files followed by [integrity.json], whose content is the
    JSON object that maps the path of each of these files to the digest of
    its content. *)
Theorem integrity_manifest_covers_generated_files (dsl_spec : value)
  (st : BaseGenerator.gen_state) (files : DjangoGenerator.file_map) :
  fst (DjangoGenerator.generate dsl_spec st) = Ok files ->
  (forall content,
      BaseGenerator.compute_hash content
      = SHA256.hexdigest (SHA256.utf8 content))
  /\ BaseGenerator.compute_hash "abc"
     = "ba7816bf8f01cfea414140de5dae2223b00361a396177a9cb410ff61f20015ad"
  /\ exists others : DjangoGenerator.file_map,
       files
       = (others
          ++ [("integrity.json",
               json_dumps_indent 2
                 (VDict (map (fun fc =>
                                (fst fc, VStr (BaseGenerator.compute_hash (snd fc))))
                             others)))])%list
       /\ ~ In "integrity.json" (keys others)
       /\ List.length others = 22.
Proof.
  intros H. split; [reflexivity|]. split; [vm_compute; reflexivity|].
  apply django_generates_after_checks in H as (_ & _ & H).
  apply generate_files_manifest in H as (others & -> & Hkeys).
  exists others. split; [reflexivity|]. split.
  - rewrite Hkeys. cbn. intuition discriminate.
  - unfold keys in Hkeys. rewrite <- (length_map fst), Hkeys. reflexivity.
Qed.

Lemma integrity_manifest_covers_generated_files_witness :
  exists files others : DjangoGenerator.file_map,
    fst (DjangoGenerator.generate Examples.scenario_B BaseGenerator.init_state)
    = Ok files
    /\ files
       = (others
          ++ [("integrity.json",
               json_dumps_indent 2
                 (VDict (map (fun fc =>
                                (fst fc, VStr (BaseGenerator.compute_hash (snd fc))))
                             others)))])%list
    /\ List.length others = 22.
Proof.
  assert (E : exists files,
             fst (DjangoGenerator.generate Examples.scenario_B
                    BaseGenerator.init_state) = Ok files).
  { eexists. vm_compute. reflexivity. }
  destruct E as [files E].
  destruct (@integrity_manifest_covers_generated_files
              Examples.scenario_B BaseGenerator.init_state files E)
    as (_ & _ & others & Hfiles & _ & Hlen).
  exists files, others. auto.
Defined.

(** C1: on a document whose description holds a script element and whose
    field is named [1;DROP], the Django generator raises the security
    error from [generate] and from [preview], while the Go and the Rails
    generators return their file maps and previews: they run neither
    check.  On a document with no [meta] section the same happens. *)
Theorem go_and_rails_generate_unchecked :
  fst (DjangoGenerator.generate Examples.unsafe_spec BaseGenerator.init_state)
  = Raise (ValueError "DSL specification failed security checks")
  /\ fst (DjangoGenerator.preview Examples.unsafe_spec BaseGenerator.init_state)
     = Raise (ValueError "DSL specification failed security checks")
  /\ (exists files, GoGenerator.generate Examples.unsafe_spec = Ok files
                    /\ List.length files = 10)
  /\ (exists files, RailsGenerator.generate Examples.unsafe_spec = Ok files
                    /\ List.length files = 9)
  /\ (exists p, GoGenerator.preview Examples.unsafe_spec = Ok p)
  /\ (exists p, RailsGenerator.preview Examples.unsafe_spec = Ok p)
  /\ fst (DjangoGenerator.generate Examples.no_meta BaseGenerator.init_state)
     = Raise (ValueError "Invalid DSL specification: Missing required field: meta")
  /\ (exists files, GoGenerator.generate Examples.no_meta = Ok files)
  /\ (exists files, RailsGenerator.generate Examples.no_meta = Ok files).
Proof.
  split; [vm_compute; reflexivity|].
  split; [vm_compute; reflexivity|].
  split; [eexists; split; vm_compute; reflexivity|].
  split; [eexists; split; vm_compute; reflexivity|].
  split; [eexists; reflexivity|].
  split; [eexists; vm_compute; reflexivity|].
  split; [vm_compute; reflexivity|].
  split; eexists; vm_compute; reflexivity.
Qed.

(** C4: after [_normalize_spec] has run on the objects of scenario B, the
    caller's own reference no longer stands for scenario B: its [Task]
    model has the synthetic [id] field.  The copy is shallow. *)
Theorem normalize_mutates_caller_input :
  let (dsl_spec, h) := Heap.load Examples.scenario_B [] in
  Heap.read 8 h dsl_spec = Some Examples.scenario_B
  /\ exists normalized h',
       Heap._normalize_spec dsl_spec h = Ok (normalized, h')
       /\ Heap.read 8 h' normalized = Some Examples.normalized_scenario_B
       /\ Heap.read 8 h' dsl_spec = Some Examples.normalized_scenario_B
       /\ Examples.normalized_scenario_B <> Examples.scenario_B.
Proof.
  cbn. split; [reflexivity|].
  do 2 eexists. split; [reflexivity|].
  split; [reflexivity|]. split; [reflexivity|]. discriminate.
Qed.

(** ** Names that pass the validator *)

Section NameChecks.

Import DSLParser Shape Names.















End NameChecks.

(** ** The parser on arbitrary documents *)

Section ParserGeneral.

Import DSLParser Shape.

(** [validate] section by section: the result of each sub-validator, and
    the error list put together. *)
Lemma validate_sections d :
  validate (VDict d) =
  (meta_errors <- match lookup "meta" d with
                  | Some meta => _validate_meta meta
                  | None => Ok []
                  end ;;
   model_result <- match lookup "models" d with
                   | Some models => _validate_models models
                   | None => Ok ([], [])
                   end ;;
   auth_errors <- match lookup "auth" d with
                  | Some auth => _validate_auth auth
                  | None => Ok []
                  end ;;
   api_errors <- match lookup "api" d with
                 | Some api => _validate_api api
                 | None => Ok []
                 end ;;
   let errors := (missing "meta" d (missing_section_msg "meta")
                  ++ missing "models" d (missing_section_msg "models")
                  ++ meta_errors ++ fst model_result
                  ++ auth_errors ++ api_errors)%list in
   Ok {| valid := Nat.eqb (List.length errors) 0;
         errors := errors;
         warnings := snd model_result |}).
Proof.
  unfold validate.
  cbn [for_each required_sections py_contains bind py_getitem].
  rewrite !append_if_app, !missing_negb. cbn [app].
  generalize (missing "meta" d (missing_section_msg "meta")).
  generalize (missing "models" d (missing_section_msg "models")).
  intros e2 e1. unfold has_key.
  destruct (lookup "meta" d) as [meta|];
    [cbn [bind]; destruct (_validate_meta meta) as [em|]; [|reflexivity]|];
    cbn [bind];
    (destruct (lookup "models" d) as [models|];
     [cbn [bind]; destruct (_validate_models models) as [[emo w]|]; [|reflexivity]|]);
    cbn [bind];
    (destruct (lookup "auth" d) as [auth|];
     [cbn [bind]; destruct (_validate_auth auth) as [ea|]; [|reflexivity]|]);
    cbn [bind];
    (destruct (lookup "api" d) as [api|];
     [cbn [bind]; destruct (_validate_api api) as [eapi|]; [|reflexivity]|]);
    cbn [bind app fst snd]; rewrite ?app_nil_r, <- ?app_assoc; reflexivity.
Qed.

(** *** What an accepted document looks like *)

Lemma validate_field_grows mn fd errs n errs' n' :
  validate_field mn fd (errs, n) = Ok (errs', n') ->
  exists extra, errs' = (errs ++ extra)%list
                /\ (extra = [] -> is_dict (snd fd) = true).
Proof.
  destruct fd as [fname fdef]. destruct fdef as [| | |s|l|f];
    try discriminate.
  - unfold validate_field. cbn [py_contains bind].
    destruct (is_substring "type" s); cbn; [discriminate|].
    intros [= <- <-]. eexists. split; [reflexivity | discriminate].
  - unfold validate_field. cbn [py_contains bind].
    destruct (existsb (is_str "type") l); cbn; [discriminate|].
    intros [= <- <-]. eexists. split; [reflexivity | discriminate].
  - rewrite validate_field_dict. intros [= <- <-].
    eexists. split; [reflexivity | reflexivity].
Qed.

Lemma validate_fields_grow mn fields :
  forall errs n errs' n',
  for_each fields (validate_field mn) (errs, n) = Ok (errs', n') ->
  exists extra, errs' = (errs ++ extra)%list
                /\ (extra = [] ->
                    forallb (fun kv => is_dict (snd kv)) fields = true).
Proof.
  induction fields as [|fd fields IH]; intros errs n errs' n' H.
  - cbn in H. injection H as <- <-. exists []. now rewrite app_nil_r.
  - cbn [for_each] in H.
    destruct (validate_field mn fd (errs, n)) as [[e1 n1]|] eqn:E;
      [|discriminate].
    cbn [bind] in H.
    destruct (@validate_field_grows _ _ _ _ _ _ E) as (x1 & -> & H1).
    destruct (IH _ _ _ _ H) as (x2 & -> & H2).
    exists (x1 ++ x2)%list. split; [now rewrite app_assoc|].
    intros Hnil. apply app_eq_nil in Hnil as [-> ->].
    cbn. now rewrite H1, H2.
Qed.

Lemma validate_model_grows md errs warns errs' warns' :
  validate_model md (errs, warns) = Ok (errs', warns') ->
  exists extra, errs' = (errs ++ extra)%list
                /\ (extra = [] ->
                    model_ok (snd md) = true
                    /\ DslErrors.has_fields (snd md) = true).
Proof.
  destruct md as [name def]. unfold validate_model.
  rewrite append_if_app.
  set (e0 := if negb (match_dollar model_name_re name)
             then [model_name_msg name] else []).
  destruct def as [| | |s|l|m]; try discriminate; cbn [py_contains bind snd].
  - destruct (is_substring "fields" s); cbn; [discriminate|].
    intros [= <- <-]. exists (e0 ++ [missing_fields_msg name])%list.
    split; [now rewrite app_assoc|].
    intros H. apply app_eq_nil in H as [_ H]. discriminate.
  - destruct (existsb (is_str "fields") l); cbn; [discriminate|].
    intros [= <- <-]. exists (e0 ++ [missing_fields_msg name])%list.
    split; [now rewrite app_assoc|].
    intros H. apply app_eq_nil in H as [_ H]. discriminate.
  - unfold model_ok, entry_ok, DslErrors.has_fields, has_key, py_getitem.
    destruct (lookup "fields" m) as [fv|]; cbn [negb bind].
    2: { intros [= <- <-]. exists (e0 ++ [missing_fields_msg name])%list.
         split; [now rewrite app_assoc|].
         intros H. apply app_eq_nil in H as [_ H]. discriminate. }
    destruct fv as [| | | | |fields]; try discriminate. cbn [py_items bind].
    destruct (for_each fields (validate_field name) ((errs ++ e0)%list, 0))
      as [[e1 cnt]|] eqn:E; [|discriminate].
    cbn [bind].
    destruct (@validate_fields_grow _ _ _ _ _ _ E) as (x & -> & Hx).
    destruct (Nat.eqb cnt 0); [|destruct (Nat.ltb 1 cnt)]; intros [= <- <-].
    + exists (e0 ++ x)%list. split; [now rewrite app_assoc|].
      intros H. apply app_eq_nil in H as [_ ->]. cbn. split; [now apply Hx | reflexivity].
    + exists (e0 ++ x ++ [multiple_primary_keys_msg name])%list.
      split; [now rewrite <- !app_assoc|].
      intros H. apply app_eq_nil in H as [_ H].
      apply app_eq_nil in H as [_ H]. discriminate.
    + exists (e0 ++ x)%list. split; [now rewrite app_assoc|].
      intros H. apply app_eq_nil in H as [_ ->]. cbn. split; [now apply Hx | reflexivity].
Qed.

Lemma validate_models_grow models :
  forall errs warns errs' warns',
  for_each models validate_model (errs, warns) = Ok (errs', warns') ->
  exists extra, errs' = (errs ++ extra)%list
                /\ (extra = [] ->
                    forallb (fun kv => model_ok (snd kv)) models = true
                    /\ forallb (fun kv => DslErrors.has_fields (snd kv)) models
                       = true).
Proof.
  induction models as [|md models IH]; intros errs warns errs' warns' H.
  - cbn in H. injection H as <- <-. exists []. now rewrite app_nil_r.
  - cbn [for_each] in H.
    destruct (validate_model md (errs, warns)) as [[e1 w1]|] eqn:E;
      [|discriminate].
    cbn [bind] in H.
    destruct (@validate_model_grows _ _ _ _ _ E) as (x1 & -> & H1).
    destruct (IH _ _ _ _ H) as (x2 & -> & H2).
    exists (x1 ++ x2)%list. split; [now rewrite app_assoc|].
    intros Hnil. apply app_eq_nil in Hnil as [-> ->].
    destruct (H1 eq_refl) as [H1a H1b]. destruct (H2 eq_refl) as [H2a H2b].
    cbn. now rewrite H1a, H1b, H2a, H2b.
Qed.

(** Models that yield no error are dictionaries of dictionaries. *)
Lemma validate_models_accepts v warns :
  _validate_models v = Ok ([], warns) ->
  exists models, v = VDict models
                 /\ forallb (fun kv => model_ok (snd kv)) models = true
                 /\ forallb (fun kv => DslErrors.has_fields (snd kv)) models
                    = true.
Proof.
  unfold _validate_models. destruct v as [| | | | |models]; try discriminate.
  cbn [py_items bind]. intros H.
  destruct (@validate_models_grow _ _ _ _ _ H) as (x & Hx & Hok).
  exists models. split; [reflexivity|]. apply Hok.
  cbn in Hx. congruence.
Qed.

(** A [meta] section that yields no error is a dictionary with the three
    required keys. *)
Lemma validate_meta_accepts meta :
  _validate_meta meta = Ok [] ->
  exists m, meta = VDict m
            /\ has_key "name" m = true
            /\ has_key "version" m = true
            /\ has_key "framework" m = true.
Proof.
  unfold _validate_meta.
  destruct meta as [| | |s|l|m]; try discriminate;
    cbn [for_each py_contains bind].
  - destruct (is_substring "name" s), (is_substring "version" s),
      (is_substring "framework" s); cbn; discriminate.
  - destruct (existsb (is_str "name") l), (existsb (is_str "version") l),
      (existsb (is_str "framework") l); cbn; discriminate.
  - unfold has_key, py_getitem.
    destruct (lookup "name" m) as [nv|] eqn:En,
      (lookup "version" m) as [vv|] eqn:Ev,
      (lookup "framework" m) as [fw|] eqn:Ef;
      cbn [negb append_if bind app];
      try (intros _; exists m; rewrite En, Ev, Ef; repeat split; reflexivity);
      try (destruct nv; cbn [re_match bind]; try discriminate);
      rewrite ?append_if_app; cbn [app]; discriminate.
Qed.

End ParserGeneral.

(** ** Normalising twice *)

Section NormalizeTwice.

Import DSLParser Shape.

Lemma any_primary_key_then_synthetic fields :
  any_primary_key fields = Ok false ->
  any_primary_key (fields ++ [synthetic_id]) = Ok true.
Proof.
  induction fields as [|f fields IH]; [reflexivity|].
  cbn [any_primary_key app].
  destruct (py_get f "primary_key" (VBool false)) as [pk|]; [|discriminate].
  cbn [bind]. destruct (truthy pk); [discriminate | exact IH].
Qed.

Lemma values_app {A : Type} (d1 d2 : list (string * A)) :
  values (d1 ++ d2) = (values d1 ++ values d2)%list.
Proof. apply map_app. Qed.

(** One model: what [normalize_model] returns is left as it is by a
    second run. *)
Lemma normalize_model_twice v v' :
  normalize_model v = Ok v' -> normalize_model v' = Ok v'.
Proof.
  unfold normalize_model.
  destruct v as [| | |s|l|m]; try discriminate; cbn [py_contains bind].
  - destruct (is_substring "fields" s) eqn:E; cbn; [discriminate|].
    intros [= <-]. cbn. now rewrite E.
  - destruct (existsb (is_str "fields") l) eqn:E; cbn; [discriminate|].
    intros [= <-]. cbn. now rewrite E.
  - unfold has_key, py_getitem.
    destruct (lookup "fields" m) as [fv|] eqn:Hfv; cbn [bind].
    2: { intros [= <-]. cbn. unfold has_key. now rewrite Hfv. }
    destruct fv as [| | | | |fields]; try discriminate. cbn [py_values bind].
    destruct (any_primary_key (values fields)) as [b|] eqn:Hany;
      [|discriminate].
    cbn [bind].
    destruct b; cbn [negb].
    + intros [= <-]. cbn [py_contains bind py_getitem]. unfold has_key.
      rewrite Hfv. cbn [bind py_values]. rewrite Hany. reflexivity.
    + cbn [py_contains bind].
      destruct (has_key "id" fields) eqn:Hid; cbn [negb bind py_setitem].
      * intros [= <-]. cbn [py_contains bind py_getitem]. unfold has_key.
        rewrite Hfv. cbn [bind py_values]. rewrite Hany. cbn [bind negb].
        cbn [py_contains bind]. rewrite Hid. reflexivity.
      * intros [= <-]. cbn [py_contains bind py_getitem]. unfold has_key.
        rewrite lookup_setitem_eq. cbn [bind py_values].
        rewrite (@setitem_absent _ _ _ _ Hid), values_app.
        change (values [("id", synthetic_id)]) with [synthetic_id].
        rewrite (@any_primary_key_then_synthetic _ Hany). reflexivity.
Qed.

Lemma normalize_models_twice items :
  forall items', normalize_models items = Ok items' ->
                 normalize_models items' = Ok items'.
Proof.
  induction items as [|[name def] items IH]; intros items' H.
  - cbn in H. injection H as <-. reflexivity.
  - cbn [normalize_models] in H.
    destruct (normalize_model def) as [def'|] eqn:Hd; [|discriminate].
    cbn [bind] in H.
    destruct (normalize_models items) as [rest|] eqn:Hr; [|discriminate].
    cbn [bind] in H. injection H as <-.
    cbn [normalize_models]. rewrite (@normalize_model_twice _ _ Hd).
    cbn [bind]. now rewrite (IH _ eq_refl).
Qed.

Lemma setitem_twice {A : Type} k (v v' : A) d :
  setitem k v (setitem k v' d) = setitem k v d.
Proof.
  induction d as [|[k0 v0] d IH]; cbn.
  - now rewrite String.eqb_refl.
  - destruct (String.eqb k k0) eqn:E; cbn; rewrite E; [reflexivity|].
    now rewrite IH.
Qed.

Lemma has_key_setitem_eq {A : Type} k (v : A) d : has_key k (setitem k v d) = true.
Proof. unfold has_key. now rewrite lookup_setitem_eq. Qed.

Lemma has_key_setitem_neq {A : Type} k k' (v : A) d :
  k <> k' -> has_key k (setitem k' v d) = has_key k d.
Proof. intros H. unfold has_key. now rewrite lookup_setitem_neq. Qed.

(** The second half of [_normalize_spec], after the [meta] default. *)
Lemma normalize_spec_with_meta d :
  has_key "meta" d = true ->
  _normalize_spec (VDict d)
  = (items <- (models <- py_get (VDict d) "models" (VDict []) ;;
               items <- py_items models ;;
               normalize_models items) ;;
     if has_key "models" d then Ok (VDict (setitem "models" (VDict items) d))
     else Ok (VDict d)).
Proof.
  intros Hmeta. unfold _normalize_spec.
  cbn [py_copy bind py_contains]. rewrite Hmeta. cbn [negb bind py_contains].
  destruct (py_get (VDict d) "models" (VDict [])) as [models|]; [|reflexivity].
  cbn [bind]. destruct (py_items models) as [items|]; [|reflexivity].
  cbn [bind]. destruct (normalize_models items); reflexivity.
Qed.

Lemma normalize_spec_add_meta d :
  has_key "meta" d = false ->
  _normalize_spec (VDict d) = _normalize_spec (VDict (setitem "meta" (VDict []) d)).
Proof.
  intros Hmeta. unfold _normalize_spec at 1.
  cbn [py_copy bind py_contains]. rewrite Hmeta. cbn [negb py_setitem bind].
  unfold _normalize_spec. cbn [py_copy bind py_contains].
  rewrite has_key_setitem_eq. reflexivity.
Qed.

Lemma normalize_spec_twice_with_meta d n :
  has_key "meta" d = true ->
  _normalize_spec (VDict d) = Ok n -> _normalize_spec n = Ok n.
Proof.
  intros Hmeta. rewrite (@normalize_spec_with_meta _ Hmeta).
  cbn [py_get]. unfold has_key at 1.
  destruct (lookup "models" d) as [models|] eqn:Hm; cbn [bind].
  - destruct models as [| | | | |items]; try discriminate. cbn [py_items bind].
    destruct (normalize_models items) as [items'|] eqn:Hn; [|discriminate].
    cbn [bind]. intros [= <-].
    rewrite normalize_spec_with_meta
      by (rewrite has_key_setitem_neq by discriminate; exact Hmeta).
    cbn [py_get]. rewrite lookup_setitem_eq. cbn [py_items bind].
    rewrite (@normalize_models_twice _ _ Hn). cbn [bind].
    rewrite has_key_setitem_eq. now rewrite setitem_twice.
  - intros [= <-]. rewrite (@normalize_spec_with_meta _ Hmeta).
    cbn [py_get]. unfold has_key. rewrite Hm. reflexivity.
Qed.

Lemma normalize_spec_twice (dsl_spec normalized : value) :
  _normalize_spec dsl_spec = Ok normalized ->
  _normalize_spec normalized = Ok normalized.
Proof.
  destruct dsl_spec as [| | | |l|d]; try discriminate.
  - (* a list has [copy] but neither item assignment by key nor [get] *)
    unfold DSLParser._normalize_spec.
    cbn [DSLParser.py_copy bind py_contains].
    destruct (existsb (is_str "meta") l); cbn; discriminate.
  - destruct (has_key "meta" d) eqn:Hmeta.
    + now apply normalize_spec_twice_with_meta.
    + rewrite (@normalize_spec_add_meta _ Hmeta).
      apply normalize_spec_twice_with_meta. apply has_key_setitem_eq.
Qed.

End NormalizeTwice.

(** [_normalize_spec] is idempotent: whatever the document, when a call
    returns, a second call on its result returns that result unchanged. *)
Theorem normalize_spec_idempotent (dsl_spec normalized : value) :
  DSLParser._normalize_spec dsl_spec = Ok normalized ->
  DSLParser._normalize_spec normalized = Ok normalized.
Proof. apply normalize_spec_twice. Qed.

Lemma normalize_spec_idempotent_witness :
  DSLParser._normalize_spec Examples.scenario_B
  = Ok Examples.normalized_scenario_B
  /\ DSLParser._normalize_spec Examples.normalized_scenario_B
     = Ok Examples.normalized_scenario_B.
Proof.
  split; [reflexivity|].
  apply (@normalize_spec_idempotent Examples.scenario_B). reflexivity.
Defined.

(** ** Validating a normalised document *)

Section ValidateNormalized.

Import DSLParser Shape.

Lemma counted_is_flagged v :
  counted_primary_key v = true -> flagged_primary_key v = true.
Proof.
  unfold counted_primary_key, flagged_primary_key.
  destruct v; try discriminate. intros H. now apply andb_prop in H as [_ H].
Qed.

Lemma no_flag_no_count fields :
  has_primary_key fields = false -> primary_key_count fields = 0.
Proof.
  unfold has_primary_key, primary_key_count.
  induction fields as [|[k v] fields IH]; [reflexivity|].
  cbn [existsb filter snd]. intros H. apply orb_false_elim in H as [Hv H].
  destruct (counted_primary_key v) eqn:E.
  - apply counted_is_flagged in E. congruence.
  - now apply IH.
Qed.

Lemma primary_key_count_app f1 f2 :
  primary_key_count (f1 ++ f2) = primary_key_count f1 + primary_key_count f2.
Proof. unfold primary_key_count. now rewrite filter_app, length_app. Qed.

(** The synthetic field adds no error, and the model keeps the errors it
    had. *)
Lemma model_errors_normalized name def :
  model_ok def = true ->
  model_errors (name, normalized_model def) = model_errors (name, def).
Proof.
  unfold model_ok, entry_ok, model_errors, normalized_model. cbn [fst snd].
  destruct def as [| | | | |m]; try discriminate.
  destruct (lookup "fields" m) as [fv|] eqn:Hfv.
  2: { now rewrite Hfv. }
  destruct fv as [| | | | |fields]; try discriminate. intros _.
  rewrite lookup_setitem_eq. f_equal.
  unfold normalized_fields.
  destruct (has_primary_key fields) eqn:Hpk; cbn [orb]; [reflexivity|].
  destruct (has_key "id" fields); [reflexivity|].
  rewrite flat_map_app, primary_key_count_app, (@no_flag_no_count _ Hpk).
  cbn. now rewrite app_nil_r.
Qed.

Lemma model_ok_normalized def :
  model_ok def = true -> model_ok (normalized_model def) = true.
Proof.
  unfold model_ok, entry_ok, normalized_model.
  destruct def as [| | | | |m]; try discriminate.
  destruct (lookup "fields" m) as [fv|] eqn:Hfv.
  2: { now rewrite Hfv. }
  destruct fv as [| | | | |fields]; try discriminate. cbn.
  intros H. rewrite lookup_setitem_eq. unfold normalized_fields.
  destruct (has_primary_key fields || has_key "id" fields); [assumption|].
  cbn [dict_of]. rewrite forallb_app, H. reflexivity.
Qed.

Lemma models_errors_normalized models :
  forallb (fun kv => model_ok (snd kv)) models = true ->
  flat_map model_errors (normalized_models models) = flat_map model_errors models
  /\ forallb (fun kv => model_ok (snd kv)) (normalized_models models) = true.
Proof.
  induction models as [|[name def] models IH]; [split; reflexivity|].
  cbn [forallb snd]. intros H. apply andb_prop in H as [Hd H].
  destruct (IH H) as [IH1 IH2].
  cbn [normalized_models map flat_map forallb fst snd].
  rewrite (@model_errors_normalized name _ Hd).
  fold (normalized_models models). rewrite IH1, IH2.
  rewrite (@model_ok_normalized _ Hd). split; reflexivity.
Qed.

End ValidateNormalized.

Section ParseTwice.

Import DSLParser Shape.

Lemma missing_nil k d msg : missing k d msg = [] -> has_key k d = true.
Proof. unfold missing. destruct (has_key k d); [reflexivity | discriminate]. Qed.

Lemma missing_present k d msg : has_key k d = true -> missing k d msg = [].
Proof. unfold missing. now intros ->. Qed.

(** What [validate] has accepted: a dictionary with a [meta] section, and
    models that are dictionaries whose [fields] are dictionaries of
    dictionaries. *)
Lemma validate_accepts spec r :
  validate spec = Ok r -> valid r = true ->
  exists d m models,
    spec = VDict d
    /\ lookup "meta" d = Some (VDict m)
    /\ has_key "name" m = true /\ has_key "version" m = true
    /\ has_key "framework" m = true
    /\ lookup "models" d = Some (VDict models)
    /\ forallb (fun kv => model_ok (snd kv)) models = true
    /\ forallb (fun kv => DslErrors.has_fields (snd kv)) models = true
    /\ errors r = [].
Proof.
  intros Hv Hvalid.
  destruct spec as [| | |s|l|d]; try discriminate.
  - exfalso. revert Hv. unfold validate.
    cbn [for_each required_sections py_contains bind].
    destruct (is_substring "meta" s); cbn [negb bind py_getitem append_if];
      [discriminate|].
    destruct (is_substring "models" s); cbn [negb bind py_getitem append_if];
      [discriminate|].
    destruct (is_substring "auth" s); cbn [negb bind py_getitem append_if];
      [discriminate|].
    destruct (is_substring "api" s); cbn [negb bind py_getitem append_if];
      [discriminate|].
    intros [= <-]. discriminate.
  - exfalso. revert Hv. unfold validate.
    cbn [for_each required_sections py_contains bind].
    destruct (existsb (is_str "meta") l); cbn [negb bind py_getitem append_if];
      [discriminate|].
    destruct (existsb (is_str "models") l); cbn [negb bind py_getitem append_if];
      [discriminate|].
    destruct (existsb (is_str "auth") l); cbn [negb bind py_getitem append_if];
      [discriminate|].
    destruct (existsb (is_str "api") l); cbn [negb bind py_getitem append_if];
      [discriminate|].
    intros [= <-]. discriminate.
  - rewrite validate_sections in Hv.
    destruct (match lookup "meta" d with
              | Some meta => _validate_meta meta
              | None => Ok []
              end) as [em|] eqn:Em; [|discriminate].
    cbn [bind] in Hv.
    destruct (match lookup "models" d with
              | Some models => _validate_models models
              | None => Ok ([], [])
              end) as [[emo w]|] eqn:Emo; [|discriminate].
    cbn [bind] in Hv.
    destruct (match lookup "auth" d with
              | Some auth => _validate_auth auth
              | None => Ok []
              end) as [ea|] eqn:Ea; [|discriminate].
    cbn [bind] in Hv.
    destruct (match lookup "api" d with
              | Some api => _validate_api api
              | None => Ok []
              end) as [eapi|] eqn:Eapi; [|discriminate].
    cbn [bind fst snd] in Hv. injection Hv as <-.
    cbn [valid errors] in *.
    apply Nat.eqb_eq, length_zero_iff_nil in Hvalid.
    pose proof Hvalid as Hall.
    apply app_eq_nil in Hvalid as [H1 Hvalid].
    apply app_eq_nil in Hvalid as [H2 Hvalid].
    apply app_eq_nil in Hvalid as [-> Hvalid].
    apply app_eq_nil in Hvalid as [-> _].
    apply missing_nil in H1, H2. unfold has_key in H1, H2.
    destruct (lookup "meta" d) as [meta|] eqn:Lmeta; [|discriminate].
    destruct (lookup "models" d) as [mv|] eqn:Lmodels; [|discriminate].
    destruct (@validate_meta_accepts _ Em) as (m & -> & Hn & Hve & Hf).
    destruct (@validate_models_accepts _ _ Emo) as (models & -> & Hok & Hfs).
    exists d, m, models. repeat split; auto.
Qed.

(** [validate] on the normalised form of an accepted document. *)
Lemma validate_normalized d models r :
  validate (VDict d) = Ok r -> errors r = [] ->
  lookup "models" d = Some (VDict models) ->
  forallb (fun kv => model_ok (snd kv)) models = true ->
  exists r',
    validate (VDict (setitem "models" (VDict (normalized_models models)) d))
    = Ok r'
    /\ errors r' = [].
Proof.
  intros Hv Herr Hm Hok.
  rewrite validate_sections in Hv. rewrite validate_sections.
  rewrite (@lookup_setitem_neq _ "meta" "models") by discriminate.
  rewrite (@lookup_setitem_neq _ "auth" "models") by discriminate.
  rewrite (@lookup_setitem_neq _ "api" "models") by discriminate.
  rewrite lookup_setitem_eq.
  rewrite Hm in Hv.
  destruct (match lookup "meta" d with
            | Some meta => _validate_meta meta
            | None => Ok []
            end) as [em|]; [|discriminate].
  cbn [bind] in *.
  destruct (@models_errors_normalized _ Hok) as [Hsame Hok'].
  rewrite (@validate_models_dict models) in Hv by exact Hok.
  rewrite (@validate_models_dict (normalized_models models)) by exact Hok'.
  cbn [bind] in *.
  destruct (match lookup "auth" d with
            | Some auth => _validate_auth auth
            | None => Ok []
            end) as [ea|]; [|discriminate].
  cbn [bind] in *.
  destruct (match lookup "api" d with
            | Some api => _validate_api api
            | None => Ok []
            end) as [eapi|]; [|discriminate].
  cbn [bind fst snd] in *. injection Hv as <-. cbn [errors] in Herr.
  eexists. split; [reflexivity|]. cbn [errors].
  rewrite Hsame.
  unfold missing in *.
  rewrite has_key_setitem_eq.
  rewrite (@has_key_setitem_neq _ "meta" "models") by discriminate.
  assert (Hk : has_key "models" d = true) by (unfold has_key; now rewrite Hm).
  rewrite Hk in Herr. exact Herr.
Qed.

(** What [parse] returns for a document it accepts: the document with
    its models normalised. *)
Lemma parse_result (dsl_spec parsed : value) :
  DSLParser.parse dsl_spec = Ok parsed ->
  exists d m models,
    dsl_spec = VDict d
    /\ lookup "meta" d = Some (VDict m)
    /\ lookup "models" d = Some (VDict models)
    /\ forallb (fun kv => model_ok (snd kv)) models = true
    /\ parsed = VDict (setitem "models" (VDict (normalized_models models)) d).
Proof.
  unfold DSLParser.parse.
  destruct (DSLParser.validate dsl_spec) as [r|] eqn:Hv; [|discriminate].
  cbn [bind]. destruct (DSLParser.valid r) eqn:Hvalid; cbn [negb];
    [|discriminate].
  intros Hn.
  destruct (@validate_accepts _ _ Hv Hvalid)
    as (d & m & models & -> & Hmeta & _ & _ & _ & Hm & Hok & _ & Herr).
  assert (Hk : has_key "meta" d = true) by (unfold has_key; now rewrite Hmeta).
  rewrite (@normalize_spec_with_meta _ Hk) in Hn.
  cbn [py_get] in Hn. unfold has_key in Hn. rewrite Hm in Hn.
  cbn [py_items bind] in Hn.
  rewrite (@normalize_models_dicts _ Hok) in Hn. cbn [bind] in Hn.
  injection Hn as <-.
  exists d, m, models. repeat split; assumption.
Qed.

Lemma parse_twice (dsl_spec parsed : value) :
  DSLParser.parse dsl_spec = Ok parsed ->
  DSLParser.parse parsed = Ok parsed.
Proof.
  unfold DSLParser.parse at 1.
  destruct (DSLParser.validate dsl_spec) as [r|] eqn:Hv; [|discriminate].
  cbn [bind]. destruct (DSLParser.valid r) eqn:Hvalid; cbn [negb];
    [|discriminate].
  intros Hn.
  destruct (@validate_accepts _ _ Hv Hvalid)
    as (d & m & models & -> & Hmeta & _ & _ & _ & Hm & Hok & _ & Herr).
  assert (Hk : has_key "meta" d = true) by (unfold has_key; now rewrite Hmeta).
  pose proof Hn as Hn'.
  rewrite (@normalize_spec_with_meta _ Hk) in Hn'.
  cbn [py_get] in Hn'. unfold has_key in Hn'. rewrite Hm in Hn'.
  cbn [py_items bind] in Hn'.
  rewrite (@normalize_models_dicts _ Hok) in Hn'. cbn [bind] in Hn'.
  injection Hn' as <-.
  destruct (@validate_normalized _ _ _ Hv Herr Hm Hok) as (r' & Hv' & Herr').
  unfold DSLParser.parse. rewrite Hv'. cbn [bind].
  assert (Hvalid' : DSLParser.valid r' = true).
  { revert Hv' Herr'. rewrite validate_sections.
    repeat match goal with
           | |- context [bind ?x _] =>
               destruct x; cbn [bind]; [|discriminate]
           end.
    intros [= <-]. cbn. now intros ->. }
  rewrite Hvalid'. cbn [negb].
  apply (@normalize_spec_twice (VDict d)). exact Hn.
Qed.

(** The shape of what [parse] returns: a dictionary with a [meta]
    dictionary that has the three required keys, and [models] that are
    dictionaries with a [fields] dictionary of dictionaries. *)
Lemma parse_shape (dsl_spec parsed : value) :
  DSLParser.parse dsl_spec = Ok parsed ->
  exists d m models,
    parsed = VDict d
    /\ lookup "meta" d = Some (VDict m)
    /\ has_key "name" m = true /\ has_key "version" m = true
    /\ has_key "framework" m = true
    /\ lookup "models" d = Some (VDict models)
    /\ forallb (fun kv => model_ok (snd kv)) models = true
    /\ forallb (fun kv => DslErrors.has_fields (snd kv)) models = true.
Proof.
  intros H. apply parse_twice in H. unfold DSLParser.parse in H.
  destruct (DSLParser.validate parsed) as [r|] eqn:Hv; [|discriminate].
  cbn [bind] in H. destruct (DSLParser.valid r) eqn:Hvalid; [|discriminate].
  destruct (@validate_accepts _ _ Hv Hvalid)
    as (d & m & models & -> & Hmeta & H1 & H2 & H3 & Hm & Hok & Hfs & _).
  exists d, m, models. repeat split; assumption.
Qed.

End ParseTwice.

(** [parse] is idempotent: whatever the input, when [parse] returns a
    document, that document is accepted by [validate] and [parse] returns
    it unchanged. *)
Theorem parse_idempotent (dsl_spec parsed : value) :
  DSLParser.parse dsl_spec = Ok parsed ->
  DSLParser.parse parsed = Ok parsed.
Proof. apply parse_twice. Qed.

Lemma parse_idempotent_witness :
  DSLParser.parse Examples.scenario_B = Ok Examples.normalized_scenario_B
  /\ DSLParser.parse Examples.normalized_scenario_B
     = Ok Examples.normalized_scenario_B.
Proof.
  split; [reflexivity|].
  apply (@parse_idempotent Examples.scenario_B). reflexivity.
Defined.

(** ** What [validate] reads, and what it accepts as a name *)

Section ValidateReads.

Import DSLParser Shape Names.

Lemma validate_meta_non_string_name m v :
  lookup "name" m = Some v -> is_string v = false ->
  _validate_meta (VDict m) = Raise TypeError.
Proof.
  intros Hn Hv. unfold _validate_meta.
  cbn [for_each py_contains bind]. unfold has_key, py_getitem. rewrite Hn.
  destruct (lookup "framework" m); cbn [bind];
    destruct v; try discriminate; reflexivity.
Qed.







End ValidateReads.

(** [validate] reads four sections only: two documents that agree on
    [meta], [models], [auth] and [api] get the same result (or raise the
    same exception), whatever else they hold ([jobs], [deployment], ...) and
    in whatever order. *)
Theorem validate_reads_four_sections (d1 d2 : list (string * value)) :
  (forall k, In k ["meta"; "models"; "auth"; "api"] ->
             lookup k d1 = lookup k d2) ->
  DSLParser.validate (VDict d1) = DSLParser.validate (VDict d2).
Proof.
  intros H. rewrite !validate_sections. unfold Shape.missing, has_key.
  rewrite (H "meta"), (H "models"), (H "auth"), (H "api") by (cbn; auto).
  reflexivity.
Qed.

Lemma validate_reads_four_sections_witness :
  DSLParser.validate (VDict Examples.scenario_B_document)
  = DSLParser.validate (VDict Examples2.scenario_B_with_jobs).
Proof.
  apply validate_reads_four_sections.
  intros k [<-|[<-|[<-|[<-|[]]]]]; reflexivity.
Defined.

(** A [meta.name] that is not a string makes [validate] raise
    [TypeError] ([re.match] refuses it): no result is returned. *)
Theorem validate_raises_on_non_string_name
  (d m : list (string * value)) (v : value) :
  lookup "meta" d = Some (VDict m) ->
  lookup "name" m = Some v ->
  Shape.is_string v = false ->
  DSLParser.validate (VDict d) = Raise TypeError
  /\ DSLParser.parse (VDict d) = Raise TypeError.
Proof.
  intros Hm Hn Hv.
  assert (H : DSLParser.validate (VDict d) = Raise TypeError).
  { rewrite validate_sections, Hm.
    now rewrite (@validate_meta_non_string_name _ _ Hn Hv). }
  split; [exact H|]. unfold DSLParser.parse. now rewrite H.
Qed.

Lemma validate_raises_on_non_string_name_witness :
  DSLParser.validate (VDict Examples2.numbered_document) = Raise TypeError
  /\ DSLParser.parse (VDict Examples2.numbered_document) = Raise TypeError.
Proof.
  apply (@validate_raises_on_non_string_name
           Examples2.numbered_document Examples2.numbered_meta (VInt 5));
    reflexivity.
Defined.





(** ** [BaseGenerator.validate_dsl] on dictionaries *)

Section ValidateDsl.

Import BaseGenerator DslErrors.

Lemma gfor_each_models models :
  forall st,
  gfor_each models
    (fun md =>
       let '(model_name, model_def) := md in
       if negb (is_dict model_def) then
         add_error ("Model " ++ model_name ++ " definition must be a dictionary")
       else
         has_fields <~ lift (py_contains "fields" model_def) ;;
         gwhen (negb has_fields)
               (add_error ("Model " ++ model_name
                             ++ " is missing fields definition"))) st
  = (Ok tt, with_errors (validation_errors st
                         ++ flat_map model_entry_errors models)%list st).
Proof.
  induction models as [|[name def] models IH]; intros st.
  - cbn. rewrite app_nil_r. now destruct st.
  - cbn [gfor_each flat_map]. unfold gbind at 1.
    destruct def as [| | | | |m]; cbn [is_dict negb];
      try (unfold add_error at 1; rewrite IH; cbn;
           unfold with_errors; cbn; now rewrite <- app_assoc).
    unfold gbind at 1, lift. cbn [py_contains].
    unfold model_entry_errors at 1. cbn [fst snd].
    destruct (has_key "fields" m); cbn [negb gwhen].
    + unfold gret. rewrite IH. reflexivity.
    + unfold add_error at 1. rewrite IH. cbn.
      unfold with_errors; cbn; now rewrite <- app_assoc.
Qed.

Ltac gstep :=
  first
    [ rewrite gfor_each_models
    | unfold gbind at 1 ];
  cbn [set_validation_errors lift py_contains py_getitem py_items gfor_each
       gwhen negb add_error gret get_validation_errors fst snd is_dict
       validation_errors security_checks_passed app with_errors].

(** The closed form of [validate_dsl] on a dictionary: it returns, the
    error list of the object is the one of this call, and the other
    attribute is not touched. *)
Lemma validate_dsl_dict d st :
  validate_dsl (VDict d) st
  = (Ok (Nat.eqb (List.length (dsl_errors d)) 0),
     with_errors (dsl_errors d) st).
Proof.
  unfold validate_dsl, dsl_errors, required_errors, meta_section_errors,
    models_section_errors, missing_key, with_errors.
  assert (Hk : forall k, has_key k d
               = match lookup k d with Some _ => true | None => false end)
    by reflexivity.
  destruct (lookup "meta" d) as [[| | | | |meta]|] eqn:Lmeta;
    destruct (lookup "models" d) as [[| | | | |models]|] eqn:Lmodels;
    rewrite (Hk "meta"), (Hk "models"), ?Lmeta, ?Lmodels;
    repeat (gstep; rewrite ?Hk, ?Lmeta, ?Lmodels);
    try reflexivity.
  all: repeat match goal with
         | |- context [has_key ?k ?m] => destruct (has_key k m)
         end; cbn [negb gwhen add_error gret validation_errors
                   security_checks_passed app];
       repeat (gstep; rewrite ?Hk, ?Lmeta, ?Lmodels);
       rewrite <- ?app_assoc; try reflexivity.
Qed.

Lemma missing_key_nil what k d :
  missing_key what k d = [] <-> has_key k d = true.
Proof.
  unfold missing_key. destruct (has_key k d); split; congruence.
Qed.

Lemma model_entries_nil models :
  flat_map model_entry_errors models = []
  <-> forallb (fun md => has_fields (snd md)) models = true.
Proof.
  induction models as [|[name def] models IH]; [split; reflexivity|].
  cbn [flat_map forallb snd]. unfold model_entry_errors at 1. cbn [fst snd].
  unfold has_fields at 1.
  destruct def as [| | | | |m]; try (split; discriminate).
  destruct (has_key "fields" m); [exact IH | split; discriminate].
Qed.

(** No error is recorded exactly for the accepted documents. *)
Lemma dsl_errors_nil d : dsl_errors d = [] <-> accepted d = true.
Proof.
  unfold dsl_errors, required_errors, meta_section_errors,
    models_section_errors, accepted.
  assert (Hk : forall k, has_key k d
               = match lookup k d with Some _ => true | None => false end)
    by reflexivity.
  unfold missing_key at 1 2. rewrite (Hk "meta"), (Hk "models").
  destruct (lookup "meta" d) as [[| | | | |meta]|];
    destruct (lookup "models" d) as [[| | | | |models]|];
    cbn [app]; try (split; discriminate);
    try (split; [intros H; apply app_eq_nil in H as [_ H]; discriminate
                | discriminate]).
  unfold missing_key.
  destruct (has_key "name" meta), (has_key "version" meta),
    (has_key "framework" meta); cbn [app andb];
    try (split; discriminate). apply model_entries_nil.
Qed.

End ValidateDsl.

(** [validate_dsl] never raises on a dictionary, whatever its sections
    are: it returns a boolean, which is true exactly when the call has
    recorded no error; the errors it records do not depend on the ones of
    earlier calls (the list is reset), and [security_checks_passed] is
    left as it was. *)
Theorem validate_dsl_returns_on_dictionaries
  (d : list (string * value)) (st : BaseGenerator.gen_state) :
  let after := snd (BaseGenerator.validate_dsl (VDict d) st) in
  exists b,
    fst (BaseGenerator.validate_dsl (VDict d) st) = Ok b
    /\ (b = true <-> BaseGenerator.validation_errors after = [])
    /\ BaseGenerator.security_checks_passed after
       = BaseGenerator.security_checks_passed st
    /\ forall st',
         BaseGenerator.validation_errors
           (snd (BaseGenerator.validate_dsl (VDict d) st'))
         = BaseGenerator.validation_errors after.
Proof.
  cbv zeta. rewrite validate_dsl_dict. cbn [fst snd].
  eexists. split; [reflexivity|]. split; [|split].
  - cbn. rewrite Nat.eqb_eq. apply length_zero_iff_nil.
  - reflexivity.
  - intros st'. rewrite validate_dsl_dict. reflexivity.
Qed.

(** What [validate_dsl] accepts: the dictionaries with a [meta] dictionary
    holding [name], [version] and [framework], and a [models] dictionary
    all of whose values are dictionaries with a [fields] key.  Nothing
    else is looked at (field definitions, [auth], [api]). *)
Theorem validate_dsl_accepts_exactly
  (d : list (string * value)) (st : BaseGenerator.gen_state) :
  fst (BaseGenerator.validate_dsl (VDict d) st) = Ok (DslErrors.accepted d).
Proof.
  rewrite validate_dsl_dict. cbn [fst]. f_equal.
  destruct (DslErrors.accepted d) eqn:E.
  - apply dsl_errors_nil in E. now rewrite E.
  - destruct (DslErrors.dsl_errors d) eqn:E'; [|reflexivity].
    apply dsl_errors_nil in E'. congruence.
Qed.

(** ** The checks of the generator after the parser *)

Section ChecksAfterParse.

Import BaseGenerator DslErrors.



End ChecksAfterParse.

(** A document that [DSLParser.parse] has returned always passes
    [BaseGenerator.validate_dsl]: the generator's own validation never
    refuses what the parser has accepted. *)
Theorem parse_output_passes_validate_dsl
  (dsl_spec parsed : value) (st : BaseGenerator.gen_state) :
  DSLParser.parse dsl_spec = Ok parsed ->
  fst (BaseGenerator.validate_dsl parsed st) = Ok true.
Proof.
  intros H.
  destruct (@parse_shape _ _ H)
    as (d & m & models & -> & Hmeta & H1 & H2 & H3 & Hm & _ & Hfs).
  rewrite validate_dsl_dict. cbn [fst]. f_equal.
  assert (E : DslErrors.dsl_errors d = []).
  { apply dsl_errors_nil. unfold DslErrors.accepted.
    now rewrite Hmeta, Hm, H1, H2, H3, Hfs. }
  now rewrite E.
Qed.

Lemma parse_output_passes_validate_dsl_witness :
  DSLParser.parse Examples.scenario_B = Ok Examples.normalized_scenario_B
  /\ fst (BaseGenerator.validate_dsl Examples.normalized_scenario_B
            BaseGenerator.init_state) = Ok true.
Proof.
  split; [reflexivity|].
  apply (@parse_output_passes_validate_dsl Examples.scenario_B). reflexivity.
Defined.

(** [perform_security_checks] only ever sets [security_checks_passed]:
    a scan that refuses a document (or raises) leaves the attribute as it
    was, so after one accepted document it stays true for every later
    one.  [validation_errors] is not touched. *)
Theorem security_flag_is_never_cleared
  (dsl_spec : value) (st : BaseGenerator.gen_state) :
  let outcome := BaseGenerator.perform_security_checks dsl_spec st in
  BaseGenerator.security_checks_passed (snd outcome)
  = (BaseGenerator.security_checks_passed st
     || match fst outcome with Ok true => true | _ => false end)
  /\ BaseGenerator.validation_errors (snd outcome)
     = BaseGenerator.validation_errors st.
Proof.
  cbv zeta. unfold BaseGenerator.perform_security_checks.
  destruct (existsb _ BaseGenerator.dangerous_patterns).
  { cbn. now rewrite orb_false_r. }
  unfold BaseGenerator.gbind, BaseGenerator.lift, BaseGenerator.gret.
  destruct (py_contains "models" dsl_spec) as [[|]|]; cbn [fst snd];
    try (now rewrite orb_false_r).
  - destruct (bind (py_getitem dsl_spec "models") _) as [[|]|]; cbn;
      rewrite ?orb_false_r, ?orb_true_r; split; reflexivity.
  - cbn. now rewrite orb_true_r.
Qed.

(** ** The Django generator on what the parser returns *)

Section DjangoAfterParse.

Import BaseGenerator DjangoGenerator.

Lemma meta_get_dict d m key default :
  lookup "meta" d = Some (VDict m) ->
  meta_get (VDict d) key default
  = Ok (match lookup key m with Some v => v | None => default end).
Proof.
  intros H. unfold meta_get. cbn [py_get]. rewrite H. cbn [bind py_get].
  now destruct (lookup key m).
Qed.

Lemma for_each_returns {A S : Type} (l : list A)
  (body : A -> S -> result S) :
  (forall a, In a l -> forall s, exists s', body a s = Ok s') ->
  forall s, exists s', for_each l body s = Ok s'.
Proof.
  induction l as [|a l IH]; intros Hb s.
  - eexists. reflexivity.
  - cbn [for_each]. destruct (Hb a (or_introl eq_refl) s) as [s1 ->].
    rewrite bind_ok. apply IH. intros a' Hin. apply Hb. now right.
Qed.

Lemma model_ok_in (models : list (string * value)) md :
  forallb (fun kv => Shape.model_ok (snd kv)) models = true ->
  In md models -> Shape.model_ok (snd md) = true.
Proof.
  intros H Hin. rewrite forallb_forall in H. now apply H.
Qed.






End DjangoAfterParse.

Section DjangoPipeline.

Import BaseGenerator DjangoGenerator.


End DjangoPipeline.



(** ** The Go and Rails generators on what the parser returns *)

Section GoRailsAfterParse.

Lemma keys_setitem {A : Type} k (v : A) d :
  keys (setitem k v d) = if has_key k d then keys d else (keys d ++ [k])%list.
Proof.
  unfold keys, has_key.
  induction d as [|[k0 v0] d IH]; cbn; [reflexivity|].
  destruct (String.eqb k k0) eqn:E; cbn; [reflexivity|].
  rewrite IH. now destruct (lookup k d).
Qed.

Lemma has_key_in_keys {A : Type} k (d : list (string * A)) :
  has_key k d = true <-> In k (keys d).
Proof.
  unfold keys, has_key.
  induction d as [|[k0 v0] d IH]; cbn; [split; [discriminate | contradiction]|].
  destruct (String.eqb k k0) eqn:E.
  - apply String.eqb_eq in E. subst. split; auto.
  - rewrite IH. apply String.eqb_neq in E. split; [auto|].
    intros [H|H]; [congruence | assumption].
Qed.

(** A loop that keeps a property of its state. *)
Lemma for_each_keeps {A S : Type} (P : S -> Prop) (l : list A)
  (body : A -> S -> result S) :
  (forall a s, P s -> exists s', body a s = Ok s' /\ P s') ->
  forall s, P s -> exists s', for_each l body s = Ok s' /\ P s'.
Proof.
  intros Hb. induction l as [|a l IH]; intros s Hs.
  - exists s. now split.
  - cbn [for_each]. destruct (Hb a s Hs) as (s1 & -> & Hs1).
    rewrite bind_ok. now apply IH.
Qed.

(** The loops that extend [README.md]: the file is there, and the paths
    of the file map stay as they are. *)
Ltac readme_step Hin :=
  let H := fresh "H" in
  apply has_key_in_keys in Hin; pose proof Hin as H; unfold has_key in H;
  match goal with
  | |- context [lookup "README.md" ?fs] =>
      destruct (lookup "README.md" fs); [|discriminate H]
  end;
  eexists; split; [reflexivity|]; rewrite keys_setitem, Hin.

Lemma in_keys_setitem {A : Type} p k (v : A) d :
  In p (keys (setitem k v d)) <-> k = p \/ In p (keys d).
Proof.
  rewrite keys_setitem. destruct (has_key k d) eqn:E.
  - apply has_key_in_keys in E. split; [auto|]. intros [<-|H]; assumption.
  - rewrite in_app_iff. cbn. split; [intros [H|[H|[]]]; auto|].
    intros [<-|H]; auto.
Qed.

(** A loop with an invariant over the items already seen. *)
Lemma for_each_seen {A S : Type} (P : list A -> S -> Prop) (l : list A)
  (body : A -> S -> result S) :
  (forall seen a s, In a l -> P seen s ->
     exists s', body a s = Ok s' /\ P (seen ++ [a])%list s') ->
  forall seen s, P seen s ->
    exists s', for_each l body s = Ok s' /\ P (seen ++ l)%list s'.
Proof.
  induction l as [|a l IH]; intros Hb seen s Hs.
  - exists s. rewrite app_nil_r. now split.
  - cbn [for_each].
    destruct (Hb seen a s (or_introl eq_refl) Hs) as (s1 & -> & Hs1).
    rewrite bind_ok.
    destruct (IH (fun seen a s H => Hb seen a s (or_intror H)) _ _ Hs1)
      as (s2 & H2 & Hs2).
    exists s2. split; [exact H2|]. now rewrite <- app_assoc in Hs2.
Qed.

Lemma go_structs_return models :
  forallb (fun kv => Shape.model_ok (snd kv)) models = true ->
  forall code, exists code',
    for_each models GoGenerator.model_struct code = Ok code'.
Proof.
  intros Hok. apply for_each_returns. intros [name def] Hin code.
  pose proof (@model_ok_in _ _ Hok Hin) as Hd. cbn [snd] in Hd.
  destruct def as [| | | | |md]; try discriminate.
  unfold Shape.model_ok, Shape.entry_ok in Hd.
  unfold GoGenerator.model_struct. cbn [py_get].
  destruct (lookup "fields" md) as [fv|]; rewrite bind_ok.
  - destruct fv as [| | | | |fields]; try discriminate. cbn in Hd.
    cbn [py_items]. rewrite bind_ok.
    match goal with
    | |- context [for_each fields ?body ?c] =>
        assert (Hf : exists c', for_each fields body c = Ok c')
    end.
    { apply for_each_returns. intros [fname fdef] Hfin c0.
      rewrite forallb_forall in Hd. specialize (Hd _ Hfin). cbn [snd] in Hd.
      destruct fdef; try discriminate. cbn [py_get].
      destruct (lookup "type" d); rewrite bind_ok; eexists; reflexivity. }
    destruct Hf as [c' ->]. rewrite bind_ok. eexists. reflexivity.
  - cbn [py_items for_each]. rewrite !bind_ok. eexists. reflexivity.
Qed.

Lemma go_generate_returns d m models :
  lookup "meta" d = Some (VDict m) ->
  lookup "models" d = Some (VDict models) ->
  forallb (fun kv => Shape.model_ok (snd kv)) models = true ->
  exists files,
    GoGenerator.generate (VDict d) = Ok files
    /\ keys files
       = ["go.mod"; "main.go"; "database/database.go"; "models/models.go";
          "handlers/handlers.go"; "routes/routes.go"; "Dockerfile";
          "docker-compose.yml"; "README.md"; ".gitignore"].
Proof.
  intros Hmeta Hm Hok. unfold GoGenerator.generate.
  cbn [py_get]. rewrite Hmeta, Hm. rewrite bind_ok.
  assert (Hp : exists p, py_get (VDict m) "name" (VStr "go_app") = Ok p)
    by (cbn [py_get]; destruct (lookup "name" m); eauto).
  destruct Hp as [p ->]. rewrite !bind_ok. cbv zeta.
  cbn [py_keys py_items]. rewrite !bind_ok.
  match goal with
  | |- context [for_each models GoGenerator.model_struct ?c] =>
      destruct (@go_structs_return _ Hok c) as [mc ->]
  end.
  rewrite !bind_ok.
  cbn [setitem String.eqb Ascii.eqb Bool.eqb].
  match goal with
  | |- context [for_each (keys models) ?body ?files] =>
      assert (Hr : exists files',
                 for_each (keys models) body files = Ok files'
                 /\ keys files'
                    = ["go.mod"; "main.go"; "database/database.go";
                       "models/models.go"; "handlers/handlers.go";
                       "routes/routes.go"; "Dockerfile";
                       "docker-compose.yml"; "README.md"])
  end.
  { apply (@for_each_keeps _ _
             (fun fs : list (string * string) =>
                keys fs
                = ["go.mod"; "main.go"; "database/database.go";
                   "models/models.go"; "handlers/handlers.go";
                   "routes/routes.go"; "Dockerfile";
                   "docker-compose.yml"; "README.md"])).
    - intros name fs Hfs. cbv zeta.
      assert (Hin : In "README.md" (keys fs)) by (rewrite Hfs; cbn; tauto).
      readme_step Hin. exact Hfs.
    - reflexivity. }
  destruct Hr as (files' & -> & Hk).
  - rewrite bind_ok. eexists. split; [reflexivity|].
    rewrite keys_setitem.
    assert (Hno : has_key ".gitignore" files' = false).
    { destruct (has_key ".gitignore" files') eqn:E; [|reflexivity].
      apply has_key_in_keys in E. rewrite Hk in E. cbn in E.
      repeat destruct E as [E|E]; try discriminate; contradiction. }
    now rewrite Hno, Hk.
Qed.

Lemma rails_model_files_step models seen md files :
  forallb (fun kv => Shape.model_ok (snd kv)) models = true ->
  In md models ->
  (forall p, In p (keys files)
             <-> In p ["Gemfile"; "config/database.yml"; "config/routes.rb"]
                 \/ exists name, In name (keys seen)
                      /\ (p = Paths.rails_model name
                          \/ p = Paths.rails_controller name)) ->
  exists files',
    RailsGenerator.model_files md files = Ok files'
    /\ (forall p, In p (keys files')
                  <-> In p ["Gemfile"; "config/database.yml"; "config/routes.rb"]
                      \/ exists name, In name (keys (seen ++ [md]))
                           /\ (p = Paths.rails_model name
                               \/ p = Paths.rails_controller name)).
Proof.
  intros Hok Hin Hk. destruct md as [name def].
  pose proof (@model_ok_in _ _ Hok Hin) as Hd. cbn [snd] in Hd.
  destruct def as [| | | | |md]; try discriminate.
  unfold Shape.model_ok, Shape.entry_ok in Hd.
  unfold RailsGenerator.model_files. cbv zeta. cbn [py_get].
  assert (Hcase : exists items,
             (lookup "fields" md = Some (VDict items)
              \/ (lookup "fields" md = None /\ items = []))
             /\ forallb (fun kv => Shape.is_dict (snd kv)) items = true).
  { destruct (lookup "fields" md) as [fv|].
    - destruct fv as [| | | | |fields]; try discriminate.
      exists fields. split; [now left | exact Hd].
    - exists []. split; [now right | reflexivity]. }
  destruct Hcase as (items & Hcase & Hall).
  assert (E : (match lookup "fields" md with
               | Some v => Ok v
               | None => Ok (VDict [])
               end) = Ok (VDict items))
    by (destruct Hcase as [->|[-> ->]]; reflexivity).
  rewrite E, bind_ok. cbn [py_items]. rewrite bind_ok.
  match goal with
  | |- context [for_each items ?body ?c] =>
      assert (Hf : exists c', for_each items body c = Ok c')
  end.
  { apply for_each_returns. intros [fname fdef] Hfin c0.
    rewrite forallb_forall in Hall. specialize (Hall _ Hfin).
    cbn [snd] in Hall. destruct fdef; try discriminate. cbn [py_get].
    destruct (lookup "required" d) as [rq|]; rewrite bind_ok.
    - destruct (truthy rq); eexists; reflexivity.
    - cbn [truthy]. eexists. reflexivity. }
  destruct Hf as [c' ->]. rewrite bind_ok.
  eexists. split; [reflexivity|].
  intros p. rewrite !in_keys_setitem, Hk.
  unfold keys. rewrite map_app, <- !(fun l => eq_refl : keys l = map fst l).
  cbn [map fst].
  fold (Paths.rails_model name). fold (Paths.rails_controller name).
  split.
  - intros [<-|[<-|[H|(n & Hn & Hp)]]].
    + right. exists name. split; [apply in_or_app; right; now left | now right].
    + right. exists name. split; [apply in_or_app; right; now left | now left].
    + now left.
    + right. exists n. split; [apply in_or_app; now left | exact Hp].
  - intros [H|(n & Hn & Hp)]; [auto|].
    apply in_app_or in Hn as [Hn|[<-|[]]].
    + do 3 right. eauto.
    + destruct Hp as [->| ->]; auto.
Qed.

Lemma rails_generate_returns d m models :
  lookup "meta" d = Some (VDict m) ->
  lookup "models" d = Some (VDict models) ->
  forallb (fun kv => Shape.model_ok (snd kv)) models = true ->
  exists files,
    RailsGenerator.generate (VDict d) = Ok files
    /\ forall p, In p (keys files) <-> Paths.rails_paths (keys models) p.
Proof.
  intros Hmeta Hm Hok. unfold RailsGenerator.generate.
  cbn [py_get]. rewrite Hmeta, Hm. rewrite bind_ok.
  assert (Hp : exists p, py_get (VDict m) "name" (VStr "rails_app") = Ok p)
    by (cbn [py_get]; destruct (lookup "name" m); eauto).
  destruct Hp as [pn ->]. rewrite !bind_ok. cbv zeta.
  cbn [py_keys py_items]. rewrite !bind_ok.
  match goal with
  | |- context [for_each models RailsGenerator.model_files ?files] =>
      assert (Hl : exists files1,
                 for_each models RailsGenerator.model_files files = Ok files1
                 /\ forall p, In p (keys files1)
                      <-> In p ["Gemfile"; "config/database.yml";
                                "config/routes.rb"]
                          \/ exists name, In name (keys models)
                               /\ (p = Paths.rails_model name
                                   \/ p = Paths.rails_controller name))
  end.
  { apply (@for_each_seen _ _
             (fun seen fs =>
                forall p, In p (keys fs)
                  <-> In p ["Gemfile"; "config/database.yml";
                            "config/routes.rb"]
                      \/ exists name, In name (keys seen)
                           /\ (p = Paths.rails_model name
                               \/ p = Paths.rails_controller name))
             models RailsGenerator.model_files
             (fun seen md fs Hin H =>
                @rails_model_files_step models seen md fs Hok Hin H)
             []).
    intros p. cbn. split; [auto|]. intros [H|(n & [] & _)]. exact H. }
  destruct Hl as (files1 & -> & Hk1).
  rewrite !bind_ok.
  match goal with
  | |- context [for_each (keys models) ?body ?files] =>
      assert (Hr : exists files',
                 for_each (keys models) body files = Ok files'
                 /\ keys files' = keys files)
  end.
  { apply (@for_each_keeps _ _
             (fun fs : list (string * string) => keys fs = _)).
    - intros name fs Hfs. cbv zeta.
      assert (Hin : In "README.md" (keys fs)).
      { rewrite Hfs. apply in_keys_setitem. now left. }
      readme_step Hin. exact Hfs.
    - reflexivity. }
  destruct Hr as (files2 & -> & Hk2). rewrite bind_ok.
  eexists. split; [reflexivity|].
  intros p. rewrite in_keys_setitem, Hk2, !in_keys_setitem, Hk1.
  unfold Paths.rails_paths, Paths.rails_fixed. cbn [In]. tauto.
Qed.

End GoRailsAfterParse.

(** After [DSLParser.parse]: on a document that [parse] has returned, the
    Go generator returns a file map, and its paths are the ten paths of
    the project, whatever the models are. *)
Theorem go_generate_after_parse (dsl_spec parsed : value) :
  DSLParser.parse dsl_spec = Ok parsed ->
  exists files,
    GoGenerator.generate parsed = Ok files /\ keys files = Paths.go.
Proof.
  intros H.
  destruct (@parse_shape _ _ H)
    as (d & m & models & -> & Hmeta & _ & _ & _ & Hm & Hok & _).
  exact (@go_generate_returns d m models Hmeta Hm Hok).
Qed.

Lemma go_generate_after_parse_witness :
  DSLParser.parse Examples.scenario_B = Ok Examples.normalized_scenario_B
  /\ exists files,
       GoGenerator.generate Examples.normalized_scenario_B = Ok files
       /\ keys files = Paths.go.
Proof.
  split; [reflexivity|].
  apply (@go_generate_after_parse Examples.scenario_B). reflexivity.
Defined.

(** After [DSLParser.parse]: on a document that [parse] has returned, the
    Rails generator returns a file map; its paths are the seven fixed
    paths and, for every model, the model file and the controller file
    named after the lowercased model name, and no other. *)
Theorem rails_generate_after_parse (dsl_spec parsed : value) :
  DSLParser.parse dsl_spec = Ok parsed ->
  exists d models files,
    parsed = VDict d
    /\ lookup "models" d = Some (VDict models)
    /\ RailsGenerator.generate parsed = Ok files
    /\ forall p, In p (keys files) <-> Paths.rails_paths (keys models) p.
Proof.
  intros H.
  destruct (@parse_shape _ _ H)
    as (d & m & models & -> & Hmeta & _ & _ & _ & Hm & Hok & _).
  destruct (@rails_generate_returns d m models Hmeta Hm Hok) as (files & Hg & Hk).
  exists d, models, files. auto.
Qed.

Lemma rails_generate_after_parse_witness :
  DSLParser.parse Examples.scenario_B = Ok Examples.normalized_scenario_B
  /\ exists d models files,
       Examples.normalized_scenario_B = VDict d
       /\ lookup "models" d = Some (VDict models)
       /\ RailsGenerator.generate Examples.normalized_scenario_B = Ok files
       /\ forall p, In p (keys files) <-> Paths.rails_paths (keys models) p.
Proof.
  split; [reflexivity|].
  apply (@rails_generate_after_parse Examples.scenario_B). reflexivity.
Defined.

(** ** [compute_hash]: the form of the digest *)

Section HashForm.

Import SHA256.

Local Open Scope Z_scope.











Lemma length_append (s1 s2 : string) :
  String.length (s1 ++ s2) = (String.length s1 + String.length s2)%nat.
Proof. induction s1; cbn; [reflexivity | now rewrite IHs1]. Qed.



End HashForm.


(** ** The template filters: [_to_snake_case], [_to_camel_case],
       [_pluralize] *)

Section Filters.

Import DjangoGenerator DjangoFilters.

Lemma split_not_nil sep s : split sep s <> [].
Proof.
  destruct s as [|c s]; cbn; [discriminate|].
  destruct (Ascii.eqb c sep); [discriminate|].
  destruct (split sep s); discriminate.
Qed.

Lemma camel_from_split s : forall prev,
  match split (chr 95) s with
  | piece :: rest =>
      GoGenerator.title_from prev piece ++ concat_map GoGenerator.title rest
  | [] => EmptyString
  end = camel_from prev s.
Proof.
  induction s as [|c s IH]; intros prev; [reflexivity|].
  cbn [split camel_from].
  destruct (Ascii.eqb c (chr 95)) eqn:E.
  - cbn [GoGenerator.title_from append concat_map].
    specialize (IH false).
    destruct (split (chr 95) s) as [|p r] eqn:Es;
      [now apply split_not_nil in Es|].
    cbn [concat_map]. exact IH.
  - specialize (IH (GoGenerator.is_cased c)).
    destruct (split (chr 95) s) as [|p r] eqn:Es;
      [now apply split_not_nil in Es|].
    cbn [GoGenerator.title_from]. rewrite append_assoc. now rewrite IH.
Qed.

Lemma to_camel_case_from s : _to_camel_case s = camel_from false s.
Proof.
  unfold _to_camel_case. cbv zeta. rewrite <- camel_from_split.
  destruct (split (chr 95) s) as [|p r] eqn:Es;
    [now apply split_not_nil in Es|].
  reflexivity.
Qed.

(** Facts on single characters, checked on the 256 code points. *)
Lemma upper_facts c :
  is_upper_az c = true ->
  GoGenerator.title_char (lower_char c) = String c EmptyString
  /\ GoGenerator.is_cased (lower_char c) = true
  /\ Ascii.eqb (lower_char c) (chr 95) = false
  /\ is_lower_az (lower_char c) = true
  /\ is_lower_az c = false.
Proof.
  destruct c as [[] [] [] [] [] [] [] []]; try discriminate;
    intros _; repeat split; reflexivity.
Qed.

Lemma lower_facts c :
  is_lower_az c = true ->
  lower_char c = c
  /\ GoGenerator.is_cased c = true
  /\ Ascii.eqb c (chr 95) = false
  /\ is_upper_az c = false
  /\ (exists C, GoGenerator.title_char c = String C EmptyString
                /\ is_upper_az C = true /\ lower_char C = c).
Proof.
  destruct c as [[] [] [] [] [] [] [] []]; try discriminate;
    intros _; repeat split; try reflexivity;
    eexists; repeat split; reflexivity.
Qed.

Lemma camel_of_snake_rest rest :
  Names.string_forallb is_letter_az rest = true ->
  camel_from true (lower (insert_underscores rest)) = rest.
Proof.
  induction rest as [|a r IH]; [reflexivity|].
  cbn [Names.string_forallb]. intros H. apply andb_prop in H as [Ha Hr].
  specialize (IH Hr). cbn [insert_underscores].
  unfold is_letter_az in Ha. destruct (is_upper_az a) eqn:Hu.
  - destruct (upper_facts _ Hu) as (Ht & Hc & He & _ & _).
    cbn [lower camel_from]. rewrite He.
    replace (Ascii.eqb (lower_char (chr 95)) (chr 95)) with true by reflexivity.
    rewrite Ht, Hc, IH. reflexivity.
  - cbn in Ha. destruct (lower_facts _ Ha) as (Hl & Hc & He & _ & _).
    cbn [lower camel_from]. rewrite Hl, He, Hc, Hl, IH. reflexivity.
Qed.

Lemma snake_of_camel_rest s :
  (snake_from true s = true ->
   lower (insert_underscores (camel_from true s)) = s)
  /\ (snake_from false s = true ->
      lower (insert_underscores (camel_from false s))
      = String (chr 95) s).
Proof.
  induction s as [|c s [IH1 IH2]]; [split; [reflexivity | discriminate]|].
  cbn [snake_from camel_from].
  destruct (Ascii.eqb c (chr 95)) eqn:E.
  - apply Ascii.eqb_eq in E. subst c. split; [|discriminate].
    cbn [andb]. intros H. now rewrite (IH2 H).
  - split; intros H; apply andb_prop in H as [Hc H];
      destruct (lower_facts _ Hc) as (Hl & Hcased & _ & Hnu & C & Ht & HC & HlC).
    + rewrite Hcased, Hl. cbn [append insert_underscores]. rewrite Hnu.
      cbn [lower]. now rewrite Hl, (IH1 H).
    + rewrite Hcased, Ht. cbn [append insert_underscores]. rewrite HC.
      cbn [lower]. rewrite HlC, (IH1 H). reflexivity.
Qed.

Lemma lower_char_twice c : lower_char (lower_char c) = lower_char c.
Proof. destruct c as [[] [] [] [] [] [] [] []]; reflexivity. Qed.

Lemma lower_char_not_upper c : is_upper_az (lower_char c) = false.
Proof. destruct c as [[] [] [] [] [] [] [] []]; reflexivity. Qed.

Lemma lower_twice s : lower (lower s) = lower s.
Proof. induction s; cbn; [reflexivity | now rewrite lower_char_twice, IHs]. Qed.

Lemma insert_underscores_lower s : insert_underscores (lower s) = lower s.
Proof.
  induction s; cbn; [reflexivity|]. now rewrite lower_char_not_upper, IHs.
Qed.

Lemma ends_with_append c s : ends_with c (s ++ String c EmptyString) = true.
Proof.
  induction s as [|a s IH]; cbn; [apply Ascii.eqb_refl|].
  destruct (s ++ String c EmptyString) eqn:E; [|exact IH].
  destruct s; discriminate.
Qed.

Lemma ends_with_append2 c a b s :
  ends_with c (s ++ String a (String b EmptyString)) = Ascii.eqb b c.
Proof.
  induction s as [|x s IH]; [reflexivity|].
  cbn [append ends_with].
  destruct (s ++ String a (String b EmptyString)) eqn:E; [|exact IH].
  destruct s; discriminate.
Qed.

Lemma drop_last_length s :
  ends_with (chr 121) s = true ->
  S (String.length (drop_last s)) = String.length s.
Proof.
  induction s as [|a s IH]; [discriminate|].
  cbn [ends_with drop_last]. destruct s as [|b s]; [reflexivity|].
  intros H. cbn [String.length]. now rewrite (IH H).
Qed.

End Filters.

(** Round trip: a name made of a capital [A-Z] followed by letters
    [a-zA-Z] is given back by [_to_camel_case] from its snake-case
    form. *)
Theorem camel_of_snake_round_trip (s : string) :
  DjangoFilters.camel_name s = true ->
  DjangoFilters._to_camel_case (DjangoGenerator._to_snake_case s) = s.
Proof.
  rewrite to_camel_case_from. destruct s as [|c rest]; [reflexivity|].
  cbn [DjangoFilters.camel_name]. intros H. apply andb_prop in H as [Hc Hrest].
  unfold DjangoGenerator._to_snake_case. cbn [lower DjangoFilters.camel_from].
  destruct (upper_facts _ Hc) as (Ht & Hcased & He & _ & _).
  rewrite He, Ht, Hcased, (camel_of_snake_rest _ Hrest). reflexivity.
Qed.

Lemma camel_of_snake_round_trip_witness :
  DjangoFilters._to_camel_case (DjangoGenerator._to_snake_case "HTTPServerName")
  = "HTTPServerName".
Proof. apply camel_of_snake_round_trip. reflexivity. Defined.

(** Round trip: a name made of words of [a-z] joined by single
    underscores is given back by [_to_snake_case] from its camel-case
    form. *)
Theorem snake_of_camel_round_trip (s : string) :
  DjangoFilters.snake_name s = true ->
  DjangoGenerator._to_snake_case (DjangoFilters._to_camel_case s) = s.
Proof.
  rewrite to_camel_case_from. unfold DjangoFilters.snake_name.
  destruct s as [|c rest]; [discriminate|].
  cbn [DjangoFilters.snake_from DjangoFilters.camel_from].
  destruct (Ascii.eqb c (chr 95)); [discriminate|].
  intros H. apply andb_prop in H as [Hc H].
  destruct (lower_facts _ Hc) as (Hl & Hcased & _ & _ & C & Ht & HC & HlC).
  rewrite Ht, Hcased. cbn [append].
  unfold DjangoGenerator._to_snake_case. cbn [lower].
  now rewrite HlC, (proj1 (snake_of_camel_rest rest) H).
Qed.

Lemma snake_of_camel_round_trip_witness :
  DjangoGenerator._to_snake_case (DjangoFilters._to_camel_case "user_profile_id")
  = "user_profile_id".
Proof. apply snake_of_camel_round_trip. reflexivity. Defined.

(** [_to_snake_case] is idempotent, and its result holds no capital
    [A-Z]: the table and route names built from it are lowercase. *)
Theorem to_snake_case_idempotent (s : string) :
  DjangoGenerator._to_snake_case (DjangoGenerator._to_snake_case s)
  = DjangoGenerator._to_snake_case s
  /\ string_existsb is_upper_az (DjangoGenerator._to_snake_case s) = false.
Proof.
  unfold DjangoGenerator._to_snake_case. destruct s as [|c rest];
    [split; reflexivity|].
  set (t := String c (DjangoGenerator.insert_underscores rest)).
  split.
  - destruct (lower t) as [|c' r'] eqn:E; [reflexivity|].
    pose proof (insert_underscores_lower t) as H. rewrite E in H.
    cbn [DjangoGenerator.insert_underscores] in H.
    assert (Hc' : is_upper_az c' = false).
    { assert (Hx : String c' r' = lower (String c' r'))
        by (rewrite <- E; now rewrite lower_twice).
      cbn [lower] in Hx. injection Hx as Hx _. rewrite Hx.
      apply lower_char_not_upper. }
    rewrite Hc' in H. injection H as H. rewrite H.
    rewrite <- E. now rewrite lower_twice.
  - generalize t. intros u. induction u as [|a u IH]; [reflexivity|].
    cbn [lower string_existsb]. now rewrite lower_char_not_upper, IH.
Qed.

(** [_pluralize] always returns a longer name that ends with [s]. *)
Theorem pluralize_ends_with_s (singular : string) :
  DjangoFilters.ends_with (chr 115) (DjangoFilters._pluralize singular) = true
  /\ String.length singular
     < String.length (DjangoFilters._pluralize singular).
Proof.
  unfold DjangoFilters._pluralize.
  destruct (DjangoFilters.ends_with (chr 121) singular) eqn:Ey;
    [|destruct (DjangoFilters.ends_with (chr 115) singular)].
  - split.
    + change "ies" with (String (chr 105) (String (chr 101) "") ++ "s").
      rewrite <- append_assoc. apply ends_with_append.
    + rewrite length_append, <- (drop_last_length _ Ey). cbn. lia.
  - split.
    + change "es" with (String (chr 101) "" ++ "s").
      rewrite <- append_assoc. apply ends_with_append.
    + rewrite length_append. cbn. lia.
  - split; [apply ends_with_append|].
    rewrite length_append. cbn. lia.
Qed.

(** ** The synthetic [id] field in the generated models *)

Section SyntheticColumn.

Import DjangoGenerator DjangoText Shape.

Lemma generate_models_after_parse d m models :
  lookup "meta" d = Some (VDict m) ->
  lookup "models" d = Some (VDict models) ->
  forallb (fun kv => model_ok (snd kv)) models = true ->
  _generate_models_complete (VDict d)
  = Ok (models_header (project_name_of d) ++ concat_map model_text models).
Proof.
  intros Hmeta Hm Hok. unfold _generate_models_complete.
  rewrite (@meta_get_dict _ _ _ _ Hmeta), bind_ok. cbn [py_get]. rewrite Hm.
  rewrite bind_ok. cbv zeta. cbn [py_items]. rewrite bind_ok.
  rewrite (@model_classes_loop _ Hok).
  unfold project_name_of. rewrite Hmeta. reflexivity.
Qed.

Lemma normalized_model_text name m fields :
  lookup "fields" m = Some (VDict fields) ->
  has_primary_key fields = false -> has_key "id" fields = false ->
  model_text (name, normalized_model (VDict m))
  = class_head name m ++ id_column
      ++ concat_map declaration_of fields
      ++ "    id = models.CharField(max_length=255, blank=True)
"
      ++ class_tail name (fields ++ [("id", DSLParser.synthetic_id)]).
Proof.
  intros Hf Hpk Hid. unfold normalized_model, normalized_fields, model_text.
  rewrite Hf, Hpk, Hid. cbn [orb fst snd]. unfold fields_of.
  rewrite lookup_setitem_eq. rewrite concat_map_app.
  unfold class_head.
  rewrite (@lookup_setitem_neq _ "description" "fields") by discriminate.
  rewrite !append_assoc. reflexivity.
Qed.

End SyntheticColumn.

(** The synthetic [id] of the normaliser reaches the generated code: for a
    model that declares no primary key and no field named [id], the
    [models.py] generated from what [parse] returns declares [id] twice in
    the class of the model, first the hard-coded [UUIDField], then, after
    the declared fields, a [CharField] that stands for the synthetic
    field. *)
Theorem synthetic_id_is_emitted_as_char_field
  (d models m fields : list (string * value)) (name : string)
  (parsed : value) :
  DSLParser.parse (VDict d) = Ok parsed ->
  lookup "models" d = Some (VDict models) ->
  In (name, VDict m) models ->
  lookup "fields" m = Some (VDict fields) ->
  Shape.has_primary_key fields = false ->
  has_key "id" fields = false ->
  exists before after,
    DjangoGenerator._generate_models_complete parsed
    = Ok (before
          ++ (DjangoText.class_head name m ++ DjangoText.id_column
              ++ concat_map DjangoText.declaration_of fields
              ++ "    id = models.CharField(max_length=255, blank=True)
"
              ++ DjangoText.class_tail name
                   (fields ++ [("id", DSLParser.synthetic_id)]))
          ++ after).
Proof.
  intros Hp Hm Hin Hf Hpk Hid.
  destruct (@parse_result _ _ Hp)
    as (d0 & m0 & models0 & [= <-] & Hmeta & Hm0 & Hok & ->).
  rewrite Hm in Hm0. injection Hm0 as <-.
  destruct (@models_errors_normalized _ Hok) as [_ Hok'].
  rewrite (@generate_models_after_parse _ m0 (Shape.normalized_models models)).
  - apply in_split in Hin as (l1 & l2 & ->).
    unfold Shape.normalized_models. rewrite map_app. cbn [map fst snd].
    rewrite concat_map_app. cbn [concat_map].
    rewrite (@normalized_model_text name m fields Hf Hpk Hid).
    exists (DjangoGenerator.models_header
              (DjangoText.project_name_of
                 (setitem "models"
                    (VDict (map (fun md =>
                                   (fst md, Shape.normalized_model (snd md)))
                                (l1 ++ (name, VDict m) :: l2)))
                    d))
            ++ concat_map DjangoText.model_text
                 (map (fun md => (fst md, Shape.normalized_model (snd md))) l1)).
    exists (concat_map DjangoText.model_text
              (map (fun md => (fst md, Shape.normalized_model (snd md))) l2)).
    rewrite map_app. cbn [map fst snd]. rewrite !append_assoc. reflexivity.
  - now rewrite (@lookup_setitem_neq _ "meta" "models") by discriminate.
  - apply lookup_setitem_eq.
  - exact Hok'.
Qed.

Lemma synthetic_id_is_emitted_as_char_field_witness :
  exists before after,
    DjangoGenerator._generate_models_complete Examples.normalized_scenario_B
    = Ok (before
          ++ (DjangoText.class_head "Task" Examples.task_model
              ++ DjangoText.id_column
              ++ concat_map DjangoText.declaration_of Examples.task_fields
              ++ "    id = models.CharField(max_length=255, blank=True)
"
              ++ DjangoText.class_tail "Task"
                   (Examples.task_fields ++ [("id", DSLParser.synthetic_id)]))
          ++ after).
Proof.
  apply (@synthetic_id_is_emitted_as_char_field
           Examples.scenario_B_document Examples.task_models
           Examples.task_model Examples.task_fields "Task");
    try reflexivity.
  left. reflexivity.
Defined.

(** The store model against the function on values, on scenario B. *)
Lemma normalize_spec_refines_witness :
  exists a hfin v n,
    Heap._normalize_spec
      (fst (Heap.load (VDict Examples.scenario_B_document) []))
      (snd (Heap.load (VDict Examples.scenario_B_document) []))
    = Ok (Heap.RObj a, hfin)
    /\ Heap.RObj a <> fst (Heap.load (VDict Examples.scenario_B_document) [])
    /\ DSLParser._normalize_spec (VDict Examples.scenario_B_document) = Ok v
    /\ forall m, n <= m ->
         Heap.read m hfin (Heap.RObj a) = Some v
         /\ Heap.read m hfin
              (fst (Heap.load (VDict Examples.scenario_B_document) []))
            = Some (VDict (Shape.after_call Examples.scenario_B_document)).
Proof.
  apply (@normalize_spec_refines Examples.scenario_B_document []).
  reflexivity.
Defined.

(** ** What a preview announces and what is generated *)

Section Previews.




End Previews.

Section DjangoPreview.

Import BaseGenerator DjangoGenerator.



(** A dictionary that [validate_dsl] does not accept: [generate] and
    [preview] raise the error that lists all the errors of the document,
    joined by commas, whatever the state of the generator and whatever
    else the document holds; the security gate is not run. *)
Lemma django_reports_errors d st :
  DslErrors.accepted d = false ->
  let msg := "Invalid DSL specification: "
               ++ join ", " (DslErrors.dsl_errors d) in
  fst (generate (VDict d) st) = Raise (ValueError msg)
  /\ fst (preview (VDict d) st) = Raise (ValueError msg)
  /\ security_checks_passed (snd (generate (VDict d) st))
     = security_checks_passed st.
Proof.
  intros Hacc. cbv zeta.
  assert (Hne : Nat.eqb (List.length (DslErrors.dsl_errors d)) 0 = false).
  { destruct (DslErrors.dsl_errors d) eqn:E; [|reflexivity].
    apply dsl_errors_nil in E. congruence. }
  unfold generate, preview, check_spec, gbind.
  rewrite validate_dsl_dict, Hne. cbn. repeat split; reflexivity.
Qed.

End DjangoPreview.





(** A dictionary that [validate_dsl] does not accept: the Django
    [generate] and [preview] raise the error that lists every error of the
    document, joined by commas, whatever the state of the generator;
    the security gate is not run and its flag is left as it was. *)
Theorem django_reports_all_validation_errors
  (d : list (string * value)) (st : BaseGenerator.gen_state) :
  DslErrors.accepted d = false ->
  let msg := "Invalid DSL specification: "
               ++ join ", " (DslErrors.dsl_errors d) in
  fst (DjangoGenerator.generate (VDict d) st) = Raise (ValueError msg)
  /\ fst (DjangoGenerator.preview (VDict d) st) = Raise (ValueError msg)
  /\ BaseGenerator.security_checks_passed
       (snd (DjangoGenerator.generate (VDict d) st))
     = BaseGenerator.security_checks_passed st.
Proof. apply django_reports_errors. Qed.

Lemma django_reports_all_validation_errors_witness :
  fst (DjangoGenerator.generate Examples.no_meta BaseGenerator.init_state)
  = Raise (ValueError
             "Invalid DSL specification: Missing required field: meta")
  /\ fst (DjangoGenerator.preview Examples.no_meta BaseGenerator.init_state)
     = Raise (ValueError
                "Invalid DSL specification: Missing required field: meta")
  /\ BaseGenerator.security_checks_passed
       (snd (DjangoGenerator.generate Examples.no_meta BaseGenerator.init_state))
     = false.
Proof.
  apply (@django_reports_all_validation_errors
           [("models", VDict [("Item", VDict [("fields", VDict [])])])]
           BaseGenerator.init_state).
  reflexivity.
Defined.

(** ** Where [validate] raises *)

(** C3: on a document whose [meta] section is [None], [validate] raises
    [TypeError], where [validate_dsl] of the generators tests
    [isinstance(meta, dict)] and returns [False] with the error stored;
    on a field definition that is a number [validate] raises too, while
    a field definition that is a string (scenario D) is reported as a
    field without a type. *)
Theorem validate_raises_where_validate_dsl_reports :
  DSLParser.validate Examples3.null_meta = Raise TypeError
  /\ BaseGenerator.validate_dsl Examples3.null_meta BaseGenerator.init_state
     = (Ok false,
        {| BaseGenerator.validation_errors :=
             ["Missing required field: models";
              "Meta section must be a dictionary"];
           BaseGenerator.security_checks_passed := false |})
  /\ DSLParser.validate Examples.number_field = Raise TypeError
  /\ DSLParser.validate Examples3.string_field
     = Ok {| DSLParser.valid := false;
             DSLParser.errors :=
               ["Field 'password' in model 'Account' must have a 'type'"];
             DSLParser.warnings :=
               ["Model 'Account' has no primary key. An 'id' field will be auto-generated."] |}.
Proof. repeat split; vm_compute; reflexivity. Qed.

(** C7: a field of the unknown type [bogus] is reported with its value,
    its name and its model; when a field definition that is a number
    follows it in the same model, [validate] raises [TypeError] and
    reports nothing, on a document that [validate_dsl] accepts. *)
Theorem validate_raises_past_invalid_field_type :
  DSLParser.validate Examples3.bogus_only
  = Ok {| DSLParser.valid := false;
          DSLParser.errors :=
            ["Invalid field type 'bogus' for field 'b' in model 'Item'"];
          DSLParser.warnings :=
            ["Model 'Item' has no primary key. An 'id' field will be auto-generated."] |}
  /\ DSLParser.validate Examples3.bogus_then_number = Raise TypeError
  /\ fst (BaseGenerator.validate_dsl Examples3.bogus_then_number
            BaseGenerator.init_state) = Ok true.
Proof. repeat split; vm_compute; reflexivity. Qed.

(** ** The field types that [validate] reports *)

Section FieldTypeErrors.

Import DSLParser Shape.

(** An error that starts like the message for an unknown field type. *)
Local Notation type_error e := (String.prefix "Invalid field type" e = true).

(** The field definitions that the validator reports for their type. *)
Local Notation rejected mn fields e :=
  (exists field_name f ty,
      In (field_name, VDict f) fields
      /\ lookup "type" f = Some ty
      /\ in_strs ty field_types = false
      /\ e = invalid_type_msg ty field_name mn).

Lemma field_errors_sound mn fn f e :
  In e (field_errors mn (fn, VDict f)) -> type_error e ->
  exists ty, lookup "type" f = Some ty
             /\ in_strs ty field_types = false
             /\ e = invalid_type_msg ty fn mn.
Proof.
  unfold field_errors. cbn [fst snd].
  destruct (lookup "type" f) as [ty|].
  - destruct (in_strs ty field_types) eqn:E; [intros []|].
    intros [<-|[]] _. eauto.
  - intros [<-|[]] H. discriminate H.
Qed.

Lemma validate_field_reports mn fd errs n errs' n' :
  validate_field mn fd (errs, n) = Ok (errs', n') ->
  exists extra,
    errs' = (errs ++ extra)%list
    /\ (forall e, In e extra -> type_error e ->
          exists f ty, snd fd = VDict f /\ lookup "type" f = Some ty
                       /\ in_strs ty field_types = false
                       /\ e = invalid_type_msg ty (fst fd) mn)
    /\ (forall f, snd fd = VDict f -> extra = field_errors mn fd).
Proof.
  destruct fd as [fname fdef]. destruct fdef as [| | |s|l|f];
    try discriminate.
  - unfold validate_field. cbn [py_contains bind].
    destruct (is_substring "type" s); cbn; [discriminate|].
    intros [= <- <-]. eexists. split; [reflexivity|]. split.
    + intros e [<-|[]] H. discriminate H.
    + discriminate.
  - unfold validate_field. cbn [py_contains bind].
    destruct (existsb (is_str "type") l); cbn; [discriminate|].
    intros [= <- <-]. eexists. split; [reflexivity|]. split.
    + intros e [<-|[]] H. discriminate H.
    + discriminate.
  - rewrite validate_field_dict. intros [= <- <-].
    eexists. split; [reflexivity|]. split.
    + intros e He Ht. cbn [fst snd].
      destruct (@field_errors_sound _ _ _ _ He Ht) as (ty & ? & ? & ?).
      eauto 6.
    + reflexivity.
Qed.

Lemma validate_fields_report mn fields :
  forall errs n errs' n',
  for_each fields (validate_field mn) (errs, n) = Ok (errs', n') ->
  exists extra,
    errs' = (errs ++ extra)%list
    /\ (forall e, In e extra -> type_error e -> rejected mn fields e)
    /\ (forall fn f msg, In (fn, VDict f) fields ->
          In msg (field_errors mn (fn, VDict f)) -> In msg extra).
Proof.
  induction fields as [|fd fields IH]; intros errs n errs' n' H.
  - cbn in H. injection H as <- <-. exists []. rewrite app_nil_r.
    split; [reflexivity|]. split; [intros e []|intros fn f msg []].
  - cbn [for_each] in H.
    destruct (validate_field mn fd (errs, n)) as [[e1 n1]|] eqn:E;
      [|discriminate].
    cbn [bind] in H.
    destruct (@validate_field_reports _ _ _ _ _ _ E) as (x1 & -> & S1 & C1).
    destruct (IH _ _ _ _ H) as (x2 & -> & S2 & C2).
    exists (x1 ++ x2)%list. split; [now rewrite app_assoc|]. split.
    + intros e He Ht. apply in_app_or in He as [He|He].
      * destruct (S1 _ He Ht) as (f & ty & Hf & Hty & Hin & ->).
        destruct fd as [fname fdef]. cbn [fst snd] in *. subst fdef.
        exists fname, f, ty. repeat split; auto. now left.
      * destruct (S2 _ He Ht) as (fname & f & ty & Hin & Hty & Hno & ->).
        exists fname, f, ty. repeat split; auto. now right.
    + intros fn f msg [->|Hin] Hmsg; apply in_or_app.
      * left. now rewrite (C1 f eq_refl).
      * right. eauto.
Qed.

Lemma validate_model_reports md errs warns errs' warns' :
  validate_model md (errs, warns) = Ok (errs', warns') ->
  exists extra,
    errs' = (errs ++ extra)%list
    /\ (forall e, In e extra -> type_error e ->
          exists m fields,
            snd md = VDict m /\ lookup "fields" m = Some (VDict fields)
            /\ rejected (fst md) fields e)
    /\ (forall m fields fn f msg,
          snd md = VDict m -> lookup "fields" m = Some (VDict fields) ->
          In (fn, VDict f) fields ->
          In msg (field_errors (fst md) (fn, VDict f)) -> In msg extra).
Proof.
  destruct md as [name def]. unfold validate_model.
  rewrite append_if_app.
  set (e0 := if negb (match_dollar model_name_re name)
             then [model_name_msg name] else []).
  assert (H0 : forall e, In e e0 -> type_error e -> False).
  { subst e0. intros e. destruct (negb _); [|intros []].
    intros [<-|[]] H. discriminate H. }
  destruct def as [| | |s|l|m]; try discriminate; cbn [py_contains bind fst snd].
  - destruct (is_substring "fields" s); cbn; [discriminate|].
    intros [= <- <-]. exists (e0 ++ [missing_fields_msg name])%list.
    split; [now rewrite app_assoc|]. split; [|discriminate].
    intros e He Ht. apply in_app_or in He as [He|[<-|[]]];
      [destruct (H0 _ He Ht) | discriminate Ht].
  - destruct (existsb (is_str "fields") l); cbn; [discriminate|].
    intros [= <- <-]. exists (e0 ++ [missing_fields_msg name])%list.
    split; [now rewrite app_assoc|]. split; [|discriminate].
    intros e He Ht. apply in_app_or in He as [He|[<-|[]]];
      [destruct (H0 _ He Ht) | discriminate Ht].
  - unfold has_key, py_getitem.
    destruct (lookup "fields" m) as [fv|] eqn:Hf; cbn [negb bind].
    2: { intros [= <- <-]. exists (e0 ++ [missing_fields_msg name])%list.
         split; [now rewrite app_assoc|]. split.
         - intros e He Ht. apply in_app_or in He as [He|[<-|[]]];
             [destruct (H0 _ He Ht) | discriminate Ht].
         - intros m' fields fn f msg [= <-]. rewrite Hf. discriminate. }
    destruct fv as [| | | | |fields]; try discriminate. cbn [py_items bind].
    destruct (for_each fields (validate_field name) ((errs ++ e0)%list, 0))
      as [[e1 cnt]|] eqn:E; [|discriminate].
    cbn [bind].
    destruct (@validate_fields_report _ _ _ _ _ _ E) as (x & -> & Sx & Cx).
    assert (Hs : forall tl e,
               (forall e', In e' tl -> type_error e' -> False) ->
               In e (e0 ++ x ++ tl) -> type_error e ->
               exists m0 fields0,
                 VDict m = VDict m0
                 /\ lookup "fields" m0 = Some (VDict fields0)
                 /\ rejected name fields0 e).
    { intros tl e Htl He Ht.
      apply in_app_or in He as [He|He]; [destruct (H0 _ He Ht)|].
      apply in_app_or in He as [He|He]; [|destruct (Htl _ He Ht)].
      exists m, fields. split; [reflexivity|]. split; [exact Hf|].
      exact (Sx _ He Ht). }
    assert (Hc : forall tl m0 fields0 fn f msg,
               VDict m = VDict m0 ->
               lookup "fields" m0 = Some (VDict fields0) ->
               In (fn, VDict f) fields0 ->
               In msg (field_errors name (fn, VDict f)) ->
               In msg (e0 ++ x ++ tl)).
    { intros tl m0 fields0 fn f msg [= <-] Hf0 Hin Hmsg.
      rewrite Hf in Hf0. injection Hf0 as <-.
      apply in_or_app. right. apply in_or_app. left. eauto. }
    destruct (Nat.eqb cnt 0); [|destruct (Nat.ltb 1 cnt)]; intros [= <- <-].
    + exists (e0 ++ x ++ [])%list. split; [now rewrite app_nil_r, app_assoc|].
      split; [intros e; apply Hs; intros e' [] | apply Hc].
    + exists (e0 ++ x ++ [multiple_primary_keys_msg name])%list.
      split; [now rewrite <- !app_assoc|].
      split; [intros e; apply Hs; intros e' [<-|[]] H; discriminate H
             | apply Hc].
    + exists (e0 ++ x ++ [])%list. split; [now rewrite app_nil_r, app_assoc|].
      split; [intros e; apply Hs; intros e' [] | apply Hc].
Qed.

Lemma validate_models_report models :
  forall errs warns errs' warns',
  for_each models validate_model (errs, warns) = Ok (errs', warns') ->
  exists extra,
    errs' = (errs ++ extra)%list
    /\ (forall e, In e extra -> type_error e ->
          exists mn m fields,
            In (mn, VDict m) models
            /\ lookup "fields" m = Some (VDict fields)
            /\ rejected mn fields e)
    /\ (forall mn m fields fn f msg,
          In (mn, VDict m) models ->
          lookup "fields" m = Some (VDict fields) ->
          In (fn, VDict f) fields ->
          In msg (field_errors mn (fn, VDict f)) -> In msg extra).
Proof.
  induction models as [|md models IH]; intros errs warns errs' warns' H.
  - cbn in H. injection H as <- <-. exists []. rewrite app_nil_r.
    split; [reflexivity|].
    split; [intros e [] | intros mn m fields fn f msg []].
  - cbn [for_each] in H.
    destruct (validate_model md (errs, warns)) as [[e1 w1]|] eqn:E;
      [|discriminate].
    cbn [bind] in H.
    destruct (@validate_model_reports _ _ _ _ _ E) as (x1 & -> & S1 & C1).
    destruct (IH _ _ _ _ H) as (x2 & -> & S2 & C2).
    exists (x1 ++ x2)%list. split; [now rewrite app_assoc|]. split.
    + intros e He Ht. apply in_app_or in He as [He|He].
      * destruct (S1 _ He Ht) as (m & fields & Hm & Hf & Hr).
        destruct md as [mn mdef]. cbn [fst snd] in *. subst mdef.
        exists mn, m, fields. split; [now left|]. split; assumption.
      * destruct (S2 _ He Ht) as (mn & m & fields & Hin & Hf & Hr).
        exists mn, m, fields. split; [now right|]. split; assumption.
    + intros mn m fields fn f msg [->|Hin] Hf Hfd Hmsg; apply in_or_app.
      * left. eapply (C1 m fields fn f msg); eauto.
      * right. eauto.
Qed.

(** The other sections report nothing that reads like a field-type
    error. *)
Lemma append_if_plain (c : bool) msg errs e :
  In e (append_if c msg errs) -> In e errs \/ e = msg.
Proof.
  rewrite append_if_app. intros H. apply in_app_or in H as [H|H]; [now left|].
  destruct c; [destruct H as [<-|[]]; now right | destruct H].
Qed.

Ltac plain_errors He Ht :=
  repeat first
    [ apply append_if_plain in He as [He| ->]; [|discriminate Ht]
    | apply in_app_or in He as [He|He];
      [|solve [destruct He as [<-|[]]; discriminate Ht]]
    | destruct He as [<-|He]; [discriminate Ht|] ];
  try solve [destruct He].

Lemma validate_meta_plain meta errs e :
  _validate_meta meta = Ok errs -> In e errs -> type_error e -> False.
Proof.
  unfold _validate_meta. cbn [for_each].
  destruct (py_contains "name" meta) as [b1|]; [|discriminate]. cbn [bind].
  destruct (py_contains "version" meta) as [b2|]; [|discriminate]. cbn [bind].
  destruct (py_contains "framework" meta) as [b3|]; [|discriminate].
  cbn [bind].
  match goal with
  | |- context [if b3 then ?x else _] =>
      destruct b3;
      [destruct (py_getitem meta "framework") as [fw|]; [|discriminate]|]
  end; cbn [bind];
    (destruct b1;
     [destruct (py_getitem meta "name") as [nm|]; [|discriminate]; cbn [bind];
      destruct (re_match project_name_re nm) as [mt|]; [|discriminate]|]);
    cbn [bind]; intros [= <-] He Ht; plain_errors He Ht.
Qed.

Lemma validate_auth_plain auth errs e :
  _validate_auth auth = Ok errs -> In e errs -> type_error e -> False.
Proof.
  unfold _validate_auth.
  destruct (py_contains "provider" auth) as [b|]; [|discriminate]. cbn [bind].
  destruct (py_get auth "provider" VNone) as [p|]; [|discriminate]. cbn [bind].
  intros [= <-] He Ht. plain_errors He Ht.
Qed.

Lemma validate_endpoints_plain endpoints :
  forall errs errs',
  for_each endpoints validate_endpoint errs = Ok errs' ->
  (forall e, In e errs -> type_error e -> False) ->
  forall e, In e errs' -> type_error e -> False.
Proof.
  induction endpoints as [|ep endpoints IH]; intros errs errs' H Hp.
  - cbn in H. injection H as <-. exact Hp.
  - cbn [for_each] in H.
    destruct (validate_endpoint ep errs) as [e1|] eqn:E; [|discriminate].
    cbn [bind] in H. apply (IH _ _ H).
    unfold validate_endpoint in E.
    destruct (py_contains "path" ep) as [b1|]; [|discriminate].
    cbn [bind] in E.
    destruct (py_contains "method" ep) as [b2|]; [|discriminate].
    cbn [bind] in E. injection E as <-.
    intros e He Ht. plain_errors He Ht. eauto.
Qed.

Lemma validate_api_plain api errs e :
  _validate_api api = Ok errs -> In e errs -> type_error e -> False.
Proof.
  unfold _validate_api.
  destruct (py_contains "endpoints" api) as [b|]; [|discriminate].
  cbn [bind]. destruct b.
  - destruct (py_getitem api "endpoints") as [v|]; [|discriminate].
    cbn [bind]. destruct (py_iter v) as [l|]; [|discriminate]. cbn [bind].
    intros H. eapply validate_endpoints_plain; [exact H|]. intros e' [].
  - intros [= <-] [].
Qed.

Lemma missing_plain k d e :
  In e (missing k d (missing_section_msg k)) -> type_error e -> False.
Proof.
  unfold missing. destruct (has_key k d); [intros []|].
  intros [<-|[]] H. discriminate H.
Qed.

(** What [validate] reports about field types, on any document on which
    it returns. *)
Lemma validate_field_types d r :
  validate (VDict d) = Ok r ->
  (forall e, In e (errors r) -> type_error e ->
     exists models mn m fields,
       lookup "models" d = Some (VDict models)
       /\ In (mn, VDict m) models
       /\ lookup "fields" m = Some (VDict fields)
       /\ rejected mn fields e)
  /\ (forall models mn m fields fn f msg,
        lookup "models" d = Some (VDict models) ->
        In (mn, VDict m) models ->
        lookup "fields" m = Some (VDict fields) ->
        In (fn, VDict f) fields ->
        In msg (field_errors mn (fn, VDict f)) ->
        In msg (errors r) /\ valid r = false).
Proof.
  rewrite validate_sections.
  destruct (match lookup "meta" d with
            | Some meta => _validate_meta meta | None => Ok [] end)
    as [em|] eqn:Em; [|discriminate]. cbn [bind].
  destruct (match lookup "models" d with
            | Some models => _validate_models models | None => Ok ([], []) end)
    as [[emo w]|] eqn:Emo; [|discriminate]. cbn [bind].
  destruct (match lookup "auth" d with
            | Some auth => _validate_auth auth | None => Ok [] end)
    as [ea|] eqn:Ea; [|discriminate]. cbn [bind].
  destruct (match lookup "api" d with
            | Some api => _validate_api api | None => Ok [] end)
    as [eapi|] eqn:Eapi; [|discriminate]. cbn [bind fst snd].
  intros [= <-]. cbn [errors valid].
  assert (Hmodels :
            (forall e, In e emo -> type_error e ->
               exists models mn m fields,
                 lookup "models" d = Some (VDict models)
                 /\ In (mn, VDict m) models
                 /\ lookup "fields" m = Some (VDict fields)
                 /\ rejected mn fields e)
            /\ (forall models mn m fields fn f msg,
                  lookup "models" d = Some (VDict models) ->
                  In (mn, VDict m) models ->
                  lookup "fields" m = Some (VDict fields) ->
                  In (fn, VDict f) fields ->
                  In msg (field_errors mn (fn, VDict f)) -> In msg emo)).
  { destruct (lookup "models" d) as [mv|].
    - unfold _validate_models in Emo.
      destruct mv as [| | | | |models]; try discriminate.
      cbn [py_items bind] in Emo.
      destruct (@validate_models_report _ _ _ _ _ Emo) as (x & Hx & Sx & Cx).
      cbn [app] in Hx. subst x. split.
      + intros e He Ht.
        destruct (Sx _ He Ht) as (mn & m & fields & ? & ? & ?).
        exists models, mn, m, fields. auto.
      + intros models0 mn m fields fn f msg [= <-]. eauto.
    - injection Emo as <- <-. split; [intros e []|discriminate]. }
  destruct Hmodels as [Sm Cm]. split.
  - intros e He Ht.
    apply in_app_or in He as [He|He]; [destruct (@missing_plain _ _ _ He Ht)|].
    apply in_app_or in He as [He|He]; [destruct (@missing_plain _ _ _ He Ht)|].
    apply in_app_or in He as [He|He].
    { destruct (lookup "meta" d);
        [destruct (@validate_meta_plain _ _ _ Em He Ht)
        | injection Em as <-; destruct He]. }
    apply in_app_or in He as [He|He]; [exact (Sm _ He Ht)|].
    apply in_app_or in He as [He|He].
    { destruct (lookup "auth" d);
        [destruct (@validate_auth_plain _ _ _ Ea He Ht)
        | injection Ea as <-; destruct He]. }
    destruct (lookup "api" d);
      [destruct (@validate_api_plain _ _ _ Eapi He Ht)
      | injection Eapi as <-; destruct He].
  - intros models mn m fields fn f msg Hm Hin Hf Hfd Hmsg.
    assert (Hr : In msg emo) by eauto.
    assert (In msg
              (missing "meta" d (missing_section_msg "meta") ++
               missing "models" d (missing_section_msg "models") ++
               em ++ emo ++ ea ++ eapi)).
    { rewrite !in_app_iff. tauto. }
    split; [assumption|]. eapply nonempty_not_valid; eassumption.
Qed.

(** Membership in the enumeration of the code, value by value. *)
Lemma in_field_types ty :
  in_strs ty field_types = true
  <-> In ty [VStr "string"; VStr "text"; VStr "integer"; VStr "float";
             VStr "boolean"; VStr "datetime"; VStr "date"; VStr "uuid";
             VStr "url"; VStr "email"; VStr "json"; VStr "foreign_key";
             VStr "many_to_many"; VStr "choice"].
Proof.
  unfold in_strs, field_types. split.
  - intros H. apply existsb_exists in H as (s & Hs & Heq).
    destruct ty; try discriminate. cbn [is_str] in Heq.
    apply String.eqb_eq in Heq. subst.
    cbn in Hs. cbn. intuition (subst; auto 20).
  - intros H. apply existsb_exists.
    cbn in H.
    repeat (destruct H as [<-|H];
            [eexists; split; [|apply String.eqb_refl]; cbn; auto 20|]).
    destruct H.
Qed.

End FieldTypeErrors.

(** ** [DjangoGenerator.generate]: the models and serializers it returns *)

Section DjangoReturned.

Import BaseGenerator DjangoGenerator DjangoText Shape.

(** A loop that returns has met dictionaries only. *)
Lemma field_columns_shape fields :
  forall code code',
  for_each fields
    (fun fd code => decl <- field_declaration (fst fd) (snd fd) ;; Ok (code ++ decl))
    code = Ok code' ->
  forallb (fun kv => is_dict (snd kv)) fields = true.
Proof.
  induction fields as [|[fname fdef] fields IH]; intros code code' H.
  - reflexivity.
  - cbn [for_each fst snd] in H.
    destruct fdef as [| | | | |f]; try discriminate H.
    rewrite declaration_of_dict, bind_ok in H. cbn [bind] in H.
    cbn. eauto.
Qed.

Lemma model_class_shape md code code' :
  model_class md code = Ok code' -> model_ok (snd md) = true.
Proof.
  destruct md as [model_name model_config].
  destruct model_config as [| | | | |m]; try discriminate.
  unfold model_class, model_ok, entry_ok. cbn [py_get snd].
  destruct (lookup "description" m) as [desc|]; rewrite bind_ok;
    (destruct (lookup "fields" m) as [fs|]; [|reflexivity];
     rewrite bind_ok;
     destruct fs as [| | | | |fields]; try discriminate;
     cbn [py_items]; rewrite bind_ok;
     match goal with
     | |- context [for_each fields ?body ?c] =>
         destruct (for_each fields body c) as [c1|] eqn:E; [|discriminate]
     end;
     intros _; cbn; exact (@field_columns_shape _ _ _ E)).
Qed.

Lemma model_classes_shape models :
  forall code code',
  for_each models model_class code = Ok code' ->
  forallb (fun kv => model_ok (snd kv)) models = true.
Proof.
  induction models as [|md models IH]; intros code code' H.
  - reflexivity.
  - cbn [for_each] in H.
    destruct (model_class md code) as [c1|] eqn:E; [|discriminate].
    cbn [bind] in H. cbn [forallb].
    rewrite (@model_class_shape _ _ _ E). cbn. eauto.
Qed.

(** The two files in the map that [generate_files] returns. *)
Lemma generate_files_entries dsl_spec files :
  generate_files dsl_spec = Ok files ->
  exists models_py serializers_py,
    _generate_models_complete dsl_spec = Ok models_py
    /\ _generate_serializers_complete dsl_spec = Ok serializers_py
    /\ lookup "app/models.py" files = Some models_py
    /\ lookup "app/serializers.py" files = Some serializers_py.
Proof.
  unfold generate_files. intros H.
  destruct (_generate_manage_py dsl_spec) as [c0|];
    [rewrite bind_ok in H | discriminate H].
  destruct (_generate_models_complete dsl_spec) as [cm|];
    [rewrite bind_ok in H | discriminate H].
  destruct (_generate_views_complete dsl_spec) as [c1|];
    [rewrite bind_ok in H | discriminate H].
  destruct (_generate_urls_complete dsl_spec) as [c2|];
    [rewrite bind_ok in H | discriminate H].
  destruct (_generate_serializers_complete dsl_spec) as [cs|];
    [rewrite bind_ok in H | discriminate H].
  repeat match type of H with
         | bind ?m _ = _ =>
             let c := fresh "c" in
             destruct m as [c|]; [rewrite bind_ok in H | discriminate H]
         end.
  injection H as <-. exists cm, cs.
  split; [reflexivity|]. split; [reflexivity|].
  unfold integrity_manifest.
  cbn [lookup setitem filter fold_left String.eqb Ascii.eqb Bool.eqb negb
       fst snd].
  split; reflexivity.
Qed.

(** A document on which [generate] returns is a dictionary that
    [validate_dsl] accepts. *)
Lemma generate_accepted dsl_spec st files :
  fst (generate dsl_spec st) = Ok files ->
  exists d meta models,
    dsl_spec = VDict d
    /\ lookup "meta" d = Some (VDict meta)
    /\ lookup "models" d = Some (VDict models)
    /\ generate_files dsl_spec = Ok files.
Proof.
  intros H. apply django_generates_after_checks in H as (Hv & _ & Hf).
  destruct (generate_files_entries _ Hf) as (cm & _ & Hm & _).
  destruct dsl_spec as [| | | | |d]; try discriminate Hm.
  rewrite validate_dsl_dict in Hv. cbn [fst] in Hv.
  injection Hv as Hv. apply Nat.eqb_eq, length_zero_iff_nil in Hv.
  apply dsl_errors_nil in Hv. unfold DslErrors.accepted in Hv.
  destruct (lookup "meta" d) as [[| | | | |meta]|] eqn:Emeta;
    try discriminate Hv.
  destruct (lookup "models" d) as [[| | | | |models]|] eqn:Emodels;
    try discriminate Hv.
  exists d, meta, models. auto.
Qed.

Lemma models_file_closed d meta models code :
  lookup "meta" d = Some (VDict meta) ->
  lookup "models" d = Some (VDict models) ->
  _generate_models_complete (VDict d) = Ok code ->
  forallb (fun kv => model_ok (snd kv)) models = true
  /\ code = models_header (project_name_of d) ++ concat_map model_text models.
Proof.
  intros Hmeta Hmodels H.
  assert (Hok : forallb (fun kv => model_ok (snd kv)) models = true).
  { unfold _generate_models_complete in H.
    rewrite (@meta_get_dict _ _ _ _ Hmeta), bind_ok in H.
    cbn [py_get] in H. rewrite Hmodels, bind_ok in H.
    cbv zeta in H. cbn [py_items] in H. rewrite bind_ok in H.
    exact (@model_classes_shape _ _ _ H). }
  split; [exact Hok|].
  rewrite (@generate_models_after_parse _ _ _ Hmeta Hmodels Hok) in H.
  now injection H as <-.
Qed.

Lemma serializers_file_closed d meta models :
  lookup "meta" d = Some (VDict meta) ->
  lookup "models" d = Some (VDict models) ->
  forallb (fun kv => model_ok (snd kv)) models = true ->
  _generate_serializers_complete (VDict d)
  = Ok (serializers_header (project_name_of d)
          ++ concat_map serializer_text models).
Proof.
  intros Hmeta Hmodels Hok. unfold _generate_serializers_complete.
  rewrite (@meta_get_dict _ _ _ _ Hmeta), bind_ok. cbn [py_get].
  rewrite Hmodels, bind_ok. cbv zeta. cbn [py_items]. rewrite bind_ok.
  rewrite (@serializer_classes_loop _ Hok).
  unfold project_name_of. rewrite Hmeta. reflexivity.
Qed.

Lemma model_ok_fields m field_name field_config :
  model_ok (VDict m) = true ->
  In (field_name, field_config) (fields_of m) ->
  field_declaration field_name field_config
  = Ok (declaration_of (field_name, field_config)).
Proof.
  unfold model_ok, entry_ok, fields_of.
  destruct (lookup "fields" m) as [[| | | | |fields]|]; try (intros _ []).
  cbn [dict_of]. intros Hall Hin.
  rewrite forallb_forall in Hall. specialize (Hall _ Hin). cbn [snd] in Hall.
  destruct field_config; try discriminate. apply declaration_of_dict.
Qed.

End DjangoReturned.

(** On every document on which [validate] returns, a field definition
    (a dictionary) that has no [type], or whose [type] is none of the
    fourteen values of the enumeration, makes the result invalid, with
    the error that names the value (or the missing type), the field and
    the model. *)
Theorem validate_reports_type_outside_enumeration
  (d models m fields f : list (string * value))
  (model_name field_name : string) (r : DSLParser.validation_result) :
  DSLParser.validate (VDict d) = Ok r ->
  lookup "models" d = Some (VDict models) ->
  In (model_name, VDict m) models ->
  lookup "fields" m = Some (VDict fields) ->
  In (field_name, VDict f) fields ->
  match lookup "type" f with
  | None =>
      DSLParser.valid r = false
      /\ In ("Field '" ++ field_name ++ "' in model '" ++ model_name
               ++ "' must have a 'type'")
            (DSLParser.errors r)
  | Some ty =>
      ~ In ty [VStr "string"; VStr "text"; VStr "integer"; VStr "float";
               VStr "boolean"; VStr "datetime"; VStr "date"; VStr "uuid";
               VStr "url"; VStr "email"; VStr "json"; VStr "foreign_key";
               VStr "many_to_many"; VStr "choice"] ->
      DSLParser.valid r = false
      /\ In ("Invalid field type '" ++ py_str ty ++ "' for field '"
               ++ field_name ++ "' in model '" ++ model_name ++ "'")
            (DSLParser.errors r)
  end.
Proof.
  intros Hv Hmodels Hmodel Hfields Hfield.
  destruct (@validate_field_types _ _ Hv) as [_ Hc].
  assert (Hc' : forall msg,
             In msg (Shape.field_errors model_name (field_name, VDict f)) ->
             In msg (DSLParser.errors r) /\ DSLParser.valid r = false).
  { intros msg. exact (Hc _ _ _ _ _ _ msg Hmodels Hmodel Hfields Hfield). }
  clear Hc. unfold Shape.field_errors in Hc'. cbn [fst snd] in Hc'.
  destruct (lookup "type" f) as [ty|].
  - intros Hout.
    destruct (in_strs ty DSLParser.field_types) eqn:E.
    + apply in_field_types in E. contradiction.
    + destruct (Hc' _ (or_introl eq_refl)). auto.
  - destruct (Hc' _ (or_introl eq_refl)). auto.
Qed.

Lemma validate_reports_type_outside_enumeration_witness :
  exists r,
    DSLParser.validate (VDict Examples3.all_types_document) = Ok r
    /\ (DSLParser.valid r = false
        /\ In "Invalid field type 'decimal' for field 'g' in model 'Item'"
              (DSLParser.errors r))
    /\ (DSLParser.valid r = false
        /\ In "Field 'h' in model 'Item' must have a 'type'"
              (DSLParser.errors r)).
Proof.
  assert (E : exists r,
             DSLParser.validate (VDict Examples3.all_types_document) = Ok r).
  { eexists. vm_compute. reflexivity. }
  destruct E as [r E]. exists r. split; [exact E|]. split.
  - apply (@validate_reports_type_outside_enumeration
             Examples3.all_types_document Examples3.all_types_models
             Examples3.all_types_model Examples3.all_types_fields
             [("type", VStr "decimal")] "Item" "g" r E).
    + reflexivity.
    + left. reflexivity.
    + reflexivity.
    + vm_compute. auto 20.
    + vm_compute. intuition discriminate.
  - apply (@validate_reports_type_outside_enumeration
             Examples3.all_types_document Examples3.all_types_models
             Examples3.all_types_model Examples3.all_types_fields
             [("required", VBool true)] "Item" "h" r E).
    + reflexivity.
    + left. reflexivity.
    + reflexivity.
    + vm_compute. auto 20.
Defined.

(** On every document on which [validate] returns, each error that
    starts with [Invalid field type] is the error of a field definition
    whose [type] is none of the fourteen values of the enumeration: a
    field whose type is one of them is never the cause of such an
    error. *)
Theorem field_type_errors_name_a_type_outside_enumeration
  (d : list (string * value)) (r : DSLParser.validation_result) (e : string) :
  DSLParser.validate (VDict d) = Ok r ->
  In e (DSLParser.errors r) ->
  String.prefix "Invalid field type" e = true ->
  exists models model_name m fields field_name f ty,
    lookup "models" d = Some (VDict models)
    /\ In (model_name, VDict m) models
    /\ lookup "fields" m = Some (VDict fields)
    /\ In (field_name, VDict f) fields
    /\ lookup "type" f = Some ty
    /\ ~ In ty [VStr "string"; VStr "text"; VStr "integer"; VStr "float";
                VStr "boolean"; VStr "datetime"; VStr "date"; VStr "uuid";
                VStr "url"; VStr "email"; VStr "json"; VStr "foreign_key";
                VStr "many_to_many"; VStr "choice"]
    /\ e = "Invalid field type '" ++ py_str ty ++ "' for field '"
             ++ field_name ++ "' in model '" ++ model_name ++ "'".
Proof.
  intros Hv He Ht.
  destruct (@validate_field_types _ _ Hv) as [Hs _].
  destruct (Hs _ He Ht)
    as (models & mn & m & fields & Hm & Hin & Hf & fn & f & ty
        & Hfd & Hty & Hno & ->).
  exists models, mn, m, fields, fn, f, ty.
  repeat (split; [assumption|]). split; [|reflexivity].
  intros Hin14. apply in_field_types in Hin14. congruence.
Qed.

Lemma field_type_errors_name_a_type_outside_enumeration_witness :
  exists models model_name m fields field_name f ty,
    lookup "models" Examples3.all_types_document = Some (VDict models)
    /\ In (model_name, VDict m) models
    /\ lookup "fields" m = Some (VDict fields)
    /\ In (field_name, VDict f) fields
    /\ lookup "type" f = Some ty
    /\ ~ In ty [VStr "string"; VStr "text"; VStr "integer"; VStr "float";
                VStr "boolean"; VStr "datetime"; VStr "date"; VStr "uuid";
                VStr "url"; VStr "email"; VStr "json"; VStr "foreign_key";
                VStr "many_to_many"; VStr "choice"]
    /\ "Invalid field type 'decimal' for field 'g' in model 'Item'"
       = "Invalid field type '" ++ py_str ty ++ "' for field '"
           ++ field_name ++ "' in model '" ++ model_name ++ "'".
Proof.
  apply (@field_type_errors_name_a_type_outside_enumeration
           Examples3.all_types_document
           {| DSLParser.valid := false;
              DSLParser.errors :=
                ["Invalid field type 'decimal' for field 'g' in model 'Item'";
                 "Field 'h' in model 'Item' must have a 'type'"];
              DSLParser.warnings :=
                ["Model 'Item' has no primary key. An 'id' field will be auto-generated."] |}).
  - vm_compute. reflexivity.
  - left. reflexivity.
  - reflexivity.
Defined.

(** C10 (amended): in every file map that [generate] returns,
    [app/models.py] is the header followed, for each model, by a class
    whose first column is the hard-coded UUID primary key [id], then one
    declaration for each field of the model in its order (a field named
    [id] included), then the timestamps; changing the [primary_key]
    entries of the field definitions in any way leaves the file as it is;
    and [app/serializers.py] lists for each model
    [['id'] + field names + ['created_at', 'updated_at']]. *)
Theorem django_models_file_declares_id_first
  (dsl_spec : value) (st : BaseGenerator.gen_state)
  (files : DjangoGenerator.file_map) :
  fst (DjangoGenerator.generate dsl_spec st) = Ok files ->
  exists d models,
    dsl_spec = VDict d
    /\ lookup "models" d = Some (VDict models)
    /\ lookup "app/models.py" files
       = Some (DjangoGenerator.models_header (DjangoText.project_name_of d)
                 ++ concat_map DjangoText.model_text models)
    /\ (forall model_name model_config,
          In (model_name, model_config) models ->
          exists m,
            model_config = VDict m
            /\ DjangoText.model_text (model_name, model_config)
               = DjangoText.class_head model_name m
                   ++ "    id = models.UUIDField(primary_key=True, default=uuid.uuid4, editable=False)
"
                   ++ concat_map DjangoText.declaration_of (DjangoText.fields_of m)
                   ++ DjangoText.class_tail model_name (DjangoText.fields_of m)
            /\ (forall field_name field_config,
                  In (field_name, field_config) (DjangoText.fields_of m) ->
                  DjangoGenerator.field_declaration field_name field_config
                  = Ok (DjangoText.declaration_of (field_name, field_config)))
            /\ DjangoText.serializer_text (model_name, model_config)
               = DjangoText.serializer_for model_name
                   (["id"] ++ keys (DjangoText.fields_of m)
                           ++ ["created_at"; "updated_at"])%list)
    /\ (forall g st2 files2,
          DjangoText.changes_only_primary_key g ->
          fst (DjangoGenerator.generate (DjangoText.map_field_defs g dsl_spec) st2)
          = Ok files2 ->
          lookup "app/models.py" files2 = lookup "app/models.py" files)
    /\ lookup "app/serializers.py" files
       = Some (DjangoGenerator.serializers_header (DjangoText.project_name_of d)
                 ++ concat_map DjangoText.serializer_text models).
Proof.
  intros H.
  destruct (@generate_accepted _ _ _ H) as (d & meta & models & -> & Hmeta & Hmodels & Hf).
  destruct (@generate_files_entries _ _ Hf) as (cm & cs & Em & Es & Lm & Ls).
  destruct (@models_file_closed _ _ _ _ Hmeta Hmodels Em) as [Hok ->].
  exists d, models. split; [reflexivity|]. split; [exact Hmodels|].
  split; [exact Lm|]. split; [|split].
  - intros model_name model_config Hin.
    rewrite forallb_forall in Hok. specialize (Hok _ Hin). cbn [snd] in Hok.
    destruct model_config as [| | | | |m]; try discriminate Hok.
    exists m. split; [reflexivity|]. split; [reflexivity|].
    split; [|reflexivity].
    intros field_name field_config. now apply model_ok_fields.
  - intros g st2 files2 Hg H2.
    apply django_generates_after_checks in H2 as (_ & _ & Hf2).
    destruct (@generate_files_entries _ _ Hf2) as (cm2 & _ & Em2 & _ & Lm2 & _).
    rewrite (@generate_models_ignores_primary_key _ _ Hg), Em in Em2.
    injection Em2 as <-. now rewrite Lm, Lm2.
  - rewrite Ls. f_equal.
    rewrite (@serializers_file_closed _ _ _ Hmeta Hmodels Hok) in Es.
    now injection Es as <-.
Qed.

Lemma django_models_file_declares_id_first_witness :
  exists files d models,
    fst (DjangoGenerator.generate Examples.scenario_B BaseGenerator.init_state)
    = Ok files
    /\ Examples.scenario_B = VDict d
    /\ lookup "models" d = Some (VDict models)
    /\ lookup "app/models.py" files
       = Some (DjangoGenerator.models_header (DjangoText.project_name_of d)
                 ++ concat_map DjangoText.model_text models).
Proof.
  assert (E : exists files,
             fst (DjangoGenerator.generate Examples.scenario_B
                    BaseGenerator.init_state) = Ok files).
  { eexists. vm_compute. reflexivity. }
  destruct E as [files E].
  destruct (@django_models_file_declares_id_first
              Examples.scenario_B BaseGenerator.init_state files E)
    as (d & models & Hd & Hm & Hf & _).
  exists files, d, models. auto.
Defined.

(** C10 (as stated): the [id] field that the normaliser adds changes the
    columns.  From scenario B the class [Task] of [app/models.py] declares
    [id] and [title]; from what [parse] returns for scenario B it
    declares [id], [title] and a second [id], a [CharField]. *)
Lemma injected_id_adds_a_column :
  DSLParser.parse Examples.scenario_B = Ok Examples.normalized_scenario_B
  /\ exists files files',
       fst (DjangoGenerator.generate Examples.scenario_B
              BaseGenerator.init_state) = Ok files
       /\ fst (DjangoGenerator.generate Examples.normalized_scenario_B
                 BaseGenerator.init_state) = Ok files'
       /\ lookup "app/models.py" files
          = Some (DjangoGenerator.models_header (VStr "todo")
                    ++ DjangoText.class_head "Task" Examples.task_model
                    ++ DjangoText.id_column
                    ++ "    title = models.CharField(max_length=255, blank=False)
"
                    ++ DjangoText.class_tail "Task" Examples.task_fields)
       /\ lookup "app/models.py" files'
          = Some (DjangoGenerator.models_header (VStr "todo")
                    ++ DjangoText.class_head "Task" Examples.task_model
                    ++ DjangoText.id_column
                    ++ "    title = models.CharField(max_length=255, blank=False)
"
                    ++ "    id = models.CharField(max_length=255, blank=True)
"
                    ++ DjangoText.class_tail "Task" Examples.normalized_task_fields)
       /\ lookup "app/models.py" files' <> lookup "app/models.py" files.
Proof.
  split; [vm_compute; reflexivity|].
  eexists. eexists.
  split; [vm_compute; reflexivity|].
  split; [vm_compute; reflexivity|].
  split; [vm_compute; reflexivity|].
  split; [vm_compute; reflexivity|].
  intros H.
  apply (f_equal (fun o => match o with
                           | Some s => N.of_nat (String.length s)
                           | None => 0%N
                           end)) in H.
  vm_compute in H. discriminate H.
Qed.

